(** * ftplib: a shallow embedding of the FTP client, server and listing codec

    The Go sources are embedded function by function.  Go strings are byte
    sequences ([list ascii]); Go [int] is the 64-bit signed integer, carried
    in [Z] with its wrap-around written out where the program computes with
    it; a run-time panic is an explicit outcome ([Panic]); the operating
    system and the network are records of operations over an abstract world,
    so every theorem holds for every behaviour of the outside world. *)

From Stdlib Require Import ZArith Lia List Bool Ascii String.
From stdpp Require Import base option list strings gmap.

Local Open Scope Z_scope.

(* ------------------------------------------------------------------ *)
(** ** The Go run time: panics, strings, slices                        *)
(* ------------------------------------------------------------------ *)

Inductive panic : Type :=
| NilDereference
| IndexOutOfRange
| SliceBoundsOutOfRange.

(** The outcome of running a piece of Go code: it returns, or it panics. *)
Inductive run (A : Type) : Type :=
| Done (a : A)
| Panic (p : panic).
Arguments Done {A} a.
Arguments Panic {A} p.

Global Instance run_ret : MRet run := fun A a => Done a.
Global Instance run_bind : MBind run := fun A B k m =>
  match m with
  | Done a => k a
  | Panic p => Panic p
  end.

(** A Go string: its bytes. *)
Definition gostring : Type := list ascii.

Definition lit (s : string) : gostring := list_ascii_of_string s.

Definition TAB : ascii := "009"%char.
Definition LF : ascii := "010"%char.
Definition CR : ascii := "013"%char.
Definition SP : ascii := " "%char.
Definition QUOTE : ascii := "034"%char.
Definition CRLF : gostring := [CR; LF].

Definition streq (a b : gostring) : bool := bool_decide (a = b).

(** [len(s)] *)
Definition len {A} (s : list A) : Z := Z.of_nat (length s).

(** [s[i]]: panics when [i] is out of range. *)
Definition at_index {A} (s : list A) (i : Z) : run A :=
  if (0 <=? i) && (i <? len s) then
    match s !! Z.to_nat i with
    | Some c => Done c
    | None => Panic IndexOutOfRange
    end
  else Panic IndexOutOfRange.

(** [s[lo:hi]]: panics unless [0 <= lo <= hi <= len(s)]. *)
Definition slice {A} (s : list A) (lo hi : Z) : run (list A) :=
  if (0 <=? lo) && (lo <=? hi) && (hi <=? len s) then
    Done (take (Z.to_nat (hi - lo)) (drop (Z.to_nat lo) s))
  else Panic SliceBoundsOutOfRange.

(** [s[lo:]] *)
Definition slice_from {A} (s : list A) (lo : Z) : run (list A) :=
  slice s lo (len s).

(** The 64-bit two's complement value of a mathematical integer: what a Go
    [int] expression holds after overflow. *)
Definition wrap64 (z : Z) : Z := (z + 2 ^ 63) mod 2 ^ 64 - 2 ^ 63.

Definition MaxInt64 : Z := 2 ^ 63 - 1.
Definition MinInt64 : Z := - 2 ^ 63.
Definition MaxUint64 : Z := 2 ^ 64 - 1.

(** Go's [error] values, as far as the program makes or inspects them. *)
Inductive error : Type :=
| io_EOF
| errors_New (msg : gostring)
| textproto_Error (code : Z) (msg : gostring)
| strconv_ErrSyntax (fn num : gostring)
| strconv_ErrRange (fn num : gostring)
| time_ParseError (value : gostring)
| sys_error (msg : gostring).

Global Instance error_eq_dec : EqDecision error.
Proof. solve_decision. Defined.

(** A pair [(value, err)] as Go functions return it is kept as a pair; where
    the value is a pointer that is nil exactly when the call failed, the pair
    is the sum [result]. *)
Inductive result (A : Type) : Type :=
| Ok (a : A)
| Err (e : error).
Arguments Ok {A} a.
Arguments Err {A} e.

(* ------------------------------------------------------------------ *)
(** ** Package strings                                                 *)
(* ------------------------------------------------------------------ *)

Definition is_ascii (c : ascii) : bool := (N_of_ascii c <? 128)%N.

(** [strings.HasPrefix(s, p)] *)
Fixpoint HasPrefix (s p : gostring) {struct p} : bool :=
  match p, s with
  | [], _ => true
  | _ :: _, [] => false
  | b :: p', c :: s' => Ascii.eqb b c && HasPrefix s' p'
  end.

Fixpoint Index_from (s sep : gostring) (i : Z) : Z :=
  if HasPrefix s sep then i
  else match s with
       | [] => -1
       | _ :: t => Index_from t sep (i + 1)
       end.

(** [strings.Index(s, sep)]: the first position of [sep] in [s], or -1. *)
Definition Index (s sep : gostring) : Z := Index_from s sep 0.

Fixpoint LastIndex_from (s sep : gostring) (i best : Z) : Z :=
  let best' := if HasPrefix s sep then i else best in
  match s with
  | [] => best'
  | _ :: t => LastIndex_from t sep (i + 1) best'
  end.

(** [strings.LastIndex(s, sep)]: the last position of [sep] in [s], or -1. *)
Definition LastIndex (s sep : gostring) : Z := LastIndex_from s sep 0 (-1).

(** [strings.Contains(s, sub)] *)
Definition Contains (s sub : gostring) : bool := 0 <=? Index s sub.

Definition cons_head (c : ascii) (l : list gostring) : list gostring :=
  match l with
  | [] => [[c]]
  | h :: r => (c :: h) :: r
  end.

(** The pieces of [s] around the occurrences of a non-empty [sep], scanned
    from the left; [skip] counts the bytes of a matched separator still to
    pass over. *)
Fixpoint Split_from (sep : gostring) (skip : nat) (s : gostring) : list gostring :=
  match s with
  | [] => [[]]
  | c :: t =>
      match skip with
      | S k => Split_from sep k t
      | O =>
          if HasPrefix s sep then [] :: Split_from sep (length sep - 1) t
          else cons_head c (Split_from sep 0 t)
      end
  end.

(** [strings.Split(s, sep)] for a non-empty separator (the program passes
    [" "], [","], [":"] and a line feed); with the empty separator Go
    explodes [s] into its UTF-8 sequences, here into its bytes. *)
Definition Split (s sep : gostring) : list gostring :=
  match sep with
  | [] => map (fun c => [c]) s
  | _ :: _ => Split_from sep 0 s
  end.

(** [strings.SplitN(s, sep, 2)] for a non-empty separator: cut at the first
    occurrence. *)
Definition SplitN2 (s sep : gostring) : list gostring :=
  let i := Index s sep in
  if i <? 0 then [s]
  else [take (Z.to_nat i) s; drop (Z.to_nat i + length sep) s].

(** [strings.Join(a, sep)] *)
Fixpoint Join (a : list gostring) (sep : gostring) : gostring :=
  match a with
  | [] => []
  | [x] => x
  | x :: r => x ++ sep ++ Join r sep
  end.

Fixpoint Replace_from (old new : gostring) (skip : nat) (s : gostring) : gostring :=
  match s with
  | [] => []
  | c :: t =>
      match skip with
      | S k => Replace_from old new k t
      | O =>
          if HasPrefix s old then new ++ Replace_from old new (length old - 1) t
          else c :: Replace_from old new 0 t
      end
  end.

(** [strings.ReplaceAll(s, old, new)] for a non-empty [old]. *)
Definition ReplaceAll (s old new : gostring) : gostring := Replace_from old new 0 s.

Definition bytes_of (l : list N) : gostring := map ascii_of_N l.

(** The UTF-8 encodings of the runes for which [unicode.IsSpace] holds:
    tab, line feed, vertical tab, form feed, carriage return, space, U+0085,
    U+00A0, U+1680, U+2000..U+200A, U+2028, U+2029, U+202F, U+205F, U+3000.
    Each of them is a lead byte followed by continuation bytes, so one of
    them starts at a byte position exactly when Go's decoder reads that rune
    there. *)
Definition space_runes : list gostring :=
  map bytes_of
    [ [9]; [10]; [11]; [12]; [13]; [32];
      [194; 133]; [194; 160]; [225; 154; 128];
      [226; 128; 128]; [226; 128; 129]; [226; 128; 130]; [226; 128; 131];
      [226; 128; 132]; [226; 128; 133]; [226; 128; 134]; [226; 128; 135];
      [226; 128; 136]; [226; 128; 137]; [226; 128; 138];
      [226; 128; 168]; [226; 128; 169]; [226; 128; 175];
      [226; 129; 159]; [227; 128; 128] ]%N.

(** The length of the pattern of [pats] that starts [s], or 0. *)
Definition match_width (pats : list gostring) (s : gostring) : nat :=
  match List.find (HasPrefix s) pats with
  | Some p => length p
  | None => 0%nat
  end.

(** The width of the white-space rune at the head of [s], or 0. *)
Definition space_width (s : gostring) : nat := match_width space_runes s.

Definition push_word (w : gostring) (l : list gostring) : list gostring :=
  match w with
  | [] => l
  | _ :: _ => w :: l
  end.

(** The word that starts at the head of [s] (empty when [s] starts with
    white space) and the words after it. *)
Fixpoint Fields_from (skip : nat) (s : gostring) : gostring * list gostring :=
  match s with
  | [] => ([], [])
  | c :: t =>
      match skip with
      | S k => let '(w, l) := Fields_from k t in ([], push_word w l)
      | O =>
          match space_width s with
          | S k => let '(w, l) := Fields_from k t in ([], push_word w l)
          | O => let '(w, l) := Fields_from 0 t in (c :: w, l)
          end
      end
  end.

(** [strings.Fields(s)]: the maximal runs of bytes of [s] that hold no
    white-space rune. *)
Definition Fields (s : gostring) : list gostring :=
  let '(w, l) := Fields_from 0 s in push_word w l.

Fixpoint trim_left (pats : list gostring) (skip : nat) (s : gostring) : gostring :=
  match s with
  | [] => []
  | _ :: t =>
      match skip with
      | S k => trim_left pats k t
      | O =>
          match match_width pats s with
          | S k => trim_left pats k t
          | O => s
          end
      end
  end.

(** [strings.TrimSpace(s)]: [s] without its leading and trailing white-space
    runes; the trailing ones are read from the end, against the reversed
    encodings. *)
Definition TrimSpace (s : gostring) : gostring :=
  rev (trim_left (map (@rev ascii) space_runes) 0 (rev (trim_left space_runes 0 s))).

Definition upper_byte (c : ascii) : ascii :=
  let n := N_of_ascii c in
  if ((97 <=? n) && (n <=? 122))%N then ascii_of_N (n - 32) else c.

(** [strings.ToUpper(s)].  Exact on ASCII bytes and on the two runes whose
    upper case is an ASCII letter (U+0131 to [I], U+017F to [S]); every other
    byte of a multi-byte rune is copied, which differs from Go only in bytes
    above 127, so comparisons of the result with ASCII words agree with
    Go's. *)
Fixpoint ToUpper (s : gostring) : gostring :=
  match s with
  | [] => []
  | c :: t =>
      match t with
      | d :: t' =>
          if Ascii.eqb c (ascii_of_N 196) && Ascii.eqb d (ascii_of_N 177)
          then "I"%char :: ToUpper t'
          else if Ascii.eqb c (ascii_of_N 197) && Ascii.eqb d (ascii_of_N 191)
          then "S"%char :: ToUpper t'
          else upper_byte c :: ToUpper t
      | [] => [upper_byte c]
      end
  end.

(* ------------------------------------------------------------------ *)
(** ** Package strconv and the verbs of fmt the program uses           *)
(* ------------------------------------------------------------------ *)

Definition is_digit (c : ascii) : bool :=
  let n := N_of_ascii c in ((48 <=? n) && (n <=? 57))%N.

Definition digit_val (c : ascii) : Z := Z.of_N (N_of_ascii c) - 48.

Definition digit_char (d : Z) : ascii := ascii_of_N (Z.to_N d + 48).

(** The number a run of decimal digits spells. *)
Definition digits_val (s : gostring) : Z :=
  fold_left (fun a c => a * 10 + digit_val c) s 0.

(** [strconv.ParseUint(s, 10, 0)] on a 64-bit platform: decimal digits
    only, no sign; on overflow the largest value comes with a range error. *)
Definition ParseUint (s : gostring) : Z * option error :=
  match s with
  | [] => (0, Some (strconv_ErrSyntax (lit "ParseUint") s))
  | _ :: _ =>
      if forallb is_digit s then
        if digits_val s <=? MaxUint64 then (digits_val s, None)
        else (MaxUint64, Some (strconv_ErrRange (lit "ParseUint") s))
      else (0, Some (strconv_ErrSyntax (lit "ParseUint") s))
  end.

(** [strconv.ParseInt(s, 10, 0)]: an optional sign, then [ParseUint]; out of
    range, the nearest bound comes with a range error. *)
Definition ParseInt (fn s : gostring) : Z * option error :=
  match s with
  | [] => (0, Some (strconv_ErrSyntax fn s))
  | c :: t =>
      let neg := Ascii.eqb c "-" in
      let body := if Ascii.eqb c "+" || neg then t else s in
      match ParseUint body with
      | (_, Some (strconv_ErrRange _ _)) =>
          if neg then (MinInt64, Some (strconv_ErrRange fn s))
          else (MaxInt64, Some (strconv_ErrRange fn s))
      | (_, Some _) => (0, Some (strconv_ErrSyntax fn s))
      | (un, None) =>
          if negb neg && (2 ^ 63 <=? un) then (MaxInt64, Some (strconv_ErrRange fn s))
          else if neg && (2 ^ 63 <? un) then (MinInt64, Some (strconv_ErrRange fn s))
          else (if neg then - un else un, None)
      end
  end.

(** [strconv.Atoi(s)] *)
Definition Atoi (s : gostring) : Z * option error := ParseInt (lit "Atoi") s.

Fixpoint digits_fuel (fuel : nat) (n : Z) (acc : gostring) : gostring :=
  match fuel with
  | O => acc
  | S f =>
      let acc' := digit_char (n mod 10) :: acc in
      if n / 10 =? 0 then acc' else digits_fuel f (n / 10) acc'
  end.

(** The decimal digits of [0 <= n < 10^20] (every 64-bit value). *)
Definition FormatUint (n : Z) : gostring := digits_fuel 20 n [].

(** [strconv.Itoa(n)], also what the verb [%d] prints. *)
Definition Itoa (n : Z) : gostring :=
  if n <? 0 then "-"%char :: FormatUint (- n) else FormatUint n.

(** A width in a verb ([%8d]): spaces on the left up to [w] bytes. *)
Definition pad_left (w : nat) (s : gostring) : gostring :=
  repeat SP (w - length s) ++ s.

(* ------------------------------------------------------------------ *)
(** ** Code with effects: a state monad over panics                    *)
(* ------------------------------------------------------------------ *)

Definition M (S A : Type) : Type := S -> run (A * S).

Global Instance M_ret {S} : MRet (M S) := fun A a s => Done (a, s).
Global Instance M_bind {S} : MBind (M S) := fun A B k m s =>
  match m s with
  | Done (a, s') => k a s'
  | Panic p => Panic p
  end.

Definition get {S} : M S S := fun s => Done (s, s).
Definition put {S} (s : S) : M S unit := fun _ => Done (tt, s).
Definition modify {S} (f : S -> S) : M S unit := fun s => Done (tt, f s).
Definition throw {S A} (p : panic) : M S A := fun _ => Panic p.
Definition lift {S A} (r : run A) : M S A := fun s =>
  match r with
  | Done a => Done (a, s)
  | Panic p => Panic p
  end.

Definition call {S A} (f : S -> A * S) : M S A := fun s => Done (f s).

(* ------------------------------------------------------------------ *)
(** ** Status codes and command words                                  *)
(* ------------------------------------------------------------------ *)

(** Modelled from the spec: the file that declares the status codes, the
    command words and the [Message] table is not among the sources; the
    codes are the ones section 6 of the specification lists (550 for
    file-unavailable: the store handler writes 450 and 550 as literals). *)
Definition StatusAlreadyOpen : Z := 125.
Definition StatusAboutToSend : Z := 150.
Definition StatusCommandOK : Z := 200.
Definition StatusSystem : Z := 211.
Definition StatusFile : Z := 213.
Definition StatusName : Z := 215.
Definition StatusReady : Z := 220.
Definition StatusClosingDataConnection : Z := 226.
Definition StatusPassiveMode : Z := 227.
Definition StatusExtendedPassiveMode : Z := 229.
Definition StatusLoggedIn : Z := 230.
Definition StatusRequestedFileActionOK : Z := 250.
Definition StatusPathCreated : Z := 257.
Definition StatusUserOK : Z := 331.
Definition StatusRequestFilePending : Z := 350.
Definition StatusCanNotOpenDataConnection : Z := 425.
Definition StatusTransfertAborted : Z := 426.
Definition StatusBadArguments : Z := 501.
Definition StatusCommandNotImplemented : Z := 502.
Definition StatusFileUnavailable : Z := 550.

(* ------------------------------------------------------------------ *)
(** ** The client                                                      *)
(* ------------------------------------------------------------------ *)

Module Client.

(** The network as the client meets it, over a world [N]: connections are
    handles; every operation may change the world and may fail. *)
Record Network (N : Type) : Type := {
  (** [net.DialTimeout("tcp", addr, timeout)] *)
  net_DialTimeout : gostring -> Z -> N -> result nat * N;
  (** the IP of [tconn.RemoteAddr()], as text *)
  net_RemoteIP : nat -> N -> gostring;
  (** [textproto.Conn.Cmd]: send one command line *)
  textproto_Cmd : nat -> gostring -> N -> option error * N;
  (** [textproto.Conn.ReadResponse(expectCode)]: code, message, error *)
  textproto_ReadResponse : nat -> Z -> N -> (Z * gostring * option error) * N;
  (** [Close] of a control or data connection *)
  net_Close : nat -> N -> option error * N
}.
Arguments net_DialTimeout {N} _ _ _ _.
Arguments net_RemoteIP {N} _ _ _.
Arguments textproto_Cmd {N} _ _ _ _.
Arguments textproto_ReadResponse {N} _ _ _ _.
Arguments net_Close {N} _ _ _.

(** [ClientConn]; a [*ClientConn] is an [option ClientConn], nil being
    [None]. *)
Record ClientConn : Type := {
  conn : nat;
  host : gostring;
  timeout : Z;
  features : gmap gostring gostring
}.

(** The part of [pasv] after the reply has been read: the port in the reply
    text [line]. *)
Definition pasv_reply (line : gostring) : run (Z * option error) :=
  let start := Index line (lit "(") in
  let end_ := LastIndex line (lit ")") in
  if (start =? -1) || (end_ =? -1) then
    Done (0, Some (errors_New (lit "invalid PASV response format")))
  else
    body ← slice line (start + 1) end_;
    let lst := Split body (lit ",") in
    let n := len lst in
    sx ← at_index lst (n - 2);
    let x := fst (Atoi sx) in
    sy ← at_index lst (n - 1);
    let y := fst (Atoi sy) in
    Done (wrap64 (x * 256 + y), None).

(** The part of [epsv] after the reply has been read. *)
Definition epsv_reply (line : gostring) : run (Z * option error) :=
  let start := Index line (lit "|||") in
  let end_ := LastIndex line (lit "|") in
  if (start =? -1) || (end_ =? -1) then
    Done (0, Some (errors_New (lit "invalid EPSV response format")))
  else
    body ← slice line (start + 3) end_;
    Done (Atoi body).

(** [net.JoinHostPort] *)
Definition JoinHostPort (h port : gostring) : gostring :=
  if 0 <=? Index h (lit ":") then lit "[" ++ h ++ lit "]:" ++ port
  else h ++ lit ":" ++ port.

Section WithNetwork.

Context {N : Type} (net : Network N).

(** [cmd]: send the formatted command line, then read one response. *)
Definition cmd (c : ClientConn) (expected : Z) (line : gostring)
  : M N (Z * gostring * option error) :=
  err ← call (textproto_Cmd net (conn c) line);
  match err with
  | Some e => mret (0, [], Some e)
  | None => call (textproto_ReadResponse net (conn c) expected)
  end.

(** [Quit]: called on a nil connection it reads [c.conn] and panics. *)
Definition Quit (c : option ClientConn) : M N (option error) :=
  match c with
  | None => throw NilDereference
  | Some c =>
      _ ← call (textproto_Cmd net (conn c) (lit "QUIT"));
      call (net_Close net (conn c))
  end.

Definition epsv (c : ClientConn) : M N (Z * option error) :=
  '(_, line, err) ← cmd c StatusExtendedPassiveMode (lit "EPSV");
  match err with
  | Some e => mret (0, Some e)
  | None => lift (epsv_reply line)
  end.

Definition pasv (c : ClientConn) : M N (Z * option error) :=
  '(_, line, err) ← cmd c StatusPassiveMode (lit "PASV");
  match err with
  | Some e => mret (0, Some e)
  | None => lift (pasv_reply line)
  end.

(** [openDataConn]: the inner [if] has an empty body, so whatever the two
    negotiations returned, the dial follows. *)
Definition openDataConn (c : ClientConn) : M N (result nat) :=
  '(port, err) ← epsv c;
  '(port, err) ← match err with
                  | Some _ => pasv c
                  | None => mret (port, err)
                  end;
  call (net_DialTimeout net (JoinHostPort (host c) (Itoa port)) (timeout c)).

(** [cmdDataConnFrom(offset, format, args...)], [line] being the formatted
    command. *)
Definition cmdDataConnFrom (c : ClientConn) (offset : Z) (line : gostring)
  : M N (result nat) :=
  r ← openDataConn c;
  match r with
  | Err e => mret (Err e)
  | Ok dconn =>
      rest ← (if offset =? 0 then mret None
              else '(_, _, err) ← cmd c StatusRequestFilePending
                                     (lit "REST " ++ Itoa offset);
                   mret err);
      match rest with
      | Some e => _ ← call (net_Close net dconn); mret (Err e)
      | None =>
          err ← call (textproto_Cmd net (conn c) line);
          match err with
          | Some e => _ ← call (net_Close net dconn); mret (Err e)
          | None =>
              '(code, msg, err) ← call (textproto_ReadResponse net (conn c) (-1));
              match err with
              | Some e => _ ← call (net_Close net dconn); mret (Err e)
              | None =>
                  if negb (code =? StatusAlreadyOpen) && negb (code =? StatusAboutToSend)
                  then _ ← call (net_Close net dconn);
                       mret (Err (textproto_Error code msg))
                  else mret (Ok dconn)
              end
          end
      end
  end.

(** One line of the FEAT reply. *)
Definition feat_line (fs : gmap gostring gostring) (line : gostring)
  : gmap gostring gostring :=
  if negb (HasPrefix line (lit " ")) then fs
  else
    let featureElements := SplitN2 (TrimSpace line) (lit " ") in
    match featureElements with
    | [command; commandDesc] => <[command := commandDesc]> fs
    | command :: _ => <[command := []]> fs
    | [] => fs
    end.

Definition feat (c : ClientConn) : M N (ClientConn * option error) :=
  '(code, message, err) ← cmd c (-1) (lit "FEAT");
  match err with
  | Some e => mret (c, Some e)
  | None =>
      if negb (code =? StatusSystem) then mret (c, None)
      else
        let fs := fold_left feat_line (Split message [LF]) (features c) in
        mret ({| conn := conn c; host := host c; timeout := timeout c;
                 features := fs |}, None)
  end.

Definition setUTF8 (c : ClientConn) : M N (option error) :=
  match features c !! lit "UTF8" with
  | None => mret None
  | Some _ =>
      '(code, message, err) ← cmd c (-1) (lit "OPTS UTF8 ON");
      match err with
      | Some e => mret (Some e)
      | None =>
          if negb (code =? StatusCommandOK) then mret (Some (errors_New message))
          else mret None
      end
  end.

Definition DialTimeout (addr : gostring) (tmo : Z)
  : M N (option ClientConn * option error) :=
  r ← call (net_DialTimeout net addr tmo);
  match r with
  | Err e => mret (None, Some e)
  | Ok tconn =>
      ip ← (fun w => Done (net_RemoteIP net tconn w, w));
      let c := {| conn := tconn; host := ip; timeout := tmo; features := ∅ |} in
      '(_, _, err) ← call (textproto_ReadResponse net tconn StatusReady);
      match err with
      | Some e => _ ← Quit (Some c); mret (None, Some e)
      | None =>
          '(c, err) ← feat c;
          match err with
          | Some e => _ ← Quit (Some c); mret (None, Some e)
          | None =>
              err ← setUTF8 c;
              match err with
              | Some e => _ ← Quit (Some c); mret (None, Some e)
              | None => mret (Some c, None)
              end
          end
      end
  end.

Definition Dial (addr : gostring) : M N (option ClientConn * option error) :=
  DialTimeout addr 0.

Definition Login (c : option ClientConn) (user password : gostring)
  : M N (option error) :=
  match c with
  | None => throw NilDereference
  | Some c =>
      '(code, message, err) ← cmd c (-1) (lit "USER " ++ user);
      match err with
      | Some e => mret (Some e)
      | None =>
          r ← (if code =? StatusLoggedIn then mret None
               else if code =? StatusUserOK then
                 '(_, _, err) ← cmd c StatusLoggedIn (lit "PASS " ++ password);
                 mret err
               else mret (Some (errors_New message)));
          match r with
          | Some e => mret (Some e)
          | None =>
              '(_, _, err) ← cmd c StatusCommandOK (lit "TYPE I");
              mret err
          end
      end
  end.

(** [Connect]: on a failed [Dial] the connection is nil, and [Quit] is
    called on it before the error would be returned. *)
Definition Connect (addr user password : gostring)
  : M N (option ClientConn * option error) :=
  '(c, err) ← Dial addr;
  match err with
  | Some e => _ ← Quit c; mret (None, Some e)
  | None => err ← Login c user password; mret (c, err)
  end.

End WithNetwork.

End Client.

(* ------------------------------------------------------------------ *)
(** ** Package time, for the two layouts of the listing codec          *)
(* ------------------------------------------------------------------ *)

(** A [time.Time] as the listing codec sees it: the wall clock in the
    zone of the value, down to the minute (no layout of the program shows a
    finer unit).  [time.Parse] attaches the zone named in the text; the
    program always names GMT, and the model takes that zone at offset 0
    (which is what Go does unless the machine's local zone itself has an
    abbreviation GMT in force with another wall clock). *)
Record time_Time : Type := {
  year : Z;
  month : Z;
  day : Z;
  hour : Z;
  minute : Z
}.

Definition shortMonthNames : list gostring :=
  map lit ["Jan"; "Feb"; "Mar"; "Apr"; "May"; "Jun";
           "Jul"; "Aug"; "Sep"; "Oct"; "Nov"; "Dec"]%string.

Definition isLeap (y : Z) : bool :=
  (y mod 4 =? 0) && (negb (y mod 100 =? 0) || (y mod 400 =? 0)).

Definition daysIn (m y : Z) : Z :=
  if (m =? 2) && isLeap y then 29
  else nth (Z.to_nat (m - 1)) [31; 28; 31; 30; 31; 30; 31; 31; 30; 31; 30; 31] 0.

(** [getnum(s, fixed)]: one or two digits, exactly two when [fixed]. *)
Definition getnum (s : gostring) (fixed : bool) : option (Z * gostring) :=
  match s with
  | c :: t =>
      if is_digit c then
        match t with
        | d :: t' =>
            if is_digit d then Some (digit_val c * 10 + digit_val d, t')
            else if fixed then None else Some (digit_val c, t)
        | [] => if fixed then None else Some (digit_val c, t)
        end
      else None
  | [] => None
  end.

Fixpoint cutspace (s : gostring) : gostring :=
  match s with
  | c :: t => if Ascii.eqb c SP then cutspace t else s
  | [] => []
  end.

(** [skip(value, prefix)] for a prefix of one byte: a space stands for any
    run of spaces (or the end of the text), another byte for itself. *)
Definition skip (value : gostring) (p : ascii) : option gostring :=
  if Ascii.eqb p SP then
    match value with
    | c :: _ => if Ascii.eqb c SP then Some (cutspace value) else None
    | [] => Some []
    end
  else
    match value with
    | c :: t => if Ascii.eqb c p then Some t else None
    | [] => None
    end.

(** [match(s1, s2)] of package time: equal up to the case of letters. *)
Definition fold_byte (c : ascii) : N := N.lor (N_of_ascii c) 32.

Definition match_byte (c1 c2 : ascii) : bool :=
  Ascii.eqb c1 c2
  || ((fold_byte c1 =? fold_byte c2)%N
      && (97 <=? fold_byte c1)%N && (fold_byte c1 <=? 122)%N).

Fixpoint match_fold (s1 s2 : gostring) : bool :=
  match s1, s2 with
  | c1 :: t1, c2 :: t2 => match_byte c1 c2 && match_fold t1 t2
  | [], [] => true
  | _, _ => false
  end.

(** [lookup(tab, val)]: the index of the first name of [tab] that starts
    [val], and the rest of [val]. *)
Fixpoint lookup_from (i : Z) (tab : list gostring) (val : gostring)
  : option (Z * gostring) :=
  match tab with
  | [] => None
  | v :: tab' =>
      if (length v <=? length val)%nat && match_fold (take (length v) val) v
      then Some (i, drop (length v) val)
      else lookup_from (i + 1) tab' val
  end.

Definition lookup (tab : list gostring) (val : gostring) : option (Z * gostring) :=
  lookup_from 0 tab val.

Fixpoint leading_digits (s : gostring) : gostring * gostring :=
  match s with
  | c :: t =>
      if is_digit c then let '(ds, rem) := leading_digits t in (c :: ds, rem)
      else ([], s)
  | [] => ([], [])
  end.

(** [leadingInt(s)]: the number spelt by the leading digits and the rest;
    it fails past 2^63. *)
Definition leadingInt (s : gostring) : option (Z * gostring) :=
  let '(ds, rem) := leading_digits s in
  if digits_val ds <=? 2 ^ 63 then Some (digits_val ds, rem) else None.

(** [atoi(s)] of package time. *)
Definition time_atoi (s : gostring) : option Z :=
  let '(neg, body) :=
    match s with
    | c :: t =>
        if Ascii.eqb c "-" then (true, t)
        else if Ascii.eqb c "+" then (false, t) else (false, s)
    | [] => (false, s)
    end in
  match leadingInt body with
  | Some (q, []) => Some (if neg then - q else q)
  | _ => None
  end.

Definition parseSignedOffset (value : gostring) : Z :=
  match value with
  | sign :: t =>
      if negb (Ascii.eqb sign "-") && negb (Ascii.eqb sign "+") then 0
      else match leadingInt t with
           | Some (x, rem) =>
               if (length rem =? length t)%nat then 0
               else if 23 <? x then 0
               else len value - len rem
           | None => 0
           end
  | [] => 0
  end.

Definition parseGMT (value : gostring) : Z :=
  match drop 3 value with
  | [] => 3
  | rest => 3 + parseSignedOffset rest
  end.

Definition is_upper (c : ascii) : bool :=
  let n := N_of_ascii c in ((65 <=? n) && (n <=? 90))%N.

Fixpoint count_upper (fuel : nat) (s : gostring) : nat :=
  match fuel, s with
  | S f, c :: t => if is_upper c then S (count_upper f t) else O
  | _, _ => O
  end.

(** [parseTimeZone(value)]: the length of the zone abbreviation that starts
    [value], if one does. *)
Definition parseTimeZone (value : gostring) : option Z :=
  if (length value <? 3)%nat then None
  else if streq (take 4 value) (lit "ChST") || streq (take 4 value) (lit "MeST")
  then Some 4
  else if streq (take 3 value) (lit "GMT") then Some (parseGMT value)
  else if HasPrefix value (lit "+") || HasPrefix value (lit "-") then
    let n := parseSignedOffset value in
    if 0 <? n then Some n else None
  else
    match count_upper 6 value with
    | 5%nat => if streq (take 1 (drop 4 value)) (lit "T") then Some 5 else None
    | 4%nat =>
        if streq (take 1 (drop 3 value)) (lit "T") || streq (take 4 value) (lit "WITA")
        then Some 4 else None
    | 3%nat => Some 3
    | _ => None
    end.

(** [time.Parse("_2 Jan 06 15:04 MST", value)]: day (a leading space
    allowed), month name, two-digit year (69..99 are 1969..1999, the others
    2000 and up), hour, minute, zone abbreviation, each separated as the
    layout says; then the day must exist in its month. *)
Definition time_Parse (value : gostring) : result time_Time :=
  let bad := Err (time_ParseError value) in
  let v0 := match value with
            | c :: t => if Ascii.eqb c SP then t else value
            | [] => value
            end in
  match getnum v0 false with
  | None => bad
  | Some (d, v1) =>
  match skip v1 SP with
  | None => bad
  | Some v2 =>
  match lookup shortMonthNames v2 with
  | None => bad
  | Some (mi, v3) =>
  match skip v3 SP with
  | None => bad
  | Some v4 =>
  if (length v4 <? 2)%nat then bad else
  match time_atoi (take 2 v4) with
  | None => bad
  | Some yy =>
  let y := if 69 <=? yy then yy + 1900 else yy + 2000 in
  match skip (drop 2 v4) SP with
  | None => bad
  | Some v5 =>
  match getnum v5 false with
  | None => bad
  | Some (h, v6) =>
  if (h <? 0) || (24 <=? h) then bad else
  match skip v6 ":" with
  | None => bad
  | Some v7 =>
  match getnum v7 true with
  | None => bad
  | Some (mn, v8) =>
  if (mn <? 0) || (60 <=? mn) then bad else
  match skip v8 SP with
  | None => bad
  | Some v9 =>
  let after :=
    if streq (take 3 v9) (lit "UTC") then Some (drop 3 v9)
    else match parseTimeZone v9 with
         | Some n => Some (drop (Z.to_nat n) v9)
         | None => None
         end in
  match after with
  | Some [] =>
      if (d <? 1) || (daysIn (mi + 1) y <? d) then bad
      else Ok {| year := y; month := mi + 1; day := d; hour := h; minute := mn |}
  | _ => bad
  end end end end end end end end end end end.

Definition zero2 (n : Z) : gostring :=
  if n <? 10 then "0"%char :: Itoa n else Itoa n.

(** [t.Format("Jan _2 15:04")] *)
Definition Format (t : time_Time) : gostring :=
  nth (Z.to_nat (month t - 1)) shortMonthNames [] ++ [SP]
  ++ pad_left 2 (Itoa (day t)) ++ [SP]
  ++ zero2 (hour t) ++ lit ":" ++ zero2 (minute t).

(* ------------------------------------------------------------------ *)
(** ** The listing codec                                               *)
(* ------------------------------------------------------------------ *)

Inductive EntryType : Type :=
| EntryTypeFile
| EntryTypeFolder
| EntryTypeLink.

Global Instance EntryType_eq_dec : EqDecision EntryType.
Proof. solve_decision. Defined.

(** [Entry]; [Size] is a [uint64]. *)
Record Entry : Type := {
  Name : gostring;
  Type_ : EntryType;
  Size : Z;
  Time : time_Time
}.

(** [parseListLine(line)]; [thisYear] is the year [time.Now()] gives. *)
Definition parseListLine (thisYear : Z) (line : gostring) : run (result Entry) :=
  let fields := Fields line in
  if len fields <? 9 then Done (Err (errors_New (lit "unsupported LIST line")))
  else
    f0 ← at_index fields 0;
    c ← at_index f0 0;
    let ty :=
      if Ascii.eqb c "-" then Some EntryTypeFile
      else if Ascii.eqb c "d" then Some EntryTypeFolder
      else if Ascii.eqb c "l" then Some EntryTypeLink
      else None in
    match ty with
    | None => Done (Err (errors_New (lit "unknown entry type")))
    | Some ty =>
        sz ← (if bool_decide (ty = EntryTypeFile)
              then f4 ← at_index fields 4; Done (ParseUint f4)
              else Done (0, None));
        match sz with
        | (_, Some e) => Done (Err e)
        | (size, None) =>
            f7 ← at_index fields 7;
            timeStr ←
              (if Contains f7 (lit ":") then
                 f6 ← at_index fields 6;
                 f5 ← at_index fields 5;
                 yy ← slice (Itoa thisYear) 2 4;
                 f7' ← at_index fields 7;
                 Done (f6 ++ lit " " ++ f5 ++ lit " " ++ yy ++ lit " " ++ f7'
                       ++ lit " GMT")
               else
                 f6 ← at_index fields 6;
                 f5 ← at_index fields 5;
                 f7' ← at_index fields 7;
                 yy ← slice f7' 2 4;
                 Done (f6 ++ lit " " ++ f5 ++ lit " " ++ yy ++ lit " "
                       ++ lit "00:00" ++ lit " GMT"));
            match time_Parse timeStr with
            | Err e => Done (Err e)
            | Ok t =>
                rest ← slice_from fields 8;
                Done (Ok {| Name := Join rest (lit " "); Type_ := ty;
                            Size := size; Time := t |})
            end
        end
    end.

(** What the formatters read of an [os.FileInfo]: [Mode] is the 32-bit
    [os.FileMode], [Size] an [int64]. *)
Record FileInfo : Type := {
  fi_Name : gostring;
  fi_Size : Z;
  fi_Mode : Z;
  fi_ModTime : time_Time
}.

Definition ModeDir : Z := 2 ^ 31.

Definition IsDir (f : FileInfo) : bool := Z.testbit (fi_Mode f) 31.

(** [FileMode.String()]: a letter of [dalTLDpSugct?] for every type bit set
    (from bit 31 down), a dash when none is, then the nine permission
    letters. *)
Definition FileMode_String (m : Z) : gostring :=
  let kinds :=
    flat_map (fun '(i, c) => if Z.testbit m (31 - Z.of_nat i) then [c] else [])
             (imap (fun i c => (i, c)) (lit "dalTLDpSugct?")) in
  let perms :=
    imap (fun i c => if Z.testbit m (8 - Z.of_nat i) then c else "-"%char)
         (lit "rwxrwxrwx") in
  (match kinds with
   | [] => [ "-"%char ]
   | _ :: _ => kinds
   end) ++ perms.

(** The package variable [null]: what both formatters return for no item. *)
Definition null : gostring :=
  lit "drwxrwxrwx 1 user group 0 Apr  1 00:00 ." ++ CRLF
  ++ lit "drwxrwxrwx 1 user group 0 Apr  1 00:00 .." ++ CRLF.

Definition detailed_line (item : FileInfo) : gostring :=
  FileMode_String (fi_Mode item) ++ [TAB] ++ lit "1 user" ++ [TAB] ++ lit "group"
  ++ [TAB] ++ pad_left 8 (Itoa (fi_Size item)) ++ lit " "
  ++ Format (fi_ModTime item) ++ lit " " ++ fi_Name item ++ CRLF.

(** [ListDetailed(items)] *)
Definition ListDetailed (items : list FileInfo) : gostring :=
  if len items =? 0 then null
  else concat (map detailed_line items).

(** [ListShort(items)] *)
Definition ListShort (items : list FileInfo) : gostring :=
  if len items =? 0 then null
  else concat (map (fun item => fi_Name item ++ CRLF) items).

(* ------------------------------------------------------------------ *)
(** ** Package path                                                    *)
(* ------------------------------------------------------------------ *)

(** One element of a path met by [path.Clean]: [stack] holds the elements
    kept so far, the last one first. *)
Definition clean_step (rooted : bool) (stack : list gostring) (elem : gostring)
  : list gostring :=
  if streq elem [] || streq elem (lit ".") then stack
  else if streq elem (lit "..") then
    match stack with
    | top :: below => if streq top (lit "..") then elem :: stack else below
    | [] => if rooted then [] else [elem]
    end
  else elem :: stack.

(** [path.Clean(p)] *)
Definition path_Clean (p : gostring) : gostring :=
  match p with
  | [] => lit "."
  | _ :: _ =>
      let rooted := HasPrefix p (lit "/") in
      let kept := rev (fold_left (clean_step rooted) (Split p (lit "/")) []) in
      if rooted then lit "/" ++ Join kept (lit "/")
      else match kept with
           | [] => lit "."
           | _ :: _ => Join kept (lit "/")
           end
  end.

(** [path.Join(elem...)] *)
Definition path_Join (elem : list gostring) : gostring :=
  match filter (fun e => negb (streq e [])) elem with
  | [] => []
  | es => path_Clean (Join es (lit "/"))
  end.

(* ------------------------------------------------------------------ *)
(** ** The server                                                      *)
(* ------------------------------------------------------------------ *)

Module Server.

(** Modelled from the spec: the command words the dispatcher compares with
    (their declarations are not among the sources). *)
Definition USER : gostring := lit "USER".
Definition PASS : gostring := lit "PASS".
Definition PWD : gostring := lit "PWD".
Definition CWD : gostring := lit "CWD".
Definition DELE : gostring := lit "DELE".
Definition EPSV : gostring := lit "EPSV".
Definition SIZE : gostring := lit "SIZE".
Definition LIST : gostring := lit "LIST".
Definition MKD : gostring := lit "MKD".
Definition NOOP : gostring := lit "NOOP".
Definition PASV : gostring := lit "PASV".
Definition QUIT : gostring := lit "QUIT".
Definition RETR : gostring := lit "RETR".
Definition RMD : gostring := lit "RMD".
Definition XRMD : gostring := lit "XRMD".
Definition RNFR : gostring := lit "RNFR".
Definition RNTO : gostring := lit "RNTO".
Definition SYST : gostring := lit "SYST".
Definition STOR : gostring := lit "STOR".
Definition TYPE : gostring := lit "TYPE".

(** [PassiveConn]: the address the listener got; the accepted socket, the
    accept error and the completion channel are written by the accepting
    goroutine and belong to the world. *)
Record PassiveConn : Type := {
  pc_host : gostring;
  pc_port : gostring;
  pc_listener : nat
}.

(** [PassiveConn.Host()] *)
Definition Host (passiveConn : PassiveConn) : gostring := lit "127.0.0.1".

(** [PassiveConn.Port()] *)
Definition Port (passiveConn : PassiveConn) : Z := fst (Atoi (pc_port passiveConn)).

(** The operating system and the network as one session meets them, over a
    world [W]. *)
Record OS (W : Type) : Type := {
  (** [os.Stat]: no [FileInfo] comes with an error *)
  os_Stat : gostring -> W -> result FileInfo;
  os_Remove : gostring -> W -> W;
  os_Mkdir : gostring -> W -> option error * W;
  os_RemoveAll : gostring -> W -> option error * W;
  os_Rename : gostring -> gostring -> W -> option error * W;
  ioutil_ReadFile : gostring -> W -> result gostring;
  (** [os.Open] then [Readdir(-1)], both errors dropped as the program
      drops them: no item then *)
  os_Readdir : gostring -> W -> list FileInfo;
  (** [os.OpenFile(p, O_WRONLY|O_TRUNC|O_CREATE, 0666)] *)
  os_OpenFile : gostring -> W -> result nat * W;
  (** [io.Copy(file, dataConn)] with either possibly nil: the count, or a
      panic *)
  io_Copy : option nat -> option PassiveConn -> W -> run (Z * W);
  (** [file.Close()] *)
  file_Close : option nat -> W -> W;
  (** resolve and listen on the address; the listener and the text of its
      address *)
  net_ListenTCP : gostring -> W -> result (nat * gostring) * W;
  (** [PassiveConn.Write]: wait for the accept, then write; the count *)
  pc_Write : PassiveConn -> gostring -> W -> Z * W;
  (** [PassiveConn.Close]: close the accepted socket (a panic when there is
      none to call it on) *)
  pc_Close : PassiveConn -> W -> run W;
  (** the control connection: flushing a line (does it succeed?), closing *)
  ctl_Flush : gostring -> W -> bool * W;
  ctl_Close : W -> W;
  (** [err.Error()] *)
  err_Error : error -> gostring
}.
Arguments os_Stat {W} _ _ _.
Arguments os_Remove {W} _ _ _.
Arguments os_Mkdir {W} _ _ _.
Arguments os_RemoveAll {W} _ _ _.
Arguments os_Rename {W} _ _ _ _.
Arguments ioutil_ReadFile {W} _ _ _.
Arguments os_Readdir {W} _ _ _.
Arguments os_OpenFile {W} _ _ _.
Arguments io_Copy {W} _ _ _ _.
Arguments file_Close {W} _ _ _.
Arguments net_ListenTCP {W} _ _ _.
Arguments pc_Write {W} _ _ _ _.
Arguments pc_Close {W} _ _ _.
Arguments ctl_Flush {W} _ _ _.
Arguments ctl_Close {W} _ _.
Arguments err_Error {W} _ _.

(** [ServerConn]: [dataConn] is the interface value (nil is [None]);
    [writer_err] is the sticky error of the buffered writer. *)
Record ServerConn : Type := {
  dataConn : option PassiveConn;
  prefix : gostring;
  host : gostring;
  rn : gostring;
  writer_err : bool
}.

(** What a session does that the outside can see. *)
Inductive event : Type :=
| Reply (line : gostring)
| DataWrite (pc : PassiveConn) (data : gostring)
| DataClose (pc : PassiveConn)
| CtlClose.

Section WithOS.

Context {W : Type} (os : OS W).

(** Modelled from the spec: the table [Message] of reply texts by status
    code is not among the sources; it is any table. *)
Variable Message : Z -> gostring.

(** A session: its connection object, the world, and what it did so far
    (latest first). *)
Record State : Type := {
  sc : ServerConn;
  world : W;
  trace : list event
}.

Definition emit (e : event) : M State unit :=
  modify (fun s => {| sc := sc s; world := world s; trace := e :: trace s |}).

Definition set_sc (f : ServerConn -> ServerConn) : M State unit :=
  modify (fun s => {| sc := f (sc s); world := world s; trace := trace s |}).

Definition in_world {A} (f : W -> A * W) : M State A := fun s =>
  let '(a, w) := f (world s) in
  Done (a, {| sc := sc s; world := w; trace := trace s |}).

Definition set_dataConn (d : option PassiveConn) (c : ServerConn) : ServerConn :=
  {| dataConn := d; prefix := prefix c; host := host c; rn := rn c;
     writer_err := writer_err c |}.

Definition set_prefix (p : gostring) (c : ServerConn) : ServerConn :=
  {| dataConn := dataConn c; prefix := p; host := host c; rn := rn c;
     writer_err := writer_err c |}.

Definition set_rn (p : gostring) (c : ServerConn) : ServerConn :=
  {| dataConn := dataConn c; prefix := prefix c; host := host c; rn := p;
     writer_err := writer_err c |}.

Definition set_writer_err (c : ServerConn) : ServerConn :=
  {| dataConn := dataConn c; prefix := prefix c; host := host c; rn := rn c;
     writer_err := true |}.

(** [dataConn.Close()] *)
Definition closeData (pc : PassiveConn) : M State unit :=
  s ← get;
  w ← lift (pc_Close os pc (world s));
  put {| sc := sc s; world := w; trace := DataClose pc :: trace s |}.

(** [ServerConn.Close()] *)
Definition Close : M State unit :=
  _ ← in_world (fun w => (tt, ctl_Close os w));
  _ ← emit CtlClose;
  s ← get;
  match dataConn (sc s) with
  | Some pc => _ ← closeData pc; set_sc (set_dataConn None)
  | None => mret tt
  end.

(** [ServerConn.cmd(msg)]: hand the line to the buffered writer (a writer
    that failed before refuses it, and the session closes itself), then
    flush.  A reply is taken to fit the writer's buffer. *)
Definition cmd (msg : gostring) : M State unit :=
  s ← get;
  _ ← (if writer_err (sc s) then Close else emit (Reply msg));
  s ← get;
  if writer_err (sc s) then mret tt
  else
    ok ← in_world (ctl_Flush os (msg ++ CRLF));
    if ok : bool then mret tt else set_sc set_writer_err.

Definition sendCodeLine (code : Z) (msg : gostring) : M State unit :=
  cmd (Itoa code ++ lit " " ++ msg).

Definition sendStatusText (code : Z) : M State unit :=
  sendCodeLine code (Message code).

(** [ServerConn.sendData(data)] *)
Definition sendData (data : gostring) : M State unit :=
  s ← get;
  match dataConn (sc s) with
  | Some pc =>
      n ← in_world (pc_Write os pc data);
      _ ← emit (DataWrite pc data);
      _ ← closeData pc;
      sendCodeLine StatusClosingDataConnection
        (lit "Closing data connection, sent " ++ Itoa n ++ lit " bytes.")
  | None => sendStatusText StatusTransfertAborted
  end.

(** [ServerConn.parsingPath(params)] *)
Definition parsingPath (c : ServerConn) (params : list gostring) : gostring :=
  let p := Join params (lit " ") in
  if HasPrefix p (lit "/") then path_Join [lit "."; p]
  else path_Join [prefix c; p].

(** [NewPassiveConn(host)] with [ListenAndServe]: listen on a port the
    system picks, and keep the two parts of the listener's address. *)
Definition NewPassiveConn (h : gostring) : M State (result PassiveConn) :=
  r ← in_world (net_ListenTCP os (h ++ lit ":0"));
  match r with
  | Err e => mret (Err e)
  | Ok (listener, addr) =>
      let parts := Split addr (lit ":") in
      p0 ← lift (at_index parts 0);
      p1 ← lift (at_index parts 1);
      mret (Ok {| pc_host := p0; pc_port := p1; pc_listener := listener |})
  end.

(** [f.IsDir()] on the [FileInfo] that [os.Stat] returned: a method call on
    a nil interface value panics. *)
Definition stat_IsDir (r : result FileInfo) : run bool :=
  match r with
  | Ok f => Done (IsDir f)
  | Err _ => Panic NilDereference
  end.

Definition stat_Size (r : result FileInfo) : run Z :=
  match r with
  | Ok f => Done (fi_Size f)
  | Err _ => Panic NilDereference
  end.

Definition stat_err (r : result FileInfo) : option error :=
  match r with
  | Ok _ => None
  | Err e => Some e
  end.

Definition world_of : M State W := s ← get; mret (world s).
Definition conn_of : M State ServerConn := s ← get; mret (sc s).

(** The cases of the [switch] in [Serve], one definition each; [args] is
    [params[1:]].  Each returns [true] to read the next line, [false] after
    [break]. *)
Definition do_PWD : M State bool :=
  c ← conn_of;
  _ ← sendCodeLine StatusPathCreated
        ([QUOTE] ++ prefix c ++ [QUOTE] ++ lit " is current directory.");
  mret true.

Definition do_CWD (args : list gostring) : M State bool :=
  c ← conn_of;
  let p := parsingPath c args in
  w ← world_of;
  let st := os_Stat os p w in
  isdir ← lift (stat_IsDir st);
  if isdir && bool_decide (stat_err st = None) then
    _ ← set_sc (set_prefix p);
    _ ← sendCodeLine StatusRequestedFileActionOK (lit "Directory changed to " ++ p);
    mret true
  else
    _ ← sendStatusText StatusFileUnavailable; mret true.

Definition do_DELE (args : list gostring) : M State bool :=
  c ← conn_of;
  let p := parsingPath c args in
  w ← world_of;
  match stat_err (os_Stat os p w) with
  | Some _ => _ ← sendStatusText StatusFileUnavailable; mret true
  | None =>
      _ ← in_world (fun w => (tt, os_Remove os p w));
      _ ← sendCodeLine StatusRequestedFileActionOK (lit "File deleted.");
      mret true
  end.

Definition do_EPSV : M State bool :=
  c ← conn_of;
  r ← NewPassiveConn (host c);
  match r with
  | Err _ => _ ← sendStatusText StatusCanNotOpenDataConnection; mret true
  | Ok passiveConn =>
      _ ← set_sc (set_dataConn (Some passiveConn));
      _ ← sendCodeLine StatusExtendedPassiveMode
            (lit "Entering Extended Passive Mode (|||" ++ Itoa (Port passiveConn)
             ++ lit "|)");
      mret true
  end.

Definition do_SIZE (args : list gostring) : M State bool :=
  c ← conn_of;
  let p := parsingPath c args in
  w ← world_of;
  let st := os_Stat os p w in
  isdir ← lift (stat_IsDir st);
  if isdir && bool_decide (stat_err st = None) then
    _ ← sendCodeLine StatusFile (lit "1024"); mret true
  else
    size ← lift (stat_Size st);
    _ ← sendCodeLine StatusFile (Itoa size); mret true.

Definition do_LIST : M State bool :=
  _ ← sendCodeLine StatusAboutToSend
        (lit "Opening ASCII mode data connection for file list");
  c ← conn_of;
  w ← world_of;
  let items := os_Readdir os (prefix c) w in
  let info := ListDetailed items in
  _ ← sendData info; mret true.

Definition do_MKD (args : list gostring) : M State bool :=
  c ← conn_of;
  let p := parsingPath c args in
  err ← in_world (os_Mkdir os p);
  match err with
  | None => _ ← sendStatusText StatusPathCreated; mret true
  | Some e => _ ← sendCodeLine StatusFileUnavailable (err_Error os e); mret true
  end.

Definition do_PASV : M State bool :=
  c ← conn_of;
  r ← NewPassiveConn (host c);
  match r with
  | Err _ => _ ← sendStatusText StatusCanNotOpenDataConnection; mret true
  | Ok passiveConn =>
      _ ← set_sc (set_dataConn (Some passiveConn));
      let port := Port passiveConn in
      let x := Z.quot port 256 in
      let y := port - x * 256 in
      let quad := ReplaceAll (Host passiveConn) (lit ".") (lit ",") in
      let msg := lit "Entering Passive Mode (" ++ quad ++ lit "," ++ Itoa x
                 ++ lit "," ++ Itoa y ++ lit ")" in
      _ ← sendCodeLine 227 msg; mret true
  end.

Definition do_RETR (args : list gostring) : M State bool :=
  c ← conn_of;
  let p := parsingPath c args in
  w ← world_of;
  match ioutil_ReadFile os p w with
  | Err e => _ ← sendCodeLine StatusFileUnavailable (err_Error os e); mret true
  | Ok data =>
      _ ← sendCodeLine 150 (lit "Data transfer starting " ++ Itoa (len data)
                             ++ lit "bytes");
      _ ← sendData data; mret true
  end.

Definition do_RMD (args : list gostring) : M State bool :=
  c ← conn_of;
  let p := parsingPath c args in
  w ← world_of;
  let st := os_Stat os p w in
  isdir ← lift (stat_IsDir st);
  if isdir && bool_decide (stat_err st = None) then
    err ← in_world (os_RemoveAll os p);
    match err with
    | Some e => _ ← sendCodeLine StatusFileUnavailable (err_Error os e); mret true
    | None =>
        _ ← sendCodeLine StatusRequestedFileActionOK (lit "Directory deleted.");
        mret true
    end
  else
    _ ← sendStatusText StatusFileUnavailable; mret true.

Definition do_RNFR (args : list gostring) : M State bool :=
  c ← conn_of;
  _ ← set_sc (set_rn (parsingPath c args));
  _ ← sendStatusText StatusRequestFilePending; mret true.

Definition do_RNTO (args : list gostring) : M State bool :=
  c ← conn_of;
  let p := parsingPath c args in
  err ← in_world (os_Rename os (rn c) p);
  match err with
  | Some e => _ ← sendCodeLine StatusFileUnavailable (err_Error os e); mret true
  | None =>
      _ ← sendCodeLine StatusRequestedFileActionOK (lit "File renamed."); mret true
  end.

Definition do_STOR (args : list gostring) : M State bool :=
  c ← conn_of;
  let p := parsingPath c args in
  _ ← sendCodeLine 150 (lit "Data transfer starting.");
  r ← in_world (os_OpenFile os p);
  let file := match r with
              | Ok f => Some f
              | Err _ => None
              end in
  _ ← (match r with
       | Err _ => sendStatusText 450
       | Ok _ => mret tt
       end);
  s ← get;
  '(n, w) ← lift (io_Copy os file (dataConn (sc s)) (world s));
  _ ← put {| sc := sc s; world := w; trace := trace s |};
  _ ← (if 0 <=? n
       then sendCodeLine 226 (lit "OK, received " ++ Itoa n ++ lit " bytes.")
       else sendStatusText 550);
  _ ← in_world (fun w => (tt, file_Close os file w));
  mret true.

Definition do_TYPE (params : list gostring) : M State bool :=
  p1 ← lift (at_index params 1);
  let param := ToUpper p1 in
  if streq param (lit "A") then
    _ ← sendCodeLine StatusCommandOK (lit "Type set to ASCII."); mret true
  else if streq param (lit "I") then
    _ ← sendCodeLine StatusCommandOK (lit "Type set to binary."); mret true
  else
    _ ← sendCodeLine StatusBadArguments (lit "Invalid type."); mret true.

(** The [switch] on [strings.ToUpper(params[0])]. *)
Definition dispatch (params : list gostring) : M State bool :=
  p0 ← lift (at_index params 0);
  args ← lift (slice_from params 1);
  let word := ToUpper p0 in
  if streq word USER then _ ← sendStatusText StatusUserOK; mret true
  else if streq word PASS then _ ← sendStatusText StatusLoggedIn; mret true
  else if streq word PWD then do_PWD
  else if streq word CWD then do_CWD args
  else if streq word DELE then do_DELE args
  else if streq word EPSV then do_EPSV
  else if streq word SIZE then do_SIZE args
  else if streq word LIST then do_LIST
  else if streq word MKD then do_MKD args
  else if streq word NOOP then _ ← sendStatusText StatusCommandOK; mret true
  else if streq word PASV then do_PASV
  else if streq word QUIT then _ ← Close; mret false
  else if streq word RETR then do_RETR args
  else if streq word RMD || streq word XRMD then do_RMD args
  else if streq word RNFR then do_RNFR args
  else if streq word RNTO then do_RNTO args
  else if streq word SYST then _ ← sendStatusText StatusName; mret true
  else if streq word STOR then do_STOR args
  else if streq word TYPE then do_TYPE params
  else _ ← sendStatusText StatusCommandNotImplemented; mret true.

(** The body of the loop of [Serve] for one line read. *)
Definition serve_line (cmdLine : gostring) : M State bool :=
  dispatch (Split (TrimSpace cmdLine) (lit " ")).

(** The loop of [Serve]: [lines] are the lines the buffered reader hands
    out, [fin] is the error of the read after the last of them. *)
Fixpoint Serve_loop (lines : list gostring) (fin : error) : M State unit :=
  match lines with
  | [] => if bool_decide (fin = io_EOF) then mret tt else Close
  | cmdLine :: rest =>
      continue ← serve_line cmdLine;
      if continue : bool then Serve_loop rest fin else mret tt
  end.

(** [ServerConn.Serve()] *)
Definition Serve (lines : list gostring) (fin : error) : M State unit :=
  _ ← sendStatusText StatusReady;
  Serve_loop lines fin.

(** What [cmd] leaves behind when the writer had not failed before: the
    reply is recorded and flushed. *)
Definition after_cmd (msg : gostring) (st : State) : State :=
  let '(ok, w) := ctl_Flush os (msg ++ CRLF) (world st) in
  {| sc := if ok : bool then sc st else set_writer_err (sc st);
     world := w; trace := Reply msg :: trace st |}.

(** The control connection takes every reply. *)
Definition flush_ok : Prop := forall msg w, fst (ctl_Flush os msg w) = true.


End WithOS.

Arguments State W : clear implicits.

End Server.

(* ------------------------------------------------------------------ *)
(** ** A small concrete world, to run the code on explicit inputs       *)
(* ------------------------------------------------------------------ *)

Module Toy.

(** A server machine: directories and regular files by path, the number of
    listeners opened so far, the files opened for writing (a handle is a
    position in the list) and the bytes a client uploads. *)
Record World : Type := {
  dirs : list gostring;
  files : list (gostring * gostring);
  listeners : nat;
  opened : list gostring;
  inbound : gostring
}.

Definition base (p : gostring) : gostring := List.last (Split p (lit "/")) [].

Definition stamp : time_Time :=
  {| year := 2024; month := 3; day := 9; hour := 8; minute := 5 |}.

Definition dir_info (p : gostring) : FileInfo :=
  {| fi_Name := base p; fi_Size := 4096; fi_Mode := ModeDir + 493;
     fi_ModTime := stamp |}.

Definition file_info (p data : gostring) : FileInfo :=
  {| fi_Name := base p; fi_Size := len data; fi_Mode := 420; fi_ModTime := stamp |}.

Definition find_file (p : gostring) (w : World) : option gostring :=
  snd <$> List.find (fun '(q, _) => streq q p) (files w).

Definition is_dir (p : gostring) (w : World) : bool := existsb (streq p) (dirs w).

Definition no_such (op p : gostring) : error :=
  sys_error (op ++ lit " " ++ p ++ lit ": no such file or directory").

Definition stat (p : gostring) (w : World) : result FileInfo :=
  if is_dir p w then Ok (dir_info p)
  else match find_file p w with
       | Some data => Ok (file_info p data)
       | None => Err (no_such (lit "stat") p)
       end.

Definition with_files (w : World) (d : list gostring) (f : list (gostring * gostring))
  : World :=
  {| dirs := d; files := f; listeners := listeners w; opened := opened w;
     inbound := inbound w |}.

Definition under (p q : gostring) : bool := streq q p || HasPrefix q (p ++ lit "/").

Definition remove (p : gostring) (w : World) : World :=
  with_files w (filter (fun q => negb (streq q p)) (dirs w))
             (filter (fun '(q, _) => negb (streq q p)) (files w)).

Definition mkdir (p : gostring) (w : World) : option error * World :=
  if is_dir p w || bool_decide (find_file p w <> None)
  then (Some (sys_error (lit "mkdir " ++ p ++ lit ": file exists")), w)
  else (None, with_files w (dirs w ++ [p]) (files w)).

Definition removeAll (p : gostring) (w : World) : option error * World :=
  (None, with_files w (filter (fun q => negb (under p q)) (dirs w))
                    (filter (fun '(q, _) => negb (under p q)) (files w))).

Definition rename (a b : gostring) (w : World) : option error * World :=
  match find_file a w with
  | Some data =>
      (None, with_files w (dirs w)
               (filter (fun '(q, _) => negb (streq q a) && negb (streq q b)) (files w)
                ++ [(b, data)]))
  | None => (Some (no_such (lit "rename") a), w)
  end.

Definition readFile (p : gostring) (w : World) : result gostring :=
  match find_file p w with
  | Some data => Ok data
  | None => Err (no_such (lit "open") p)
  end.

Definition child_of (d p : gostring) : bool :=
  streq (path_Join [d; base p]) p && negb (streq p d).

Definition readdir (d : gostring) (w : World) : list FileInfo :=
  map dir_info (filter (child_of d) (dirs w))
  ++ map (fun '(p, data) => file_info p data)
         (filter (fun '(p, _) => child_of d p) (files w)).

Definition write_file (p data : gostring) (w : World) : World :=
  with_files w (dirs w)
             (filter (fun '(q, _) => negb (streq q p)) (files w) ++ [(p, data)]).

Definition openFile (p : gostring) (w : World) : result nat * World :=
  if is_dir p w then (Err (sys_error (lit "open " ++ p ++ lit ": is a directory")), w)
  else
    let w' := write_file p [] w in
    (Ok (length (opened w)),
     {| dirs := dirs w'; files := files w'; listeners := listeners w;
        opened := opened w ++ [p]; inbound := inbound w |}).

Definition copy (file : option nat) (dc : option Server.PassiveConn) (w : World)
  : run (Z * World) :=
  match dc with
  | None => Panic NilDereference
  | Some _ =>
      match file ≫= (fun h => opened w !! h) with
      | Some p => Done (len (inbound w), write_file p (inbound w) w)
      | None => Done (0, w)
      end
  end.

Definition listen (addr : gostring) (w : World) : result (nat * gostring) * World :=
  let h := List.hd [] (Split addr (lit ":")) in
  (Ok (listeners w, h ++ lit ":" ++ Itoa (50000 + Z.of_nat (listeners w))),
   {| dirs := dirs w; files := files w; listeners := S (listeners w);
      opened := opened w; inbound := inbound w |}).

Definition error_text (e : error) : gostring :=
  match e with
  | sys_error m | errors_New m => m
  | io_EOF => lit "EOF"
  | _ => lit "error"
  end.

Definition os : Server.OS World := {|
  Server.os_Stat := stat;
  Server.os_Remove := remove;
  Server.os_Mkdir := mkdir;
  Server.os_RemoveAll := removeAll;
  Server.os_Rename := rename;
  Server.ioutil_ReadFile := readFile;
  Server.os_Readdir := readdir;
  Server.os_OpenFile := openFile;
  Server.io_Copy := copy;
  Server.file_Close := fun _ w => w;
  Server.net_ListenTCP := listen;
  Server.pc_Write := fun _ data w => (len data, w);
  Server.pc_Close := fun _ w => Done w;
  Server.ctl_Flush := fun _ w => (true, w);
  Server.ctl_Close := fun w => w;
  Server.err_Error := error_text
|}.

Definition Message (code : Z) : gostring :=
  if code =? 220 then lit "Service ready."
  else if code =? 350 then lit "Requested file action pending further information."
  else if code =? 426 then lit "Connection closed; transfer aborted."
  else if code =? 550 then lit "Requested action not taken. File unavailable."
  else lit "OK.".

(** A directory [pub] with one file, and a file beside it. *)
Definition disk : World :=
  {| dirs := [lit "."; lit "pub"];
     files := [(lit "pub/a.txt", lit "hello"); (lit "notes.txt", lit "remember")];
     listeners := 0; opened := []; inbound := lit "uploaded" |}.

(** A fresh session rooted at the current directory, on a server that was
    started on the address [192.168.1.5]. *)
Definition session : Server.State World :=
  {| Server.sc := {| Server.dataConn := None; Server.prefix := lit ".";
                     Server.host := lit "192.168.1.5"; Server.rn := [];
                     Server.writer_err := false |};
     Server.world := disk;
     Server.trace := [] |}.

(** The lines of a session, run one after the other from [session]. *)
Fixpoint feed (lines : list gostring) (s : Server.State World)
  : run (Server.State World) :=
  match lines with
  | [] => Done s
  | l :: rest =>
      '(_, s') ← Server.serve_line os Message (l ++ CRLF) s;
      feed rest s'
  end.

(** The network of a client: the replies the server will give, in order;
    the addresses that accept a connection; what was dialled and sent. *)
Record Net : Type := {
  script : list (Z * gostring);
  accepting : list gostring;
  dialled : list gostring;
  sent : list gostring
}.

Definition dial (addr : gostring) (tmo : Z) (n : Net) : result nat * Net :=
  let n' := {| script := script n; accepting := accepting n;
               dialled := dialled n ++ [addr]; sent := sent n |} in
  if existsb (streq addr) (accepting n) then (Ok (length (dialled n)), n')
  else (Err (sys_error (lit "dial tcp " ++ addr ++ lit ": connection refused")), n').

Definition send (h : nat) (line : gostring) (n : Net) : option error * Net :=
  (None, {| script := script n; accepting := accepting n; dialled := dialled n;
            sent := sent n ++ [line] |}).

(** [ReadResponse]: the next reply of the script; the code must start with
    the digits of [expect] when that is positive. *)
Definition read (h : nat) (expect : Z) (n : Net) : (Z * gostring * option error) * Net :=
  match script n with
  | [] => ((0, [], Some io_EOF), n)
  | (code, msg) :: rest =>
      let n' := {| script := rest; accepting := accepting n; dialled := dialled n;
                   sent := sent n |} in
      let mismatch :=
        ((1 <=? expect) && (expect <? 10) && negb (code / 100 =? expect))
        || ((10 <=? expect) && (expect <? 100) && negb (code / 10 =? expect))
        || ((100 <=? expect) && (expect <? 1000) && negb (code =? expect)) in
      ((code, msg, if mismatch then Some (textproto_Error code msg) else None), n')
  end.

Definition net : Client.Network Net := {|
  Client.net_DialTimeout := dial;
  Client.net_RemoteIP := fun _ _ => lit "10.0.0.1";
  Client.textproto_Cmd := send;
  Client.textproto_ReadResponse := read;
  Client.net_Close := fun _ n => (None, n)
|}.

Definition client : Client.ClientConn :=
  {| Client.conn := 0; Client.host := lit "10.0.0.1"; Client.timeout := 0;
     Client.features := ∅ |}.

(** A server that understands neither passive command. *)
Definition no_passive : Net :=
  {| script := [(500, lit "EPSV not understood"); (500, lit "PASV not understood")];
     accepting := []; dialled := []; sent := [] |}.

(** No server at all. *)
Definition nobody : Net :=
  {| script := []; accepting := []; dialled := []; sent := [] |}.

End Toy.

(* ------------------------------------------------------------------ *)
(** ** Vocabulary of the proofs                                        *)
(* ------------------------------------------------------------------ *)



(** A word: no white-space rune starts at any of its bytes. *)
Definition nospace (w : gostring) : Prop :=
  forall i, (i < length w)%nat -> space_width (drop i w) = 0%nat.


(* ASCII words *)
Definition plain_byte (b : ascii) : bool :=
  is_ascii b && negb (existsb (Ascii.eqb b) [TAB; LF; "011"%char; "012"%char; CR; SP]).

Definition plain (w : gostring) : bool := forallb plain_byte w.

Definition step10 (a : Z) (c : ascii) : Z := a * 10 + digit_val c.

Definition this_century (k : Z) : Z := if 69 <=? k then k + 1900 else k + 2000.

Definition head_not_space (s : gostring) : bool :=
  match s with
  | c :: _ => negb (Ascii.eqb c SP)
  | [] => false
  end.

Definition day_ok (z : Z) : bool :=
  head_not_space (Itoa z) && plain (Itoa z)
  && bool_decide (getnum (Itoa z ++ [SP]) false = Some (z, [SP])).

Definition month_ok (i : Z) : bool :=
  let Mo := nth (Z.to_nat i) shortMonthNames [] in
  head_not_space Mo && plain Mo && bool_decide (length Mo = 3%nat)
  && bool_decide (lookup shortMonthNames Mo = Some (i, [])).

Definition year_ok (k : Z) : bool :=
  head_not_space (zero2 k) && bool_decide (length (zero2 k) = 2%nat)
  && bool_decide (time_atoi (zero2 k) = Some k).

Definition hour_ok (h : Z) : bool :=
  head_not_space (zero2 h) && plain (zero2 h)
  && negb (existsb (Ascii.eqb ":") (zero2 h))
  && bool_decide (getnum (zero2 h ++ [":"%char]) false = Some (h, [":"%char])).

Definition minute_ok (mi : Z) : bool :=
  head_not_space (zero2 mi) && plain (zero2 mi)
  && bool_decide (getnum (zero2 mi ++ [SP]) true = Some (mi, [SP])).

Definition this_year_ok (y : Z) : bool :=
  (y <? 1000)
  || match slice (Itoa y) 2 4 with
     | Done s => streq s (zero2 (y mod 100))
     | Panic _ => false
     end.


Definition word (w : gostring) : Prop := w <> [] /\ nospace w.




Definition type_of_char (c : ascii) : option EntryType :=
  if Ascii.eqb c "-" then Some EntryTypeFile
  else if Ascii.eqb c "d" then Some EntryTypeFolder
  else if Ascii.eqb c "l" then Some EntryTypeLink
  else None.

Definition time_text (d m k h mi : Z) : gostring :=
  Itoa d ++ SP :: nth (Z.to_nat (m - 1)) shortMonthNames [] ++ SP :: zero2 k
  ++ SP :: zero2 h ++ ":"%char :: zero2 mi ++ SP :: lit "GMT".


(** The two lines of [null], without their line ends. *)
Definition dot_line : gostring := lit "drwxrwxrwx 1 user group 0 Apr  1 00:00 .".
Definition dotdot_line : gostring := lit "drwxrwxrwx 1 user group 0 Apr  1 00:00 ..".

(** The session of [Toy] after a PASV command, and the channel it opened. *)
Definition passive_session : Server.State Toy.World :=
  match Toy.feed [lit "PASV"] Toy.session with
  | Done s => s
  | Panic _ => Toy.session
  end.

Definition passive_channel : Server.PassiveConn :=
  {| Server.pc_host := lit "192.168.1.5"; Server.pc_port := lit "50000";
     Server.pc_listener := 0 |}.

(* ------------------------------------------------------------------ *)
(** ** Vocabulary of the session invariants                            *)
(* ------------------------------------------------------------------ *)

(** Whenever [m] returns, the state it started from and the state it
    leaves are related by [R]. *)
Definition keeps {W A : Type} (R : Server.State W -> Server.State W -> Prop)
    (m : M (Server.State W) A) : Prop :=
  forall st r st', m st = Done (r, st') -> R st st'.

(** Whenever [m] returns, it returns [v]. *)
Definition returns {S A : Type} (m : M S A) (v : A) : Prop :=
  forall st r st', m st = Done (r, st') -> r = v.

(** A relation every step of a command handler respects: a preorder that
    ignores the world and holds across a reply. *)
Record frame {W : Type} (os : Server.OS W)
    (R : Server.State W -> Server.State W -> Prop) : Prop := {
  frame_refl : forall st, R st st;
  frame_trans : forall a b c, R a b -> R b c -> R a c;
  frame_world : forall st w,
    R st {| Server.sc := Server.sc st; Server.world := w; Server.trace := Server.trace st |};
  frame_cmd : forall msg, keeps R (Server.cmd os msg)
}.

(** The field [f] of the session object is what it was. *)
Definition same_field {W A : Type} (f : Server.ServerConn -> A)
    (st st' : Server.State W) : Prop :=
  f (Server.sc st') = f (Server.sc st).

(** From a session whose writer works: the writer still works and the
    field [f] is what it was. *)
Definition healthy_same {W A : Type} (f : Server.ServerConn -> A)
    (st st' : Server.State W) : Prop :=
  Server.writer_err (Server.sc st) = false ->
  Server.writer_err (Server.sc st') = false /\ f (Server.sc st') = f (Server.sc st).

(** From a session whose writer works: the writer still works, and the
    events added to the trace (latest first) satisfy [P]. *)
Definition grows {W : Type} (P : list Server.event -> Prop)
    (st st' : Server.State W) : Prop :=
  Server.writer_err (Server.sc st) = false ->
  Server.writer_err (Server.sc st') = false
  /\ exists new, Server.trace st' = new ++ Server.trace st /\ P new.

Definition is_reply (e : Server.event) : Prop :=
  match e with
  | Server.Reply _ => True
  | _ => False
  end.

Definition any_event (e : Server.event) : Prop := True.

(** The events a command may add: never the close of the control
    connection, and, unless [transfer] holds, replies only. *)
Definition command_event (transfer : Prop) (e : Server.event) : Prop :=
  e <> Server.CtlClose /\ (transfer \/ is_reply e).

(** The command word of a line, as the loop of [Serve] reads it. *)
Definition command_word (cmdLine : gostring) : gostring :=
  ToUpper (hd [] (Split (TrimSpace cmdLine) (lit " "))).

(** [m] always returns, and leaves the session object and the trace as
    they were. *)
Definition quiet {W A : Type} (m : M (Server.State W) A) : Prop :=
  forall st, exists a st',
    m st = Done (a, st')
    /\ Server.writer_err (Server.sc st') = Server.writer_err (Server.sc st)
    /\ Server.trace st' = Server.trace st.

(** From a session whose writer works, [m] always returns, asks for the
    next line, and has sent exactly one reply. *)
Definition answers_once {W : Type} (m : M (Server.State W) bool) : Prop :=
  forall st, Server.writer_err (Server.sc st) = false ->
  exists st' msg,
    m st = Done (true, st') /\ Server.trace st' = Server.Reply msg :: Server.trace st.

(* ------------------------------------------------------------------ *)
(** ** The client: the commands built on [cmd]                         *)
(* ------------------------------------------------------------------ *)

Module ClientOps.

Import Client.

(** The part of [CurrentDir] after the reply has been read: the text
    between the first and the last double quote of the reply. *)
Definition pwd_reply (msg : gostring) : run (gostring * option error) :=
  let start := Index msg [QUOTE] in
  let end_ := LastIndex msg [QUOTE] in
  if (start =? -1) || (end_ =? -1) then
    Done ([], Some (errors_New (lit "unsupported PWD response format")))
  else
    body ← slice msg (start + 1) end_;
    Done (body, None).

Section WithNetwork.

Context {N : Type} (net : Network N).

(** [CurrentDir] *)
Definition CurrentDir (c : ClientConn) : M N (gostring * option error) :=
  '(_, msg, err) ← cmd net c StatusPathCreated (lit "PWD");
  match err with
  | Some e => mret ([], Some e)
  | None => lift (pwd_reply msg)
  end.

(** [Rename(from, to)] *)
Definition Rename (c : ClientConn) (from to : gostring) : M N (option error) :=
  '(_, _, err) ← cmd net c StatusRequestFilePending (lit "RNFR " ++ from);
  match err with
  | Some e => mret (Some e)
  | None =>
      '(_, _, err) ← cmd net c StatusRequestedFileActionOK (lit "RNTO " ++ to);
      mret err
  end.

End WithNetwork.

End ClientOps.

(* ------------------------------------------------------------------ *)
(** ** Lemmas: slices, Index, Split                                    *)
(* ------------------------------------------------------------------ *)


Lemma len_cons {A} (a : A) l : len (a :: l) = len l + 1.
Proof. unfold len. rewrite length_cons. lia. Qed.

Lemma len_app {A} (l1 l2 : list A) : len (l1 ++ l2) = len l1 + len l2.
Proof. unfold len. rewrite length_app. lia. Qed.

Lemma len_nonneg {A} (l : list A) : 0 <= len l.
Proof. unfold len. lia. Qed.

Lemma ascii_eqb_neq (a b : ascii) : a <> b -> Ascii.eqb a b = false.
Proof. intros H. apply Ascii.eqb_neq. exact H. Qed.

Lemma HasPrefix_byte (c : ascii) (s : gostring) :
  HasPrefix s [c] = match s with d :: _ => Ascii.eqb c d | [] => false end.
Proof. destruct s as [|d t]; simpl; [reflexivity|]. apply andb_true_r. Qed.

Lemma Index_from_byte (c : ascii) (pre rest : gostring) (i : Z) :
  c ∉ pre -> Index_from (pre ++ c :: rest) [c] i = i + len pre.
Proof.
  revert i. induction pre as [|a pre IH]; intros i Hn.
  - cbn [app Index_from]. rewrite HasPrefix_byte, Ascii.eqb_refl. unfold len; simpl; lia.
  - apply not_elem_of_cons in Hn as [Hne Hn].
    cbn [app Index_from]. rewrite HasPrefix_byte, (ascii_eqb_neq c a Hne).
    rewrite IH by exact Hn. rewrite len_cons. lia.
Qed.

Lemma Index_from_absent (c : ascii) (s : gostring) (i : Z) :
  c ∉ s -> Index_from s [c] i = -1.
Proof.
  revert i. induction s as [|a s IH]; intros i Hn; cbn [Index_from].
  - reflexivity.
  - apply not_elem_of_cons in Hn as [Hne Hn].
    rewrite HasPrefix_byte, (ascii_eqb_neq c a Hne). apply IH, Hn.
Qed.

Lemma LastIndex_from_absent (c : ascii) (s : gostring) (i best : Z) :
  c ∉ s -> LastIndex_from s [c] i best = best.
Proof.
  revert i. induction s as [|a s IH]; intros i Hn; cbn [LastIndex_from].
  - reflexivity.
  - apply not_elem_of_cons in Hn as [Hne Hn].
    rewrite HasPrefix_byte, (ascii_eqb_neq c a Hne). apply IH, Hn.
Qed.

Lemma LastIndex_from_byte (c : ascii) (s post : gostring) (i best : Z) :
  c ∉ post -> LastIndex_from (s ++ c :: post) [c] i best = i + len s.
Proof.
  revert i best. induction s as [|a s IH]; intros i best Hn.
  - cbn [app LastIndex_from]. rewrite HasPrefix_byte, Ascii.eqb_refl.
    rewrite LastIndex_from_absent by exact Hn. unfold len; simpl; lia.
  - cbn [app LastIndex_from]. rewrite IH by exact Hn. rewrite len_cons. lia.
Qed.

Lemma slice_middle {A} (pre body post : list A) :
  slice (pre ++ body ++ post) (len pre) (len pre + len body) = Done body.
Proof.
  unfold slice. rewrite !len_app.
  pose proof (len_nonneg pre). pose proof (len_nonneg body). pose proof (len_nonneg post).
  replace ((0 <=? len pre) && (len pre <=? len pre + len body)
           && (len pre + len body <=? len pre + (len body + len post))) with true
    by (symmetry; rewrite !andb_true_iff, !Z.leb_le; lia).
  f_equal. unfold len.
  replace (Z.to_nat (Z.of_nat (length pre) + Z.of_nat (length body) - Z.of_nat (length pre)))
    with (length body) by lia.
  rewrite Nat2Z.id, drop_app_length, take_app_length. reflexivity.
Qed.

Lemma at_index_app {A} (front : list A) (x : A) (back : list A) :
  at_index (front ++ x :: back) (len front) = Done x.
Proof.
  unfold at_index. rewrite len_app, len_cons.
  pose proof (len_nonneg front). pose proof (len_nonneg back).
  replace ((0 <=? len front) && (len front <? len front + (len back + 1))) with true
    by (symmetry; rewrite andb_true_iff, Z.leb_le, Z.ltb_lt; lia).
  unfold len. rewrite Nat2Z.id, list_lookup_middle; reflexivity.
Qed.

Lemma Split_from_word (c : ascii) (w : gostring) :
  c ∉ w -> Split_from [c] 0 w = [w].
Proof.
  induction w as [|a w IH]; intros Hn; cbn [Split_from]; [reflexivity|].
  apply not_elem_of_cons in Hn as [Hne Hn].
  rewrite HasPrefix_byte, (ascii_eqb_neq c a Hne), IH by exact Hn. reflexivity.
Qed.

Lemma Split_from_sep (c : ascii) (w rest : gostring) :
  c ∉ w -> Split_from [c] 0 (w ++ c :: rest) = w :: Split_from [c] 0 rest.
Proof.
  induction w as [|a w IH]; intros Hn; cbn [app Split_from].
  - rewrite HasPrefix_byte, Ascii.eqb_refl. reflexivity.
  - apply not_elem_of_cons in Hn as [Hne Hn].
    rewrite HasPrefix_byte, (ascii_eqb_neq c a Hne), IH by exact Hn. reflexivity.
Qed.

Lemma Split_Join (c : ascii) (fs : list gostring) :
  fs <> [] -> Forall (fun f => c ∉ f) fs -> Split (Join fs [c]) [c] = fs.
Proof.
  unfold Split. induction fs as [|f fs IH]; intros Hne Hall; [congruence|].
  apply Forall_cons in Hall as [Hf Hall].
  destruct fs as [|g fs].
  - cbn [Join]. apply Split_from_word, Hf.
  - change (Join (f :: g :: fs) [c]) with (f ++ c :: Join (g :: fs) [c]).
    rewrite Split_from_sep by exact Hf. f_equal. apply IH; [congruence|exact Hall].
Qed.

Lemma forall_below (P : Z -> bool) (n : nat) :
  forallb P (map Z.of_nat (seq 0 n)) = true ->
  forall z, 0 <= z < Z.of_nat n -> P z = true.
Proof.
  intros H z Hz. rewrite forallb_forall in H. apply H.
  apply in_map_iff. exists (Z.to_nat z). split; [lia|]. apply in_seq. lia.
Qed.

Lemma Atoi_Itoa_byte (n : Z) :
  0 <= n < 256 -> Atoi (Itoa n) = (n, None) /\ ","%char ∉ Itoa n.
Proof.
  intros Hn.
  pose proof (forall_below
    (fun z => bool_decide (Atoi (Itoa z) = (z, None))
              && negb (existsb (Ascii.eqb ",") (Itoa z))) 256 eq_refl n Hn) as H.
  apply andb_true_iff in H as [H1 H2]. apply bool_decide_eq_true in H1. split; [exact H1|].
  intros Hin. apply negb_true_iff in H2.
  assert (existsb (Ascii.eqb ",") (Itoa n) = true); [|congruence].
  apply existsb_exists. exists ","%char. split; [|reflexivity].
  apply list_elem_of_In. exact Hin.
Qed.


Lemma pasv_reply_shape (pre body post : gostring) :
  "("%char ∉ pre -> ")"%char ∉ post ->
  Client.pasv_reply (pre ++ lit "(" ++ body ++ lit ")" ++ post) =
  (let lst := Split body (lit ",") in
   sx ← at_index lst (len lst - 2);
   sy ← at_index lst (len lst - 1);
   Done (wrap64 (fst (Atoi sx) * 256 + fst (Atoi sy)), None)).
Proof.
  intros Hpre Hpost. unfold Client.pasv_reply, Index, LastIndex.
  change (lit "(") with ["("%char]. change (lit ")") with [")"%char].
  cbn [app].
  rewrite Index_from_byte by exact Hpre.
  replace (pre ++ "("%char :: body ++ ")"%char :: post)
    with ((pre ++ "("%char :: body) ++ ")"%char :: post)
    by (rewrite <- app_assoc; reflexivity).
  rewrite LastIndex_from_byte by exact Hpost.
  rewrite len_app, len_cons.
  pose proof (len_nonneg pre). pose proof (len_nonneg body).
  replace ((0 + len pre =? -1) || (0 + (len pre + (len body + 1)) =? -1)) with false
    by (symmetry; rewrite orb_false_iff, !Z.eqb_neq; lia).
  replace ((pre ++ "("%char :: body) ++ ")"%char :: post)
    with ((pre ++ ["("%char]) ++ body ++ ")"%char :: post)
    by (rewrite <- !app_assoc; reflexivity).
  replace (0 + len pre + 1) with (len (pre ++ ["("%char]))
    by (rewrite len_app; unfold len; simpl; lia).
  replace (0 + (len pre + (len body + 1))) with (len (pre ++ ["("%char]) + len body)
    by (rewrite len_app; unfold len; simpl; lia).
  rewrite slice_middle. reflexivity.
Qed.

Lemma pasv_reply_fields (pre post : gostring) (front : list gostring) (sx sy : gostring) :
  "("%char ∉ pre -> ")"%char ∉ post ->
  Forall (fun f => ","%char ∉ f) (front ++ [sx; sy]) ->
  Client.pasv_reply (pre ++ lit "(" ++ Join (front ++ [sx; sy]) (lit ",") ++ lit ")" ++ post)
  = Done (wrap64 (fst (Atoi sx) * 256 + fst (Atoi sy)), None).
Proof.
  intros Hpre Hpost Hall. rewrite pasv_reply_shape by assumption.
  change (lit ",") with [","%char].
  rewrite Split_Join; [|destruct front; discriminate|exact Hall].
  cbv zeta.
  replace (len (front ++ [sx; sy]) - 2) with (len front)
    by (rewrite len_app; unfold len; simpl; lia).
  rewrite at_index_app. cbn [mbind run_bind].
  replace (len (front ++ [sx; sy]) - 1) with (len (front ++ [sx]))
    by (rewrite !len_app; unfold len; simpl; lia).
  replace (front ++ [sx; sy]) with ((front ++ [sx]) ++ sy :: [])
    by (rewrite <- app_assoc; reflexivity).
  rewrite at_index_app. reflexivity.
Qed.

Lemma pasv_reply_no_delimiter (line : gostring) :
  "("%char ∉ line \/ ")"%char ∉ line ->
  Client.pasv_reply line = Done (0, Some (errors_New (lit "invalid PASV response format"))).
Proof.
  intros H. unfold Client.pasv_reply, Index, LastIndex.
  change (lit "(") with ["("%char]. change (lit ")") with [")"%char].
  destruct H as [H|H].
  - rewrite Index_from_absent by exact H. reflexivity.
  - rewrite (LastIndex_from_absent _ _ _ _ H). rewrite orb_true_r. reflexivity.
Qed.

(* ------------------------------------------------------------------ *)
(** ** Lemmas: white space and Fields                                  *)
(* ------------------------------------------------------------------ *)




























(* ------------------------------------------------------------------ *)
(** ** Lemmas: decimal numbers                                         *)
(* ------------------------------------------------------------------ *)


Lemma digit_char_val (d : Z) : 0 <= d < 10 -> digit_val (digit_char d) = d.
Proof.
  intros H. assert (d = 0 \/ d = 1 \/ d = 2 \/ d = 3 \/ d = 4 \/ d = 5 \/ d = 6
                    \/ d = 7 \/ d = 8 \/ d = 9) as Hd by lia.
  repeat (destruct Hd as [->|Hd]; [reflexivity|]). subst d. reflexivity.
Qed.

Lemma digit_char_is_digit (d : Z) : 0 <= d < 10 -> is_digit (digit_char d) = true.
Proof.
  intros H. assert (d = 0 \/ d = 1 \/ d = 2 \/ d = 3 \/ d = 4 \/ d = 5 \/ d = 6
                    \/ d = 7 \/ d = 8 \/ d = 9) as Hd by lia.
  repeat (destruct Hd as [->|Hd]; [reflexivity|]). subst d. reflexivity.
Qed.

Lemma digits_fuel_val (fuel : nat) (n : Z) (acc : gostring) :
  0 <= n < 10 ^ Z.of_nat fuel ->
  fold_left step10 (digits_fuel fuel n acc) 0 = fold_left step10 acc n.
Proof.
  revert n acc. induction fuel as [|f IH]; intros n acc Hn.
  - cbn in Hn. assert (n = 0) as -> by lia. reflexivity.
  - cbn [digits_fuel].
    assert (0 <= n mod 10 < 10) as Hm by (apply Z.mod_pos_bound; lia).
    pose proof (Z.div_mod n 10 ltac:(lia)) as Hdm.
    destruct (n / 10 =? 0) eqn:E.
    + apply Z.eqb_eq in E. cbn [fold_left]. unfold step10 at 2.
      rewrite digit_char_val by exact Hm. f_equal. lia.
    + rewrite IH.
      * cbn [fold_left]. unfold step10 at 2. rewrite digit_char_val by exact Hm.
        f_equal. lia.
      * rewrite Nat2Z.inj_succ, Z.pow_succ_r in Hn by lia.
        split; [apply Z.div_pos; lia|]. apply Z.div_lt_upper_bound; lia.
Qed.

Lemma digits_fuel_digits (fuel : nat) (n : Z) (acc : gostring) :
  0 <= n -> forallb is_digit acc = true ->
  forallb is_digit (digits_fuel fuel n acc) = true.
Proof.
  revert n acc. induction fuel as [|f IH]; intros n acc Hn Hacc; [exact Hacc|].
  cbn [digits_fuel].
  assert (forallb is_digit (digit_char (n mod 10) :: acc) = true) as Hacc'.
  { cbn [forallb]. rewrite digit_char_is_digit by (apply Z.mod_pos_bound; lia). exact Hacc. }
  destruct (n / 10 =? 0); [exact Hacc'|].
  apply IH; [apply Z.div_pos; lia|exact Hacc'].
Qed.

Lemma digits_fuel_nonempty (fuel : nat) (n : Z) (acc : gostring) :
  (fuel <> 0%nat \/ acc <> []) -> digits_fuel fuel n acc <> [].
Proof.
  revert n acc. induction fuel as [|f IH]; intros n acc H.
  - destruct H as [H|H]; [congruence|exact H].
  - cbn [digits_fuel]. destruct (n / 10 =? 0); [discriminate|].
    apply IH. right. discriminate.
Qed.

Lemma FormatUint_digits (n : Z) : 0 <= n -> forallb is_digit (FormatUint n) = true.
Proof. intros H. apply digits_fuel_digits; [exact H|reflexivity]. Qed.

Lemma FormatUint_nonempty (n : Z) : FormatUint n <> [].
Proof. apply digits_fuel_nonempty. left. discriminate. Qed.

Lemma FormatUint_val (n : Z) : 0 <= n < 10 ^ 20 -> digits_val (FormatUint n) = n.
Proof.
  intros H. unfold digits_val, FormatUint.
  change (fold_left step10 (digits_fuel 20 n []) 0 = n).
  rewrite digits_fuel_val; [reflexivity|exact H].
Qed.

Lemma ParseUint_FormatUint (n : Z) :
  0 <= n <= MaxUint64 -> ParseUint (FormatUint n) = (n, None).
Proof.
  intros H. unfold ParseUint.
  pose proof (FormatUint_nonempty n) as Hne.
  destruct (FormatUint n) as [|c t] eqn:E; [congruence|]. rewrite <- E.
  rewrite FormatUint_digits by lia.
  rewrite FormatUint_val by (unfold MaxUint64 in H; lia).
  destruct (n <=? MaxUint64) eqn:El; [reflexivity|]. apply Z.leb_gt in El. lia.
Qed.


(* ------------------------------------------------------------------ *)
(** ** Lemmas: the listing codec                                       *)
(* ------------------------------------------------------------------ *)

Lemma getnum_app (s r rest : gostring) (fixed : bool) (v : Z) :
  getnum s fixed = Some (v, rest) -> rest <> [] ->
  getnum (s ++ r) fixed = Some (v, rest ++ r).
Proof.
  destruct s as [|c [|d t]]; cbn [getnum app]; try discriminate.
  - destruct (is_digit c); [|discriminate]. destruct fixed; [discriminate|].
    intros H Hr. injection H as <- <-. congruence.
  - destruct (is_digit c); [|discriminate]. destruct (is_digit d).
    + intros H _. injection H as <- <-. reflexivity.
    + destruct fixed; [discriminate|]. intros H _. injection H as <- <-. reflexivity.
Qed.

Lemma lookup_from_app (tab : list gostring) (s r rest : gostring) (i k : Z) :
  Forall (fun v => (length v <= length s)%nat) tab ->
  lookup_from i tab s = Some (k, rest) ->
  lookup_from i tab (s ++ r) = Some (k, rest ++ r).
Proof.
  intros Hall. revert i. induction Hall as [|v tab Hv _ IH]; intros i; cbn [lookup_from];
    [discriminate|].
  rewrite length_app.
  replace (length v <=? length s + length r)%nat with true
    by (symmetry; apply Nat.leb_le; lia).
  replace (length v <=? length s)%nat with true by (symmetry; apply Nat.leb_le; lia).
  cbn [andb]. rewrite take_app_le by exact Hv.
  destruct (match_fold (take (length v) s) v).
  - intros H. injection H as <- <-. rewrite drop_app_le by exact Hv. reflexivity.
  - apply IH.
Qed.

Lemma cutspace_head (c : ascii) (t : gostring) :
  Ascii.eqb c SP = false -> cutspace (c :: t) = c :: t.
Proof. intros H. cbn [cutspace]. rewrite H. reflexivity. Qed.

Lemma skip_space (c : ascii) (t : gostring) :
  Ascii.eqb c SP = false -> skip (SP :: c :: t) SP = Some (c :: t).
Proof. intros H. cbn. rewrite H. reflexivity. Qed.

Lemma skip_colon (t : gostring) : skip (":"%char :: t) ":" = Some t.
Proof. reflexivity. Qed.

(** The five parts of a time text, each with what the parser reads of it. *)
Section Parts.

Variables (D Mo Y H MI : gostring) (d m k h mi : Z).
Hypothesis HD : exists c t, D = c :: t /\ Ascii.eqb c SP = false
                  /\ getnum (D ++ [SP]) false = Some (d, [SP]).
Hypothesis HMo : exists c t, Mo = c :: t /\ Ascii.eqb c SP = false
                  /\ length Mo = 3%nat
                  /\ lookup shortMonthNames Mo = Some (m - 1, []).
Hypothesis HY : exists c1 c2, Y = [c1; c2] /\ Ascii.eqb c1 SP = false
                  /\ time_atoi Y = Some k.
Hypothesis HH : exists c t, H = c :: t /\ Ascii.eqb c SP = false
                  /\ getnum (H ++ [":"%char]) false = Some (h, [":"%char]).
Hypothesis HMI : exists c t, MI = c :: t /\ getnum (MI ++ [SP]) true = Some (mi, [SP]).
Hypothesis Hh : 0 <= h < 24.
Hypothesis Hmi : 0 <= mi < 60.

Lemma time_Parse_parts :
  time_Parse (D ++ SP :: Mo ++ SP :: Y ++ SP :: H ++ ":"%char :: MI ++ SP :: lit "GMT") =
  if (d <? 1) || (daysIn m (this_century k) <? d)
  then Err (time_ParseError
              (D ++ SP :: Mo ++ SP :: Y ++ SP :: H ++ ":"%char :: MI ++ SP :: lit "GMT"))
  else Ok {| year := this_century k; month := m; day := d; hour := h; minute := mi |}.
Proof.
  destruct HD as (cD & tD & ED & HcD & HgD).
  destruct HMo as (cM & tM & EM & HcM & HlM & HgM).
  destruct HY as (c1 & c2 & EY & Hc1 & HgY).
  destruct HH as (cH & tH & EH & HcH & HgH).
  destruct HMI as (cI & tI & EI & HgI).
  unfold time_Parse. cbv zeta.
  set (bad := Err (time_ParseError _)).
  set (r1 := Mo ++ SP :: Y ++ SP :: H ++ ":"%char :: MI ++ SP :: lit "GMT").
  match goal with
  | |- context [getnum ?x false] =>
      replace x with ((D ++ [SP]) ++ r1)
        by (rewrite <- app_assoc; cbn [app]; rewrite ED; cbn [app]; rewrite HcD; reflexivity)
  end.
  rewrite (getnum_app _ r1 _ _ _ HgD) by discriminate.
  cbn [app]. unfold r1. rewrite EM. cbn [app]. rewrite (skip_space _ _ HcM).
  set (r2 := Y ++ SP :: H ++ ":"%char :: MI ++ SP :: lit "GMT").
  change (cM :: tM ++ SP :: r2) with ((cM :: tM) ++ SP :: r2). rewrite <- EM.
  unfold lookup.
  rewrite (lookup_from_app shortMonthNames Mo (SP :: r2) [] 0 (m - 1));
    [|rewrite HlM; repeat constructor|exact HgM].
  cbn [app]. unfold r2. rewrite EY. cbn [app]. rewrite (skip_space _ _ Hc1).
  cbn [length Nat.ltb Nat.leb take drop]. rewrite <- EY, HgY.
  rewrite EH. cbn [app]. rewrite (skip_space _ _ HcH).
  change (cH :: tH ++ ":"%char :: MI ++ SP :: lit "GMT")
    with ((cH :: tH) ++ [":"%char] ++ (MI ++ SP :: lit "GMT")).
  rewrite <- EH, app_assoc. rewrite (getnum_app _ _ _ _ _ HgH) by discriminate.
  replace ((h <? 0) || (24 <=? h)) with false
    by (symmetry; rewrite orb_false_iff, Z.ltb_ge, Z.leb_gt; lia).
  cbn [app]. rewrite skip_colon.
  change (MI ++ SP :: lit "GMT") with (MI ++ [SP] ++ lit "GMT").
  rewrite app_assoc. rewrite (getnum_app _ _ _ _ _ HgI) by discriminate.
  replace ((mi <? 0) || (60 <=? mi)) with false
    by (symmetry; rewrite orb_false_iff, Z.ltb_ge, Z.leb_gt; lia).
  change (skip ([SP] ++ lit "GMT") SP) with (Some (lit "GMT")).
  change (streq (take 3 (lit "GMT")) (lit "UTC")) with false.
  change (parseTimeZone (lit "GMT")) with (Some 3). cbn [Z.to_nat].
  change (drop (Pos.to_nat 3) (lit "GMT")) with (@nil ascii).
  replace (m - 1 + 1) with m by lia. unfold this_century. reflexivity.
Qed.

End Parts.

Lemma head_not_space_spec (s : gostring) :
  head_not_space s = true -> exists c t, s = c :: t /\ Ascii.eqb c SP = false.
Proof.
  destruct s as [|c t]; [discriminate|]. cbn. intros H. exists c, t.
  split; [reflexivity|]. apply negb_true_iff, H.
Qed.

Lemma day_ok_all (z : Z) : 0 <= z < 32 -> day_ok z = true.
Proof. apply (forall_below day_ok 32). vm_compute. reflexivity. Qed.

Lemma month_ok_all (z : Z) : 0 <= z < 12 -> month_ok z = true.
Proof. apply (forall_below month_ok 12). vm_compute. reflexivity. Qed.

Lemma year_ok_all (z : Z) : 0 <= z < 100 -> year_ok z = true.
Proof. apply (forall_below year_ok 100). vm_compute. reflexivity. Qed.

Lemma hour_ok_all (z : Z) : 0 <= z < 24 -> hour_ok z = true.
Proof. apply (forall_below hour_ok 24). vm_compute. reflexivity. Qed.

Lemma minute_ok_all (z : Z) : 0 <= z < 60 -> minute_ok z = true.
Proof. apply (forall_below minute_ok 60). vm_compute. reflexivity. Qed.

Lemma this_year_ok_all (z : Z) : 0 <= z < 10000 -> this_year_ok z = true.
Proof. apply (forall_below this_year_ok (Z.to_nat 10000)). vm_compute. reflexivity. Qed.





Lemma at_index_Z {A} (l : list A) (i : Z) (x : A) :
  0 <= i -> l !! Z.to_nat i = Some x -> at_index l i = Done x.
Proof.
  intros Hi Hl. unfold at_index. pose proof (lookup_lt_Some _ _ _ Hl) as Hlt.
  replace ((0 <=? i) && (i <? len l)) with true
    by (symmetry; rewrite andb_true_iff, Z.leb_le, Z.ltb_lt; unfold len; lia).
  rewrite Hl. reflexivity.
Qed.

Lemma slice_from_drop {A} (l : list A) (i : Z) :
  0 <= i <= len l -> slice_from l i = Done (drop (Z.to_nat i) l).
Proof.
  intros Hi. unfold slice_from, slice.
  replace ((0 <=? i) && (i <=? len l) && (len l <=? len l)) with true
    by (symmetry; rewrite !andb_true_iff, !Z.leb_le; lia).
  f_equal. apply take_ge. rewrite length_drop. unfold len. lia.
Qed.


Lemma digits_val_nonneg (s : gostring) (a : Z) :
  forallb is_digit s = true -> 0 <= a ->
  0 <= fold_left (fun a c => a * 10 + digit_val c) s a.
Proof.
  revert a. induction s as [|c s IH]; intros a Hs Ha; [exact Ha|].
  cbn [forallb] in Hs. apply andb_true_iff in Hs as [Hc Hs]. cbn [fold_left].
  apply IH; [exact Hs|].
  unfold is_digit in Hc. cbv zeta in Hc. apply andb_true_iff in Hc as [Hc _].
  apply N.leb_le in Hc. unfold digit_val. lia.
Qed.

Lemma ParseUint_range (s : gostring) (v : Z) :
  ParseUint s = (v, None) -> 0 <= v <= MaxUint64.
Proof.
  unfold ParseUint. destruct s as [|c t]; [discriminate|].
  destruct (forallb is_digit (c :: t)) eqn:Ed; [|discriminate].
  destruct (digits_val (c :: t) <=? MaxUint64) eqn:El; [|discriminate].
  intros H. injection H as <-. apply Z.leb_le in El. split; [|exact El].
  apply digits_val_nonneg; [exact Ed|lia].
Qed.





Lemma wrap64_small (z : Z) : - 2 ^ 63 <= z < 2 ^ 63 -> wrap64 z = z.
Proof. intros H. unfold wrap64. rewrite Z.mod_small; lia. Qed.


Lemma Contains_colon (a b : gostring) :
  existsb (Ascii.eqb ":") a = false -> Contains (a ++ lit ":" ++ b) (lit ":") = true.
Proof.
  intros H. unfold Contains, Index. change (lit ":") with [":"%char]. cbn [app].
  rewrite Index_from_byte.
  - apply Z.leb_le. pose proof (len_nonneg a). lia.
  - intros Hin. apply list_elem_of_In in Hin.
    assert (existsb (Ascii.eqb ":") a = true); [|congruence].
    apply existsb_exists. exists ":"%char. split; [exact Hin|reflexivity].
Qed.

Lemma time_Parse_text (d m k h mi : Z) :
  1 <= d <= 31 -> 1 <= m <= 12 -> 0 <= k < 100 -> 0 <= h < 24 -> 0 <= mi < 60 ->
  time_Parse (time_text d m k h mi) =
  if daysIn m (this_century k) <? d then Err (time_ParseError (time_text d m k h mi))
  else Ok {| year := this_century k; month := m; day := d; hour := h; minute := mi |}.
Proof.
  intros Hd Hm Hk Hh Hmi. unfold time_text.
  pose proof (day_ok_all d ltac:(lia)) as Cd.
  pose proof (month_ok_all (m - 1) ltac:(lia)) as Cm.
  pose proof (year_ok_all k ltac:(lia)) as Ck.
  pose proof (hour_ok_all h ltac:(lia)) as Ch.
  pose proof (minute_ok_all mi ltac:(lia)) as Ci.
  unfold day_ok, month_ok, year_ok, hour_ok, minute_ok in *. cbv zeta in Cm.
  repeat match goal with
         | H : _ && _ = true |- _ => apply andb_true_iff in H as [? ?]
         | H : bool_decide _ = true |- _ => apply bool_decide_eq_true in H
         | H : head_not_space _ = true |- _ => apply head_not_space_spec in H as (? & ? & ? & ?)
         end.
  rewrite (time_Parse_parts _ _ _ _ _ d m k h mi).
  - replace (d <? 1) with false by (symmetry; apply Z.ltb_ge; lia). reflexivity.
  - eauto 10.
  - eauto 10.
  - destruct (zero2 k) as [|c1 [|c2 [|? ?]]] eqn:E; try discriminate.
    exists c1, c2. repeat split; congruence.
  - eauto 10.
  - eauto 10.
  - exact Hh.
  - exact Hmi.
Qed.

Lemma parse_known_fields (thisYear : Z) (line : gostring) (c : ascii) (tl f1 f2 f3 : gostring)
    (ty : EntryType) (size d m h mi : Z) (g : gostring) (rest : list gostring) :
  Fields line = (c :: tl) :: f1 :: f2 :: f3 :: FormatUint size
                :: nth (Z.to_nat (m - 1)) shortMonthNames []
                :: Itoa d :: (zero2 h ++ lit ":" ++ zero2 mi) :: g :: rest ->
  type_of_char c = Some ty ->
  0 <= size <= MaxUint64 -> (ty <> EntryTypeFile -> size = 0) ->
  1000 <= thisYear <= 9999 ->
  1 <= d <= 31 -> 1 <= m <= 12 -> 0 <= h < 24 -> 0 <= mi < 60 ->
  parseListLine thisYear line =
  if daysIn m (this_century (thisYear mod 100)) <? d
  then Done (Err (time_ParseError (time_text d m (thisYear mod 100) h mi)))
  else Done (Ok {| Name := Join (g :: rest) (lit " "); Type_ := ty; Size := size;
                   Time := {| year := this_century (thisYear mod 100); month := m;
                              day := d; hour := h; minute := mi |} |}).
Proof.
  intros HF Hty Hsize Hsz0 Hy Hd Hm Hh Hmi.
  unfold parseListLine. cbv zeta. rewrite HF.
  replace (len _ <? 9) with false
    by (symmetry; apply Z.ltb_ge; rewrite !len_cons; pose proof (len_nonneg rest); lia).
  rewrite (at_index_Z _ 0 (c :: tl)) by (lia || reflexivity).
  rewrite (at_index_Z _ 4 (FormatUint size)) by (lia || reflexivity).
  rewrite !(at_index_Z _ 5 (nth (Z.to_nat (m - 1)) shortMonthNames [])) by (lia || reflexivity).
  rewrite !(at_index_Z _ 6 (Itoa d)) by (lia || reflexivity).
  rewrite !(at_index_Z _ 7 (zero2 h ++ lit ":" ++ zero2 mi)) by (lia || reflexivity).
  rewrite slice_from_drop by (rewrite !len_cons; pose proof (len_nonneg rest); lia).
  cbn [mbind run_bind Z.to_nat Pos.to_nat Pos.iter_op Nat.add drop].
  rewrite (at_index_Z (c :: tl) 0 c) by (lia || reflexivity). cbn [mbind run_bind].
  unfold type_of_char in Hty. rewrite Hty.
  pose proof (hour_ok_all h ltac:(lia)) as Ch. unfold hour_ok in Ch.
  apply andb_true_iff in Ch as [Ch _]. apply andb_true_iff in Ch as [_ Ch].
  apply negb_true_iff in Ch. rewrite (Contains_colon _ _ Ch).
  pose proof (this_year_ok_all thisYear ltac:(lia)) as Cy. unfold this_year_ok in Cy.
  replace (thisYear <? 1000) with false in Cy by (symmetry; apply Z.ltb_ge; lia).
  cbn [orb] in Cy. destruct (slice (Itoa thisYear) 2 4) as [yy|] eqn:Ey; [|discriminate].
  apply bool_decide_eq_true in Cy. subst yy.
  assert (Hparse :
    (if bool_decide (ty = EntryTypeFile)
     then Done (ParseUint (FormatUint size))
     else Done (0, None)) = Done (size, @None error)).
  { destruct (bool_decide (ty = EntryTypeFile)) eqn:E.
    - rewrite ParseUint_FormatUint by exact Hsize. reflexivity.
    - apply bool_decide_eq_false in E. rewrite (Hsz0 E). reflexivity. }
  rewrite Hparse. cbn [mbind run_bind].
  replace (Itoa d ++ lit " " ++ nth (Z.to_nat (m - 1)) shortMonthNames [] ++ lit " "
           ++ zero2 (thisYear mod 100) ++ lit " " ++ (zero2 h ++ lit ":" ++ zero2 mi)
           ++ lit " GMT")
    with (time_text d m (thisYear mod 100) h mi)
    by (unfold time_text; change (lit " ") with [SP]; change (lit ":") with [":"%char];
        change (lit " GMT") with (SP :: lit "GMT"); rewrite <- !app_assoc; reflexivity).
  rewrite time_Parse_text by (try assumption; apply Z.mod_pos_bound; lia).
  destruct (daysIn m (this_century (thisYear mod 100)) <? d); reflexivity.
Qed.


(* ------------------------------------------------------------------ *)
(** ** The server: what the commands do to a session                   *)
(* ------------------------------------------------------------------ *)

Module ServerFacts.

Import Server.

Section ServerFacts.

Context {W : Type} (os : OS W) (Message : Z -> gostring).

Lemma cmd_healthy (msg : gostring) (st : State W) :
  writer_err (sc st) = false -> cmd os msg st = Done (tt, after_cmd os msg st).
Proof.
  intros H. unfold after_cmd. destruct st as [c w tr]. cbn in H.
  unfold cmd, mbind, M_bind, get, emit, modify, in_world, mret, M_ret, set_sc.
  cbn [sc world trace]. rewrite H. cbn [sc world trace]. rewrite H.
  cbn [sc world trace]. destruct (ctl_Flush os (msg ++ CRLF) w) as [[|] w']; reflexivity.
Qed.


Lemma after_cmd_prefix (msg : gostring) (st : State W) :
  prefix (sc (after_cmd os msg st)) = prefix (sc st).
Proof.
  unfold after_cmd. destruct (ctl_Flush os (msg ++ CRLF) (world st)) as [[|] w]; reflexivity.
Qed.

Lemma after_cmd_dataConn (msg : gostring) (st : State W) :
  dataConn (sc (after_cmd os msg st)) = dataConn (sc st).
Proof.
  unfold after_cmd. destruct (ctl_Flush os (msg ++ CRLF) (world st)) as [[|] w]; reflexivity.
Qed.

Lemma after_cmd_trace (msg : gostring) (st : State W) :
  trace (after_cmd os msg st) = Reply msg :: trace st.
Proof.
  unfold after_cmd. destruct (ctl_Flush os (msg ++ CRLF) (world st)) as [[|] w]; reflexivity.
Qed.

Lemma dispatch_word (p0 : gostring) (args : list gostring) (st : State W) :
  dispatch os Message (p0 :: args) st =
  (let word := ToUpper p0 in
   if streq word USER then _ ← sendStatusText os Message StatusUserOK; mret true
   else if streq word PASS then _ ← sendStatusText os Message StatusLoggedIn; mret true
   else if streq word PWD then do_PWD os
   else if streq word CWD then do_CWD os Message args
   else if streq word DELE then do_DELE os Message args
   else if streq word EPSV then do_EPSV os Message
   else if streq word SIZE then do_SIZE os args
   else if streq word LIST then do_LIST os Message
   else if streq word MKD then do_MKD os Message args
   else if streq word NOOP then _ ← sendStatusText os Message StatusCommandOK; mret true
   else if streq word PASV then do_PASV os Message
   else if streq word QUIT then _ ← Close os; mret false
   else if streq word RETR then do_RETR os Message args
   else if streq word RMD || streq word XRMD then do_RMD os Message args
   else if streq word RNFR then do_RNFR os Message args
   else if streq word RNTO then do_RNTO os args
   else if streq word SYST then _ ← sendStatusText os Message StatusName; mret true
   else if streq word STOR then do_STOR os Message args
   else if streq word TYPE then do_TYPE os (p0 :: args)
   else _ ← sendStatusText os Message StatusCommandNotImplemented; mret true) st.
Proof.
  unfold dispatch.
  assert (at_index (p0 :: args) 0 = Done p0) as Hp by reflexivity.
  assert (slice_from (p0 :: args) 1 = Done args) as Ha.
  { unfold slice_from, slice. rewrite len_cons. pose proof (len_nonneg args).
    replace ((0 <=? 1) && (1 <=? len args + 1) && (len args + 1 <=? len args + 1)) with true
      by (symmetry; rewrite !andb_true_iff, !Z.leb_le; lia).
    f_equal. cbn [Z.to_nat Pos.to_nat Pos.iter_op Nat.add drop].
    apply take_ge. unfold len. lia. }
  cbn [mbind M_bind]. rewrite Hp. cbn [lift]. rewrite Ha. reflexivity.
Qed.


Lemma dispatch_CWD (p0 : gostring) (args : list gostring) (st : State W) :
  ToUpper p0 = CWD -> dispatch os Message (p0 :: args) st = do_CWD os Message args st.
Proof. intros H. rewrite dispatch_word. cbv zeta. rewrite H. reflexivity. Qed.



Lemma dispatch_STOR (p0 : gostring) (args : list gostring) (st : State W) :
  ToUpper p0 = STOR -> dispatch os Message (p0 :: args) st = do_STOR os Message args st.
Proof. intros H. rewrite dispatch_word. cbv zeta. rewrite H. reflexivity. Qed.

Lemma dispatch_PASV (p0 : gostring) (args : list gostring) (st : State W) :
  ToUpper p0 = PASV -> dispatch os Message (p0 :: args) st = do_PASV os Message st.
Proof. intros H. rewrite dispatch_word. cbv zeta. rewrite H. reflexivity. Qed.

Lemma sendCodeLine_healthy (code : Z) (msg : gostring) (st : State W) :
  writer_err (sc st) = false ->
  sendCodeLine os code msg st = Done (tt, after_cmd os (Itoa code ++ lit " " ++ msg) st).
Proof. intros H. unfold sendCodeLine. apply cmd_healthy, H. Qed.

Lemma Close_rn (st st' : State W) (u : unit) :
  Close os st = Done (u, st') ->
  rn (sc st') = rn (sc st) /\ writer_err (sc st') = writer_err (sc st).
Proof.
  destruct st as [c w tr].
  unfold Close, closeData, emit, modify, set_sc, in_world, lift, put, mbind, M_bind, get,
    mret, M_ret.
  cbn [sc world trace fst snd].
  destruct (dataConn c) as [pc|]; cbn [sc world trace].
  - destruct (pc_Close os pc (ctl_Close os w)) as [w1|p]; [|discriminate].
    intros H. injection H as _ <-. split; reflexivity.
  - intros H. injection H as _ <-. split; reflexivity.
Qed.



Lemma after_cmd_sc (msg : gostring) (st : State W) :
  flush_ok os -> sc (after_cmd os msg st) = sc st.
Proof.
  intros Hf. unfold after_cmd. specialize (Hf (msg ++ CRLF) (world st)).
  destruct (ctl_Flush os (msg ++ CRLF) (world st)) as [ok w]. cbn in Hf. subst ok. reflexivity.
Qed.



Lemma NewPassiveConn_frame (h : gostring) (st st1 : State W) (r : result PassiveConn) :
  NewPassiveConn os h st = Done (r, st1) -> sc st1 = sc st /\ trace st1 = trace st.
Proof.
  unfold NewPassiveConn, in_world, lift, mbind, M_bind, mret, M_ret.
  destruct (net_ListenTCP os (h ++ lit ":0") (world st)) as [[[l addr]|e] w]; cbn [sc world trace].
  - destruct (at_index (Split addr (lit ":")) 0); [|discriminate].
    destruct (at_index (Split addr (lit ":")) 1); [|discriminate].
    intros H. injection H as _ <-. split; reflexivity.
  - intros H. injection H as _ <-. split; reflexivity.
Qed.

(** C10: the passive channel's [Host()] is the constant 127.0.0.1, so the
    227 reply of the server carries the quad 127,0,0,1 whatever host the
    server was started on and whatever address the listener got. *)
Theorem PASV_advertises_loopback
    (p0 : gostring) (args : list gostring) (st st1 : State W) (pc : PassiveConn) :
  ToUpper p0 = PASV -> writer_err (sc st) = false ->
  NewPassiveConn os (host (sc st)) st = Done (Ok pc, st1) ->
  Host pc = lit "127.0.0.1"
  /\ exists st2, dispatch os Message (p0 :: args) st = Done (true, st2)
       /\ dataConn (sc st2) = Some pc
       /\ trace st2 =
          Reply (lit "227 Entering Passive Mode (127,0,0,1,"
                 ++ Itoa (Z.quot (Port pc) 256) ++ lit ","
                 ++ Itoa (Port pc - Z.quot (Port pc) 256 * 256) ++ lit ")")
          :: trace st.
Proof.
  intros Hw Hh Hn. split; [reflexivity|].
  destruct (NewPassiveConn_frame _ _ _ _ Hn) as [Hsc Htr].
  rewrite (dispatch_PASV _ _ _ Hw). unfold do_PASV, conn_of.
  unfold mbind at 1. unfold M_bind at 1. unfold mbind at 1. unfold M_bind at 1.
  unfold get at 1. unfold mret at 1. unfold M_ret at 1.
  unfold mbind at 1. unfold M_bind at 1. rewrite Hn.
  unfold set_sc, modify, mbind, M_bind, mret, M_ret. cbv zeta.
  rewrite sendCodeLine_healthy by (cbn [sc]; rewrite Hsc; exact Hh).
  eexists. split; [reflexivity|].
  rewrite after_cmd_dataConn, after_cmd_trace. cbn [sc trace dataConn set_dataConn].
  rewrite Htr. split; reflexivity.
Qed.

Lemma sendStatusText_healthy (code : Z) (st : State W) :
  writer_err (sc st) = false ->
  sendStatusText os Message code st
  = Done (tt, after_cmd os (Itoa code ++ lit " " ++ Message code) st).
Proof. intros H. unfold sendStatusText. apply sendCodeLine_healthy, H. Qed.

(** The change-directory command on a path that [os.Stat] does not find:
    [f.IsDir()] is called on the nil [FileInfo] before the error is looked
    at. *)
Lemma CWD_missing_panics (p0 : gostring) (args : list gostring) (st : State W) (e : error) :
  ToUpper p0 = CWD ->
  os_Stat os (parsingPath (sc st) args) (world st) = Err e ->
  dispatch os Message (p0 :: args) st = Panic NilDereference.
Proof.
  intros Hw Hs. rewrite (dispatch_CWD _ _ _ Hw).
  unfold do_CWD, conn_of, world_of, lift, mbind, M_bind, get, mret, M_ret.
  rewrite Hs. reflexivity.
Qed.

(** The change-directory command on an existing path that is no directory:
    file-unavailable, and the working path stays. *)
Lemma CWD_not_directory (p0 : gostring) (args : list gostring) (st : State W) (f : FileInfo) :
  ToUpper p0 = CWD -> writer_err (sc st) = false ->
  os_Stat os (parsingPath (sc st) args) (world st) = Ok f -> IsDir f = false ->
  exists st', dispatch os Message (p0 :: args) st = Done (true, st')
    /\ prefix (sc st') = prefix (sc st)
    /\ trace st' = Reply (Itoa StatusFileUnavailable ++ lit " "
                          ++ Message StatusFileUnavailable) :: trace st.
Proof.
  intros Hw Hh Hs Hd. rewrite (dispatch_CWD _ _ _ Hw).
  unfold do_CWD, conn_of, world_of, lift, mbind, M_bind, get, mret, M_ret.
  rewrite Hs. cbn [stat_IsDir]. rewrite Hd. cbn [andb].
  rewrite sendStatusText_healthy by exact Hh.
  eexists. split; [reflexivity|]. split; [apply after_cmd_prefix|apply after_cmd_trace].
Qed.

(** The change-directory command on an existing directory adopts it. *)
Lemma CWD_directory (p0 : gostring) (args : list gostring) (st : State W) (f : FileInfo) :
  ToUpper p0 = CWD -> writer_err (sc st) = false ->
  os_Stat os (parsingPath (sc st) args) (world st) = Ok f -> IsDir f = true ->
  exists st', dispatch os Message (p0 :: args) st = Done (true, st')
    /\ prefix (sc st') = parsingPath (sc st) args.
Proof.
  intros Hw Hh Hs Hd. rewrite (dispatch_CWD _ _ _ Hw).
  unfold do_CWD, conn_of, world_of, lift, mbind, M_bind, get, mret, M_ret, set_sc, modify.
  rewrite Hs. cbn [stat_IsDir stat_err]. rewrite Hd. cbn [andb bool_decide].
  rewrite bool_decide_true by reflexivity.
  rewrite sendCodeLine_healthy by exact Hh.
  eexists. split; [reflexivity|]. rewrite after_cmd_prefix. reflexivity.
Qed.

(** The store command neither closes the data channel nor clears the
    field: when it returns, it has only sent replies (no close of the
    channel is among what it did) and [dataConn] is what it was. *)
Lemma STOR_leaves_channel_open
    (p0 : gostring) (args : list gostring) (st st' : State W) (b : bool) :
  ToUpper p0 = STOR -> writer_err (sc st) = false -> flush_ok os ->
  dispatch os Message (p0 :: args) st = Done (b, st') ->
  dataConn (sc st') = dataConn (sc st)
  /\ exists replies, trace st' = map Reply replies ++ trace st.
Proof.
  intros Hw Hh Hf. rewrite (dispatch_STOR _ _ _ Hw).
  unfold do_STOR, conn_of. unfold mbind, M_bind, get, mret, M_ret.
  rewrite sendCodeLine_healthy by exact Hh.
  set (st1 := after_cmd os _ st).
  assert (Hsc1 : sc st1 = sc st) by apply after_cmd_sc, Hf.
  assert (Htr1 : exists m, trace st1 = map Reply [m] ++ trace st)
    by (eexists; apply after_cmd_trace).
  destruct Htr1 as [m1 Htr1].
  unfold in_world. destruct (os_OpenFile os (parsingPath (sc st) args) (world st1)) as [r w2].
  set (st2 := {| sc := sc st1; world := w2; trace := trace st1 |}).
  match goal with
  | |- context [?f st2] =>
      assert (exists st3 ms, f st2 = Done (tt, st3)
              /\ sc st3 = sc st /\ trace st3 = map Reply ms ++ trace st)
        as (st3 & ms3 & Hs3 & Hsc3 & Htr3)
  end.
  { destruct r as [fh|e].
    - exists st2, [m1]. split; [reflexivity|]. split; [exact Hsc1|exact Htr1].
    - rewrite sendStatusText_healthy by (cbn; congruence).
      eexists. exists [Itoa 450 ++ lit " " ++ Message 450; m1]. split; [reflexivity|].
      split; [rewrite after_cmd_sc by exact Hf; exact Hsc1|].
      rewrite after_cmd_trace. cbn [trace st2]. rewrite Htr1. reflexivity. }
  rewrite Hs3. unfold lift, put.
  destruct (io_Copy os _ (dataConn (sc st3)) (world st3)) as [[n w4]|p]; [|discriminate].
  set (st4 := {| sc := sc st3; world := w4; trace := trace st3 |}).
  match goal with
  | |- context [?f st4] =>
      assert (exists st5 m5, f st4 = Done (tt, st5)
              /\ sc st5 = sc st /\ trace st5 = Reply m5 :: trace st3)
        as (st5 & m5 & Hs5 & Hsc5 & Htr5)
  end.
  { destruct (0 <=? n).
    - rewrite sendCodeLine_healthy by (cbn; congruence). eexists. eexists.
      split; [reflexivity|]. split; [rewrite after_cmd_sc by exact Hf; exact Hsc3|].
      rewrite after_cmd_trace. reflexivity.
    - rewrite sendStatusText_healthy by (cbn; congruence). eexists. eexists.
      split; [reflexivity|]. split; [rewrite after_cmd_sc by exact Hf; exact Hsc3|].
      rewrite after_cmd_trace. reflexivity. }
  rewrite Hs5. intros H. injection H as _ <-. cbn [sc trace].
  split; [congruence|]. exists (m5 :: ms3). rewrite Htr5, Htr3. reflexivity.
Qed.

End ServerFacts.

End ServerFacts.

(* ------------------------------------------------------------------ *)
(** ** The client: connecting and opening a data connection            *)
(* ------------------------------------------------------------------ *)

Module ClientFacts.

Import Client.

Section ClientFacts.

Context {N : Type} (net : Network N).

(** C8: when the dial fails, [Dial] returns a nil connection with the
    error, [Connect] calls [Quit] on that nil connection, and the call
    dereferences it: [Connect] panics instead of returning the error. *)
Theorem Connect_failed_dial_derefs_nil
    (addr user password : gostring) (w w' : N) (e : error) :
  net_DialTimeout net addr 0 w = (Err e, w') ->
  Dial net addr w = Done ((None, Some e), w')
  /\ Connect net addr user password w = (_ ← Quit net None; mret (None, Some e)) w'
  /\ Connect net addr user password w = Panic NilDereference.
Proof.
  intros H.
  assert (HD : Dial net addr w = Done ((None, Some e), w')).
  { unfold Dial, DialTimeout, call, mbind, M_bind. rewrite H. reflexivity. }
  split; [exact HD|].
  split; unfold Connect; unfold mbind at 1; unfold M_bind at 1; rewrite HD; reflexivity.
Qed.

(** Whenever [Dial] returns an error, the connection it returns is nil. *)
Lemma Dial_error_nil (addr : gostring) (w w' : N) (c : option ClientConn) (e : error) :
  Dial net addr w = Done ((c, Some e), w') -> c = None.
Proof.
  unfold Dial, DialTimeout, Quit, call, mbind, M_bind, mret, M_ret.
  destruct (net_DialTimeout net addr 0 w) as [[tconn|e0] w1]; [|cbn; congruence].
  destruct (textproto_ReadResponse net tconn StatusReady w1) as [[[code msg] err] w2].
  assert (Hquit : forall (cc : ClientConn) (e' : error) (w0 : N),
            match (let (_, s') := textproto_Cmd net (conn cc) (lit "QUIT") w0 in
                   Done (net_Close net (conn cc) s')) with
            | Done (_, s') => Done ((@None ClientConn, Some e'), s')
            | Panic p => Panic p
            end = Done ((c, Some e), w') -> c = None).
  { intros cc e' w0. destruct (textproto_Cmd net (conn cc) (lit "QUIT") w0) as [? w3].
    destruct (net_Close net (conn cc) w3) as [? w4]. congruence. }
  destruct err as [e1|]; [apply Hquit|].
  match goal with
  | |- context [feat net ?c0 w2] => destruct (feat net c0 w2) as [[[c' [e2|]] w3]|p]
  end; [apply Hquit| |discriminate].
  destruct (setUTF8 net c' w3) as [[[e3|] w4]|p]; [apply Hquit|congruence|discriminate].
Qed.

(** Whenever [Dial] returns an error, [Connect] panics. *)
Lemma Connect_after_failed_Dial
    (addr user password : gostring) (w w' : N) (c : option ClientConn) (e : error) :
  Dial net addr w = Done ((c, Some e), w') ->
  Connect net addr user password w = Panic NilDereference.
Proof.
  intros H. pose proof (Dial_error_nil _ _ _ _ _ H) as ->.
  unfold Connect. unfold mbind at 1. unfold M_bind at 1. rewrite H. reflexivity.
Qed.

(** When the server rejects both passive commands, [openDataConn] still
    dials, at port 0. *)
Lemma openDataConn_dials_port_0
    (c : ClientConn) (w w1 w2 : N) (c1 c2 : Z) (l1 l2 : gostring) (e1 e2 : error) :
  cmd net c StatusExtendedPassiveMode (lit "EPSV") w = Done ((c1, l1, Some e1), w1) ->
  cmd net c StatusPassiveMode (lit "PASV") w1 = Done ((c2, l2, Some e2), w2) ->
  openDataConn net c w
  = Done (net_DialTimeout net (JoinHostPort (host c) (lit "0")) (timeout c) w2).
Proof.
  intros H1 H2. unfold openDataConn, epsv, pasv, call.
  unfold mbind, M_bind, mret, M_ret. rewrite H1. cbn iota. rewrite H2. reflexivity.
Qed.

End ClientFacts.

End ClientFacts.

(* ------------------------------------------------------------------ *)
(** ** The claims on explicit inputs                                   *)
(* ------------------------------------------------------------------ *)

(** C3: a line with nine fields, a recognised type and a numeric size whose
    field 7 is a two-digit year does not fail with an error: slicing
    [fields[7][2:4]] panics, whatever the current year. *)
Theorem parseListLine_two_digit_year_panics (thisYear : Z) :
  parseListLine thisYear (lit "-rw-r--r-- 1 user group 5 Jan 1 99 a.txt")
  = Panic SliceBoundsOutOfRange.
Proof. vm_compute. reflexivity. Qed.

(** C4 (as amended): the PASV parser takes the text between the first
    opening and the last closing parenthesis, splits it at commas and
    decodes the port from the last two fields only, high * 256 + low, a
    field that is no number counting as 0; the reply of the specification
    decodes to 65203; a reply without an opening or without a closing
    parenthesis fails with the format error. *)
Theorem pasv_reply_last_two_fields :
  Client.pasv_reply (lit "227 Entering Passive Mode (172,17,66,241,254,179)")
  = Done (65203, None)
  /\ (forall (pre post : gostring) (front : list gostring) (sx sy : gostring),
        "("%char ∉ pre -> ")"%char ∉ post ->
        Forall (fun f => ","%char ∉ f) (front ++ [sx; sy]) ->
        Client.pasv_reply
          (pre ++ lit "(" ++ Join (front ++ [sx; sy]) (lit ",") ++ lit ")" ++ post)
        = Done (wrap64 (fst (Atoi sx) * 256 + fst (Atoi sy)), None))
  /\ (forall (pre post : gostring) (front : list gostring) (hi lo : Z),
        "("%char ∉ pre -> ")"%char ∉ post ->
        Forall (fun f => ","%char ∉ f) front ->
        0 <= hi < 256 -> 0 <= lo < 256 ->
        Client.pasv_reply
          (pre ++ lit "(" ++ Join (front ++ [Itoa hi; Itoa lo]) (lit ",") ++ lit ")" ++ post)
        = Done (hi * 256 + lo, None))
  /\ (forall line : gostring,
        "("%char ∉ line \/ ")"%char ∉ line ->
        Client.pasv_reply line
        = Done (0, Some (errors_New (lit "invalid PASV response format")))).
Proof.
  split; [vm_compute; reflexivity|].
  split; [intros; apply pasv_reply_fields; assumption|].
  split; [|apply pasv_reply_no_delimiter].
  intros pre post front hi lo Hpre Hpost Hfront Hhi Hlo.
  destruct (Atoi_Itoa_byte hi Hhi) as [Ahi Chi].
  destruct (Atoi_Itoa_byte lo Hlo) as [Alo Clo].
  rewrite pasv_reply_fields; [|assumption|assumption|].
  - rewrite Ahi, Alo. cbn [fst]. rewrite wrap64_small; [reflexivity|lia].
  - apply Forall_app. split; [exact Hfront|]. repeat constructor; assumption.
Qed.

Lemma pasv_reply_last_two_fields_witness :
  Client.pasv_reply (lit "Entering Passive Mode (10,0,0,7,4,1)") = Done (1025, None).
Proof.
  apply (proj1 (proj2 (proj2 pasv_reply_last_two_fields))
           (lit "Entering Passive Mode ") [] [lit "10"; lit "0"; lit "0"; lit "7"] 4 1).
  - apply (bool_decide_unpack _). vm_compute. exact I.
  - apply (bool_decide_unpack _). vm_compute. exact I.
  - apply (bool_decide_unpack _). vm_compute. exact I.
  - lia.
  - lia.
Defined.

(** C4, the claim as stated fails: a reply with only two fields is taken
    without any error, and replies with too few fields or with the
    parentheses the wrong way round crash the parser instead of failing
    with a format error. *)
Lemma pasv_reply_short_replies :
  Client.pasv_reply (lit "227 Entering Passive Mode (1,2)") = Done (258, None)
  /\ Client.pasv_reply (lit "227 Entering Passive Mode (7)") = Panic IndexOutOfRange
  /\ Client.pasv_reply (lit "227 Entering Passive Mode )1,2(") = Panic SliceBoundsOutOfRange.
Proof. repeat split; vm_compute; reflexivity. Qed.



(** C9: for no item, both formatters return [null]: exactly two lines,
    each ended by carriage return and line feed, which parse as the
    directories [.] and [..] of size 0 dated 1 April, 00:00. *)
Theorem empty_listing_two_synthetic_lines (thisYear : Z) :
  1000 <= thisYear <= 9999 ->
  ListDetailed [] = null /\ ListShort [] = null
  /\ null <> []
  /\ Split null [LF] = [dot_line ++ [CR]; dotdot_line ++ [CR]; []]
  /\ parseListLine thisYear (dot_line ++ CRLF)
     = Done (Ok {| Name := lit "."; Type_ := EntryTypeFolder; Size := 0;
                   Time := {| year := this_century (thisYear mod 100); month := 4;
                              day := 1; hour := 0; minute := 0 |} |})
  /\ parseListLine thisYear (dotdot_line ++ CRLF)
     = Done (Ok {| Name := lit ".."; Type_ := EntryTypeFolder; Size := 0;
                   Time := {| year := this_century (thisYear mod 100); month := 4;
                              day := 1; hour := 0; minute := 0 |} |}).
Proof.
  intros Hy. split; [reflexivity|]. split; [reflexivity|]. split; [discriminate|].
  split; [vm_compute; reflexivity|].
  split.
  - rewrite (parse_known_fields thisYear _ "d"%char (lit "rwxrwxrwx") (lit "1") (lit "user")
               (lit "group") EntryTypeFolder 0 1 4 0 0 (lit ".") []);
      [|vm_compute; reflexivity|reflexivity|unfold MaxUint64; lia|reflexivity
       |lia|lia|lia|lia|lia].
    change (daysIn 4 (this_century (thisYear mod 100))) with 30. reflexivity.
  - rewrite (parse_known_fields thisYear _ "d"%char (lit "rwxrwxrwx") (lit "1") (lit "user")
               (lit "group") EntryTypeFolder 0 1 4 0 0 (lit "..") []);
      [|vm_compute; reflexivity|reflexivity|unfold MaxUint64; lia|reflexivity
       |lia|lia|lia|lia|lia].
    change (daysIn 4 (this_century (thisYear mod 100))) with 30. reflexivity.
Qed.

Lemma empty_listing_two_synthetic_lines_witness :
  ListDetailed [] = null /\ ListShort [] = null
  /\ null <> []
  /\ Split null [LF] = [dot_line ++ [CR]; dotdot_line ++ [CR]; []]
  /\ parseListLine 2026 (dot_line ++ CRLF)
     = Done (Ok {| Name := lit "."; Type_ := EntryTypeFolder; Size := 0;
                   Time := {| year := this_century (2026 mod 100); month := 4;
                              day := 1; hour := 0; minute := 0 |} |})
  /\ parseListLine 2026 (dotdot_line ++ CRLF)
     = Done (Ok {| Name := lit ".."; Type_ := EntryTypeFolder; Size := 0;
                   Time := {| year := this_century (2026 mod 100); month := 4;
                              day := 1; hour := 0; minute := 0 |} |}).
Proof. apply (empty_listing_two_synthetic_lines 2026). lia. Defined.

(** C1: on a session whose current directory holds no [nosuch], the line
    [CWD nosuch] does not answer file-unavailable: the handler panics. *)
Theorem CWD_missing_path_panics :
  (exists e, Server.os_Stat Toy.os (lit "nosuch") Toy.disk = Err e)
  /\ Server.serve_line Toy.os Toy.Message (lit "CWD nosuch" ++ CRLF) Toy.session
     = Panic NilDereference.
Proof. split; [eexists; vm_compute; reflexivity|vm_compute; reflexivity]. Qed.

(** C2: against a server that rejects EPSV and PASV, [openDataConn] sends
    both commands and then dials the host at port 0 all the same. *)
Theorem openDataConn_dials_after_failed_negotiation :
  exists r n, Client.openDataConn Toy.net Toy.client Toy.no_passive = Done (r, n)
    /\ Toy.sent n = [lit "EPSV"; lit "PASV"]
    /\ Toy.dialled n = [lit "10.0.0.1:0"].
Proof. eexists. eexists. split; [vm_compute; reflexivity|]. split; reflexivity. Qed.





Lemma Connect_failed_dial_derefs_nil_witness :
  Client.Dial Toy.net (lit "localhost:2121") Toy.nobody
  = Done ((None, Some (sys_error (lit "dial tcp localhost:2121: connection refused"))),
          {| Toy.script := []; Toy.accepting := [];
             Toy.dialled := [lit "localhost:2121"]; Toy.sent := [] |})
  /\ Client.Connect Toy.net (lit "localhost:2121") (lit "up") (lit "up") Toy.nobody
     = (_ ← Client.Quit Toy.net None;
        mret (None, Some (sys_error (lit "dial tcp localhost:2121: connection refused"))))
         {| Toy.script := []; Toy.accepting := [];
            Toy.dialled := [lit "localhost:2121"]; Toy.sent := [] |}
  /\ Client.Connect Toy.net (lit "localhost:2121") (lit "up") (lit "up") Toy.nobody
     = Panic NilDereference.
Proof.
  apply (ClientFacts.Connect_failed_dial_derefs_nil Toy.net (lit "localhost:2121")
           (lit "up") (lit "up") Toy.nobody).
  reflexivity.
Defined.

Lemma PASV_advertises_loopback_witness :
  Server.Host passive_channel = lit "127.0.0.1"
  /\ exists st2, Server.dispatch Toy.os Toy.Message [lit "pasv"] Toy.session = Done (true, st2)
       /\ Server.dataConn (Server.sc st2) = Some passive_channel
       /\ Server.trace st2 =
          Server.Reply (lit "227 Entering Passive Mode (127,0,0,1,"
                        ++ Itoa (Z.quot (Server.Port passive_channel) 256) ++ lit ","
                        ++ Itoa (Server.Port passive_channel
                                 - Z.quot (Server.Port passive_channel) 256 * 256)
                        ++ lit ")")
          :: Server.trace Toy.session.
Proof.
  apply (ServerFacts.PASV_advertises_loopback Toy.os Toy.Message (lit "pasv") []
           Toy.session
           {| Server.sc := Server.sc Toy.session;
              Server.world := snd (Toy.listen (lit "192.168.1.5:0") Toy.disk);
              Server.trace := [] |}
           passive_channel).
  - reflexivity.
  - reflexivity.
  - vm_compute. reflexivity.
Defined.

Lemma Split_from_cons (sep : gostring) (k : nat) (s : gostring) :
  exists p0 args, Split_from sep k s = p0 :: args.
Proof.
  revert k. induction s as [|c t IH]; intros k; cbn [Split_from].
  - eexists. eexists. reflexivity.
  - destruct k as [|k]; [|apply IH].
    destruct (HasPrefix (c :: t) sep); [eexists; eexists; reflexivity|].
    destruct (IH 0%nat) as (p & a & ->). eexists. eexists. reflexivity.
Qed.

(** [strings.Split] with a non-empty separator gives at least one piece. *)
Lemma Split_cons (s sep : gostring) :
  sep <> [] -> exists p0 args, Split s sep = p0 :: args.
Proof.
  intros H. unfold Split. destruct sep as [|b sep]; [contradiction|]. apply Split_from_cons.
Qed.

(* ------------------------------------------------------------------ *)
(** ** The server: invariants of a session                             *)
(* ------------------------------------------------------------------ *)

Module ServerInvariants.

Import Server.

Section Keeps.

Context {W : Type} (os : OS W) (Message : Z -> gostring).
Context (R : State W -> State W -> Prop) (HR : frame os R).

Lemma keeps_ret {A} (a : A) : keeps R (mret a).
Proof. intros st r st' H. injection H as _ <-. apply (frame_refl _ _ HR). Qed.

Lemma keeps_bind {A B} (m : M (State W) A) (k : A -> M (State W) B) :
  keeps R m -> (forall a, keeps R (k a)) -> keeps R (m ≫= k).
Proof.
  intros Hm Hk st r st' H. unfold mbind, M_bind in H.
  destruct (m st) as [[a st1]|p] eqn:E; [|discriminate].
  eapply (frame_trans _ _ HR); [eapply Hm, E|eapply Hk, H].
Qed.

Lemma keeps_lift {A} (r : run A) : keeps R (lift r).
Proof.
  intros st a st' H. destruct r; [|discriminate]. injection H as _ <-.
  apply (frame_refl _ _ HR).
Qed.

Lemma keeps_in_world {A} (f : W -> A * W) : keeps R (in_world f).
Proof.
  intros st a st' H. unfold in_world in H. destruct (f (world st)) as [x w].
  injection H as _ <-. apply (frame_world _ _ HR).
Qed.

Lemma keeps_conn_of : keeps R conn_of.
Proof. intros st a st' H. injection H as _ <-. apply (frame_refl _ _ HR). Qed.

Lemma keeps_world_of : keeps R world_of.
Proof. intros st a st' H. injection H as _ <-. apply (frame_refl _ _ HR). Qed.

Lemma keeps_sendCodeLine (code : Z) (msg : gostring) : keeps R (sendCodeLine os code msg).
Proof. apply (frame_cmd _ _ HR). Qed.

Lemma keeps_sendStatusText (code : Z) : keeps R (sendStatusText os Message code).
Proof. apply (frame_cmd _ _ HR). Qed.

Lemma keeps_set_sc (g : ServerConn -> ServerConn) :
  (forall st, R st {| sc := g (sc st); world := world st; trace := trace st |}) ->
  keeps R (set_sc g).
Proof. intros Hg st a st' H. injection H as _ <-. apply Hg. Qed.

Lemma keeps_sendData (data : gostring) :
  (forall st w pc, R st {| sc := sc st; world := w; trace := DataClose pc :: trace st |}) ->
  (forall st pc d,
     R st {| sc := sc st; world := world st; trace := DataWrite pc d :: trace st |}) ->
  keeps R (sendData os Message data).
Proof.
  intros R_data R_write st a st' H. unfold sendData in H.
  unfold mbind at 1, M_bind at 1, get at 1 in H.
  destruct (dataConn (sc st)) as [pc|].
  - revert st a st' H.
    apply keeps_bind; [apply keeps_in_world|intros n].
    apply keeps_bind; [intros st a st' H; injection H as _ <-; apply R_write|intros _].
    apply keeps_bind; [|intros _; apply keeps_sendCodeLine].
    intros st a st' H. unfold closeData, mbind, M_bind, get, lift, put in H.
    destruct (pc_Close os pc (world st)) as [w|p]; [|discriminate].
    injection H as _ <-. apply R_data.
  - eapply keeps_sendStatusText, H.
Qed.

Lemma keeps_NewPassiveConn (h : gostring) : keeps R (NewPassiveConn os h).
Proof.
  unfold NewPassiveConn. apply keeps_bind; [apply keeps_in_world|intros [[l addr]|e]].
  - apply keeps_bind; [apply keeps_lift|intros p0].
    apply keeps_bind; [apply keeps_lift|intros p1]. apply keeps_ret.
  - apply keeps_ret.
Qed.

End Keeps.

(** One step through a handler, for a relation with the frame [HR]. *)
Ltac keeps_step HR :=
  match goal with
  | |- keeps _ (mret _) => apply (keeps_ret _ _ HR)
  | |- keeps _ conn_of => apply (keeps_conn_of _ _ HR)
  | |- keeps _ world_of => apply (keeps_world_of _ _ HR)
  | |- keeps _ (lift _) => apply (keeps_lift _ _ HR)
  | |- keeps _ (in_world _) => apply (keeps_in_world _ _ HR)
  | |- keeps _ (sendCodeLine _ _ _) => apply (keeps_sendCodeLine _ _ HR)
  | |- keeps _ (sendStatusText _ _ _) => apply (keeps_sendStatusText _ _ _ HR)
  | |- keeps _ (NewPassiveConn _ _) => apply (keeps_NewPassiveConn _ _ HR)
  | H : forall data, keeps _ (sendData _ _ data) |- keeps _ (sendData _ _ _) => apply H
  | |- keeps _ (set_sc _) => apply keeps_set_sc; solve [auto]
  | |- keeps _ (mbind _ _) => apply (keeps_bind _ _ HR); [|intros ?]
  | |- keeps _ (let _ := _ in _) => cbv zeta
  | |- keeps _ (if ?b then _ else _) => destruct b
  | |- keeps _ (match ?x with _ => _ end) => destruct x
  end.

Section Handlers.

Context {W : Type} (os : OS W) (Message : Z -> gostring).
Context (R : State W -> State W -> Prop) (HR : frame os R).

Lemma keeps_do_PWD : keeps R (do_PWD os).
Proof. unfold do_PWD. repeat keeps_step HR. Qed.

Lemma keeps_do_DELE (args : list gostring) : keeps R (do_DELE os Message args).
Proof. unfold do_DELE. repeat keeps_step HR. Qed.

Lemma keeps_do_SIZE (args : list gostring) : keeps R (do_SIZE os args).
Proof. unfold do_SIZE. repeat keeps_step HR. Qed.

Lemma keeps_do_MKD (args : list gostring) : keeps R (do_MKD os Message args).
Proof. unfold do_MKD. repeat keeps_step HR. Qed.

Lemma keeps_do_RMD (args : list gostring) : keeps R (do_RMD os Message args).
Proof. unfold do_RMD. repeat keeps_step HR. Qed.

Lemma keeps_do_RNTO (args : list gostring) : keeps R (do_RNTO os args).
Proof. unfold do_RNTO. repeat keeps_step HR. Qed.

Lemma keeps_do_TYPE (params : list gostring) : keeps R (do_TYPE os params).
Proof. unfold do_TYPE. repeat keeps_step HR. Qed.

Lemma keeps_LIST_tail :
  (forall data, keeps R (sendData os Message data)) ->
  keeps R (c ← conn_of;
           w ← world_of;
           let items := os_Readdir os (prefix c) w in
           let info := ListDetailed items in
           _ ← sendData os Message info; mret true).
Proof. intros Hd. repeat keeps_step HR. Qed.

Lemma keeps_do_LIST :
  (forall data, keeps R (sendData os Message data)) -> keeps R (do_LIST os Message).
Proof.
  intros Hd. unfold do_LIST.
  apply (keeps_bind _ _ HR); [apply (keeps_sendCodeLine _ _ HR)|intros _].
  apply keeps_LIST_tail, Hd.
Qed.

Lemma keeps_do_RETR (args : list gostring) :
  (forall data, keeps R (sendData os Message data)) -> keeps R (do_RETR os Message args).
Proof. intros Hd. unfold do_RETR. repeat keeps_step HR. Qed.

Lemma keeps_do_CWD (args : list gostring) :
  (forall p st, R st {| sc := set_prefix p (sc st); world := world st; trace := trace st |}) ->
  keeps R (do_CWD os Message args).
Proof. intros Hp. unfold do_CWD. repeat keeps_step HR. Qed.

Lemma keeps_do_RNFR (args : list gostring) :
  (forall p st, R st {| sc := set_rn p (sc st); world := world st; trace := trace st |}) ->
  keeps R (do_RNFR os Message args).
Proof. intros Hp. unfold do_RNFR. repeat keeps_step HR. Qed.

Lemma keeps_do_EPSV :
  (forall d st, R st {| sc := set_dataConn d (sc st); world := world st; trace := trace st |}) ->
  keeps R (do_EPSV os Message).
Proof. intros Hp. unfold do_EPSV. repeat keeps_step HR. Qed.

Lemma keeps_do_PASV :
  (forall d st, R st {| sc := set_dataConn d (sc st); world := world st; trace := trace st |}) ->
  keeps R (do_PASV os Message).
Proof. intros Hp. unfold do_PASV. repeat keeps_step HR. Qed.

(** The store handler reads the state in the middle: from there on. *)
Lemma keeps_STOR_copy (file : option nat) :
  keeps R (s ← get;
           '(n, w) ← lift (io_Copy os file (dataConn (sc s)) (world s));
           _ ← put {| sc := sc s; world := w; trace := trace s |};
           _ ← (if 0 <=? n
                then sendCodeLine os 226 (lit "OK, received " ++ Itoa n ++ lit " bytes.")
                else sendStatusText os Message 550);
           _ ← in_world (fun w => (tt, file_Close os file w));
           mret true).
Proof.
  intros st b st' H. unfold mbind at 1, M_bind at 1, get at 1 in H.
  unfold mbind at 1, M_bind at 1, lift at 1 in H.
  destruct (io_Copy os _ (dataConn (sc st)) (world st)) as [[n w]|p]; [|discriminate].
  unfold mbind at 1, M_bind at 1, put at 1 in H.
  match type of H with
  | ?f ?s = _ =>
      assert (keeps R f) as K;
      [|exact (frame_trans _ _ HR _ _ _ (frame_world _ _ HR st w) (K _ _ _ H))]
  end.
  repeat keeps_step HR.
Qed.

Lemma keeps_STOR_tail (p : gostring) :
  keeps R (r ← in_world (os_OpenFile os p);
           let file := match r with
                       | Ok f => Some f
                       | Err _ => None
                       end in
           _ ← (match r with
                | Err _ => sendStatusText os Message 450
                | Ok _ => mret tt
                end);
           s ← get;
           '(n, w) ← lift (io_Copy os file (dataConn (sc s)) (world s));
           _ ← put {| sc := sc s; world := w; trace := trace s |};
           _ ← (if 0 <=? n
                then sendCodeLine os 226 (lit "OK, received " ++ Itoa n ++ lit " bytes.")
                else sendStatusText os Message 550);
           _ ← in_world (fun w => (tt, file_Close os file w));
           mret true).
Proof.
  apply (keeps_bind _ _ HR); [apply (keeps_in_world _ _ HR)|intros r]. cbv zeta.
  apply (keeps_bind _ _ HR); [destruct r; repeat keeps_step HR|intros _].
  apply keeps_STOR_copy.
Qed.

Lemma keeps_do_STOR (args : list gostring) : keeps R (do_STOR os Message args).
Proof.
  unfold do_STOR.
  apply (keeps_bind _ _ HR); [apply (keeps_conn_of _ _ HR)|intros c].
  apply (keeps_bind _ _ HR); [apply (keeps_sendCodeLine _ _ HR)|intros _].
  apply keeps_STOR_tail.
Qed.

(** The switch as a whole: what the relation must allow depends on the
    command word. *)
Lemma keeps_dispatch (p0 : gostring) (args : list gostring) :
  (ToUpper p0 = CWD ->
   forall p st, R st {| sc := set_prefix p (sc st); world := world st; trace := trace st |}) ->
  (ToUpper p0 = RNFR ->
   forall p st, R st {| sc := set_rn p (sc st); world := world st; trace := trace st |}) ->
  (ToUpper p0 = EPSV \/ ToUpper p0 = PASV ->
   forall d st, R st {| sc := set_dataConn d (sc st); world := world st; trace := trace st |}) ->
  (ToUpper p0 = LIST \/ ToUpper p0 = RETR -> forall data, keeps R (sendData os Message data)) ->
  (ToUpper p0 = QUIT -> keeps R (Close os)) ->
  keeps R (dispatch os Message (p0 :: args)).
Proof.
  intros HCWD HRNFR HPASV HLIST HQUIT st b st' H.
  rewrite ServerFacts.dispatch_word in H. cbv zeta in H. revert st b st' H.
  match goal with
  | |- forall st b st', ?f st = Done (b, st') -> R st st' => change (keeps R f)
  end.
  repeat match goal with
         | |- keeps _ (if streq ?a ?b || streq ?a ?c then _ else _) =>
             destruct (streq a b) eqn:?; [cbn [orb]|destruct (streq a c) eqn:?; cbn [orb]]
         | |- keeps _ (if streq ?a ?b then _ else _) => destruct (streq a b) eqn:?
         end;
    unfold streq in *;
    repeat match goal with
           | E : bool_decide _ = true |- _ => apply bool_decide_eq_true in E
           | E : bool_decide _ = false |- _ => clear E
           end.
  all: first
    [ apply keeps_do_PWD | apply keeps_do_DELE | apply keeps_do_SIZE | apply keeps_do_MKD
    | apply keeps_do_RMD | apply keeps_do_RNTO | apply keeps_do_TYPE | apply keeps_do_STOR
    | apply keeps_do_CWD; auto | apply keeps_do_RNFR; auto
    | apply keeps_do_EPSV; auto | apply keeps_do_PASV; auto
    | apply keeps_do_LIST; auto | apply keeps_do_RETR; auto
    | apply (keeps_bind _ _ HR);
      [auto using keeps_sendStatusText|intros ?; apply (keeps_ret _ _ HR)] ].
Qed.

End Handlers.

End ServerInvariants.

Module SessionFacts.

Import Server ServerInvariants.

Section SessionFacts.

Context {W : Type} (os : OS W) (Message : Z -> gostring).

(** *** The fields no reply and no close touches *)

Section Field.

Context {A : Type} (f : ServerConn -> A).
Hypothesis f_dataConn : forall d c, f (set_dataConn d c) = f c.
Hypothesis f_writer_err : forall c, f (set_writer_err c) = f c.

Lemma Close_same_field : keeps (same_field f) (Close os).
Proof.
  intros [c w tr] [] st' H.
  unfold Close, closeData, emit, modify, set_sc, in_world, lift, put, mbind, M_bind, get,
    mret, M_ret in H.
  cbn [sc world trace fst snd] in H.
  destruct (dataConn c) as [pc|]; cbn [sc world trace] in H.
  - destruct (pc_Close os pc (ctl_Close os w)) as [w1|p]; [|discriminate].
    injection H as <-. apply f_dataConn.
  - injection H as <-. reflexivity.
Qed.

Lemma cmd_same_field (msg : gostring) : keeps (same_field f) (cmd os msg).
Proof.
  intros st [] st' H. destruct (writer_err (sc st)) eqn:Hh.
  - unfold cmd in H. unfold mbind at 1, M_bind at 1, get at 1 in H.
    rewrite Hh in H. unfold mbind at 1, M_bind at 1 in H.
    destruct (Close os st) as [[[] st1]|p] eqn:HC; [|discriminate].
    pose proof (ServerFacts.Close_rn _ _ _ _ HC) as [_ Hw].
    unfold mbind, M_bind, get, mret, M_ret in H. rewrite Hw, Hh in H.
    injection H as <-. eapply Close_same_field, HC.
  - rewrite ServerFacts.cmd_healthy in H by exact Hh. injection H as <-.
    unfold same_field, after_cmd.
    destruct (ctl_Flush os (msg ++ CRLF) (world st)) as [[|] w];
      [reflexivity|apply f_writer_err].
Qed.

Lemma same_field_frame : frame os (same_field f).
Proof.
  split.
  - reflexivity.
  - unfold same_field. congruence.
  - reflexivity.
  - apply cmd_same_field.
Qed.

Lemma dispatch_same_field (p0 : gostring) (args : list gostring) :
  (ToUpper p0 = CWD -> forall p c, f (set_prefix p c) = f c) ->
  (ToUpper p0 = RNFR -> forall p c, f (set_rn p c) = f c) ->
  keeps (same_field f) (dispatch os Message (p0 :: args)).
Proof.
  intros Hp Hr. apply (keeps_dispatch _ _ _ same_field_frame).
  - intros E p st. apply (Hp E).
  - intros E p st. apply (Hr E).
  - intros _ d st. apply f_dataConn.
  - intros _ data. apply (keeps_sendData _ _ _ same_field_frame); reflexivity.
  - intros _. apply Close_same_field.
Qed.

End Field.

(** X1: whatever the state of the writer, a command that returns has not
    changed the host of the session; it has changed the working directory
    only if it is the change-directory command, and the pending rename
    source only if it is the rename-source command. *)
Theorem session_fields_frame (p0 : gostring) (args : list gostring) (st st' : State W) (b : bool) :
  dispatch os Message (p0 :: args) st = Done (b, st') ->
  host (sc st') = host (sc st)
  /\ (ToUpper p0 <> CWD -> prefix (sc st') = prefix (sc st))
  /\ (ToUpper p0 <> RNFR -> rn (sc st') = rn (sc st)).
Proof.
  intros H. split; [|split].
  - revert H. apply (dispatch_same_field host); reflexivity.
  - intros Hn. revert H. apply (dispatch_same_field prefix); try reflexivity.
    intros E. contradiction.
  - intros Hn. revert H. apply (dispatch_same_field rn); try reflexivity.
    intros E. contradiction.
Qed.

(** *** A session whose writer works *)

Section Healthy.

Hypothesis Hflush : flush_ok os.

Lemma healthy_same_frame {A} (f : ServerConn -> A) : frame os (healthy_same f).
Proof.
  split.
  - intros st H. split; [exact H|reflexivity].
  - intros a b c Hab Hbc Ha. destruct (Hab Ha) as [Hb E1]. destruct (Hbc Hb) as [Hc E2].
    split; [exact Hc|congruence].
  - intros st w H. split; [exact H|reflexivity].
  - intros msg st [] st' H Hh. rewrite ServerFacts.cmd_healthy in H by exact Hh.
    injection H as <-. rewrite ServerFacts.after_cmd_sc by exact Hflush.
    split; [exact Hh|reflexivity].
Qed.

Lemma dispatch_healthy_same {A} (f : ServerConn -> A) (p0 : gostring) (args : list gostring) :
  (ToUpper p0 = CWD -> forall p c, f (set_prefix p c) = f c) ->
  (ToUpper p0 = RNFR -> forall p c, f (set_rn p c) = f c) ->
  (ToUpper p0 = EPSV \/ ToUpper p0 = PASV -> forall d c, f (set_dataConn d c) = f c) ->
  ToUpper p0 <> QUIT ->
  keeps (healthy_same f) (dispatch os Message (p0 :: args)).
Proof.
  intros Hp Hr Hd Hq. apply (keeps_dispatch _ _ _ (healthy_same_frame f)).
  - intros E p st Hh. split; [exact Hh|apply (Hp E)].
  - intros E p st Hh. split; [exact Hh|apply (Hr E)].
  - intros E p st Hh. split; [exact Hh|apply (Hd E)].
  - intros E data. apply (keeps_sendData _ _ _ (healthy_same_frame f));
      intros; intros Hh; (split; [exact Hh|reflexivity]).
  - intros E. contradiction.
Qed.

Lemma grows_frame (P : event -> Prop) :
  (forall m, P (Reply m)) -> frame os (grows (Forall P)).
Proof.
  intros HP. split.
  - intros st H. split; [exact H|]. exists []. split; [reflexivity|constructor].
  - intros a b c Hab Hbc Ha. destruct (Hab Ha) as (Hb & n1 & E1 & P1).
    destruct (Hbc Hb) as (Hc & n2 & E2 & P2). split; [exact Hc|].
    exists (n2 ++ n1). split; [rewrite E2, E1; apply app_assoc|].
    apply Forall_app. split; assumption.
  - intros st w H. split; [exact H|]. exists []. split; [reflexivity|constructor].
  - intros msg st [] st' H Hh. rewrite ServerFacts.cmd_healthy in H by exact Hh.
    injection H as <-. split.
    + rewrite ServerFacts.after_cmd_sc by exact Hflush. exact Hh.
    + exists [Reply msg]. split; [apply ServerFacts.after_cmd_trace|].
      repeat constructor. apply HP.
Qed.

Lemma grows_sc (P : event -> Prop) (g : ServerConn -> ServerConn) (st : State W) :
  (forall c, writer_err (g c) = writer_err c) ->
  grows (Forall P) st {| sc := g (sc st); world := world st; trace := trace st |}.
Proof.
  intros Hg H. split; [cbn; rewrite Hg; exact H|]. exists []. split; [reflexivity|constructor].
Qed.

Lemma grows_event (P : event -> Prop) (st : State W) (w : W) (e : event) :
  P e -> grows (Forall P) st {| sc := sc st; world := w; trace := e :: trace st |}.
Proof.
  intros He H. split; [exact H|]. exists [e]. split; [reflexivity|]. repeat constructor. exact He.
Qed.

Lemma sendData_grows (P : event -> Prop) (data : gostring) :
  (forall m, P (Reply m)) -> (forall pc d, P (DataWrite pc d) /\ P (DataClose pc)) ->
  keeps (grows (Forall P)) (sendData os Message data).
Proof.
  intros HP Hdata. apply (keeps_sendData _ _ _ (grows_frame P HP)).
  - intros st w pc. apply grows_event. apply (Hdata pc []).
  - intros st pc d. apply grows_event. apply (Hdata pc d).
Qed.

Lemma dispatch_grows (P : event -> Prop) (p0 : gostring) (args : list gostring) :
  (forall m, P (Reply m)) ->
  (ToUpper p0 = LIST \/ ToUpper p0 = RETR ->
   forall pc data, P (DataWrite pc data) /\ P (DataClose pc)) ->
  ToUpper p0 <> QUIT ->
  keeps (grows (Forall P)) (dispatch os Message (p0 :: args)).
Proof.
  intros HP Hdata Hq. apply (keeps_dispatch _ _ _ (grows_frame P HP)).
  - intros _ p st. apply grows_sc. reflexivity.
  - intros _ p st. apply grows_sc. reflexivity.
  - intros _ p st. apply grows_sc. reflexivity.
  - intros E data. apply sendData_grows; [exact HP|apply (Hdata E)].
  - intros E. contradiction.
Qed.

(** A reply among the new events: after a step that answered, any steps;
    or any steps, then one that answered. *)
Lemma answered_then (a b c : State W) :
  grows (Exists is_reply) a b -> grows (Forall any_event) b c -> grows (Exists is_reply) a c.
Proof.
  intros Hab Hbc Ha. destruct (Hab Ha) as (Hb & n1 & E1 & P1).
  destruct (Hbc Hb) as (Hc & n2 & E2 & _). split; [exact Hc|].
  exists (n2 ++ n1). split; [rewrite E2, E1; apply app_assoc|].
  apply Exists_app. right. exact P1.
Qed.

Lemma then_answered (a b c : State W) :
  grows (Forall any_event) a b -> grows (Exists is_reply) b c -> grows (Exists is_reply) a c.
Proof.
  intros Hab Hbc Ha. destruct (Hab Ha) as (Hb & n1 & E1 & _).
  destruct (Hbc Hb) as (Hc & n2 & E2 & P2). split; [exact Hc|].
  exists (n2 ++ n1). split; [rewrite E2, E1; apply app_assoc|].
  apply Exists_app. left. exact P2.
Qed.

Lemma answers_first {A B} (m : M (State W) A) (k : A -> M (State W) B) :
  keeps (grows (Exists is_reply)) m -> (forall a, keeps (grows (Forall any_event)) (k a)) ->
  keeps (grows (Exists is_reply)) (m ≫= k).
Proof.
  intros Hm Hk st r st' H. unfold mbind, M_bind in H.
  destruct (m st) as [[a st1]|p] eqn:E; [|discriminate].
  eapply answered_then; [eapply Hm, E|eapply Hk, H].
Qed.

Lemma answers_later {A B} (m : M (State W) A) (k : A -> M (State W) B) :
  keeps (grows (Forall any_event)) m -> (forall a, keeps (grows (Exists is_reply)) (k a)) ->
  keeps (grows (Exists is_reply)) (m ≫= k).
Proof.
  intros Hm Hk st r st' H. unfold mbind, M_bind in H.
  destruct (m st) as [[a st1]|p] eqn:E; [|discriminate].
  eapply then_answered; [eapply Hm, E|eapply Hk, H].
Qed.

Lemma cmd_answers (msg : gostring) : keeps (grows (Exists is_reply)) (cmd os msg).
Proof.
  intros st [] st' H Hh. rewrite ServerFacts.cmd_healthy in H by exact Hh.
  injection H as <-. split.
  - rewrite ServerFacts.after_cmd_sc by exact Hflush. exact Hh.
  - exists [Reply msg]. split; [apply ServerFacts.after_cmd_trace|].
    apply Exists_cons_hd. exact I.
Qed.

Lemma any_frame : frame os (grows (Forall any_event)).
Proof. apply grows_frame. intros m. exact I. Qed.

Lemma sendData_any (data : gostring) :
  keeps (grows (Forall any_event)) (sendData os Message data).
Proof. apply sendData_grows; intros; repeat split. Qed.

Ltac any_step :=
  first
    [ keeps_step any_frame
    | match goal with
      | |- keeps _ (sendData _ _ _) => apply sendData_any
      | |- keeps _ (set_sc _) =>
          apply keeps_set_sc; intros ?; apply grows_sc; reflexivity
      end ].

Ltac answers_step :=
  match goal with
  | |- keeps _ (mbind _ (sendCodeLine _ _ _)) =>
      apply answers_first; [apply cmd_answers|intros ?; repeat any_step]
  | |- keeps _ (mbind _ (sendStatusText _ _ _)) =>
      apply answers_first; [apply cmd_answers|intros ?; repeat any_step]
  | |- keeps _ (mbind _ _) => apply answers_later; [solve [repeat any_step]|intros ?]
  | |- keeps _ (let _ := _ in _) => cbv zeta
  | |- keeps _ (if ?b then _ else _) => destruct b
  | |- keeps _ (match ?x with _ => _ end) => destruct x
  end.

Lemma do_STOR_answers (args : list gostring) :
  keeps (grows (Exists is_reply)) (do_STOR os Message args).
Proof.
  unfold do_STOR. apply answers_later; [apply (keeps_conn_of _ _ any_frame)|intros c].
  cbv zeta. apply answers_first; [apply cmd_answers|intros _].
  apply (keeps_STOR_tail _ _ _ any_frame).
Qed.

Lemma dispatch_answers (p0 : gostring) (args : list gostring) :
  ToUpper p0 <> QUIT ->
  keeps (grows (Exists is_reply)) (dispatch os Message (p0 :: args)).
Proof.
  intros Hq st b st' H.
  rewrite ServerFacts.dispatch_word in H. cbv zeta in H. revert st b st' H.
  match goal with
  | |- forall st b st', ?f st = Done (b, st') -> ?R st st' => change (keeps R f)
  end.
  repeat match goal with
         | |- keeps _ (if streq ?a ?b || streq ?a ?c then _ else _) =>
             destruct (streq a b) eqn:?; [cbn [orb]|destruct (streq a c) eqn:?; cbn [orb]]
         | |- keeps _ (if streq ?a ?b then _ else _) => destruct (streq a b) eqn:?
         end;
    unfold streq in *;
    repeat match goal with
           | E : bool_decide _ = true |- _ => apply bool_decide_eq_true in E
           | E : bool_decide _ = false |- _ => clear E
           end;
    try contradiction.
  all: try apply do_STOR_answers.
  all: unfold do_PWD, do_CWD, do_DELE, do_EPSV, do_SIZE, do_LIST, do_MKD, do_PASV, do_RETR,
         do_RMD, do_RNFR, do_RNTO, do_TYPE; repeat answers_step.
Qed.

(** X2: in a session whose writer works, only the two passive-mode
    commands and QUIT change the data channel of the session: any other
    command that returns leaves [dataConn] as it was, and the writer
    working. *)
Theorem dataConn_changes_only_by_negotiation
    (p0 : gostring) (args : list gostring) (st st' : State W) (b : bool) :
  writer_err (sc st) = false ->
  ToUpper p0 <> EPSV -> ToUpper p0 <> PASV -> ToUpper p0 <> QUIT ->
  dispatch os Message (p0 :: args) st = Done (b, st') ->
  dataConn (sc st') = dataConn (sc st) /\ writer_err (sc st') = false.
Proof.
  intros Hh He Hp Hq H.
  assert (K : keeps (healthy_same dataConn) (dispatch os Message (p0 :: args))).
  { apply dispatch_healthy_same; try assumption; try (intros; reflexivity).
    intros [E|E]; contradiction. }
  destruct (K _ _ _ H Hh) as [H1 H2]. split; assumption.
Qed.

(** X3: in a session whose writer works, every command other than QUIT
    that returns has sent at least one reply and has not closed the control
    connection; unless it is a listing or a retrieve, replies are all it
    added to the trace. *)
Theorem every_command_is_answered
    (p0 : gostring) (args : list gostring) (st st' : State W) (b : bool) :
  writer_err (sc st) = false -> ToUpper p0 <> QUIT ->
  dispatch os Message (p0 :: args) st = Done (b, st') ->
  writer_err (sc st') = false
  /\ exists new, trace st' = new ++ trace st
       /\ Exists is_reply new
       /\ (CtlClose ∉ new)
       /\ (ToUpper p0 <> LIST -> ToUpper p0 <> RETR -> Forall is_reply new).
Proof.
  intros Hh Hq H.
  destruct (dispatch_answers p0 args Hq _ _ _ H Hh) as (Hh' & new & E & Hrep).
  split; [exact Hh'|]. exists new. split; [exact E|]. split; [exact Hrep|].
  assert (K : keeps (grows (Forall (command_event (ToUpper p0 = LIST \/ ToUpper p0 = RETR))))
                (dispatch os Message (p0 :: args))).
  { apply dispatch_grows; [| |exact Hq].
    - intros m. split; [discriminate|right; exact I].
    - intros E' pc data. split; (split; [discriminate|left; exact E']). }
  destruct (K _ _ _ H Hh) as (_ & new' & E' & Hall).
  assert (new' = new) as -> by (eapply app_inv_tail; rewrite <- E, <- E'; reflexivity).
  split.
  - intros Hin. rewrite Forall_forall in Hall. destruct (Hall _ Hin) as [Hc _]. apply Hc. reflexivity.
  - intros Hl Hr. eapply Forall_impl; [exact Hall|]. intros e [_ [[?|?]|He]]; [contradiction..|exact He].
Qed.




End Healthy.

(** *** What a command returns *)

Lemma returns_ret {S A} (a : A) : returns (S := S) (mret a) a.
Proof. intros st r st' H. injection H as <- _. reflexivity. Qed.

Lemma returns_bind {S A B} (m : M S A) (k : A -> M S B) (v : B) :
  (forall a, returns (k a) v) -> returns (m ≫= k) v.
Proof.
  intros Hk st r st' H. unfold mbind, M_bind in H.
  destruct (m st) as [[a st1]|p]; [|discriminate]. eapply Hk, H.
Qed.

Ltac returns_step :=
  match goal with
  | |- returns (mret _) _ => apply returns_ret
  | |- returns (mbind _ _) _ => apply returns_bind; intros ?
  | |- returns (let _ := _ in _) _ => cbv zeta
  | |- returns (if ?b then _ else _) _ => destruct b
  | |- returns (match ?x with _ => _ end) _ => destruct x
  end.

Lemma dispatch_returns_true (p0 : gostring) (args : list gostring) :
  ToUpper p0 <> QUIT -> returns (dispatch os Message (p0 :: args)) true.
Proof.
  intros Hq st b st' H.
  rewrite ServerFacts.dispatch_word in H. cbv zeta in H. revert st b st' H.
  match goal with
  | |- forall st b st', ?f st = Done (b, st') -> b = true => change (returns f true)
  end.
  repeat match goal with
         | |- returns (if streq ?a ?b || streq ?a ?c then _ else _) _ =>
             destruct (streq a b) eqn:?; [cbn [orb]|destruct (streq a c) eqn:?; cbn [orb]]
         | |- returns (if streq ?a ?b then _ else _) _ => destruct (streq a b) eqn:?
         end;
    unfold streq in *;
    repeat match goal with
           | E : bool_decide _ = true |- _ => apply bool_decide_eq_true in E
           | E : bool_decide _ = false |- _ => clear E
           end;
    try contradiction.
  all: unfold do_PWD, do_CWD, do_DELE, do_EPSV, do_SIZE, do_LIST, do_MKD, do_PASV, do_RETR,
         do_RMD, do_RNFR, do_RNTO, do_STOR, do_TYPE; repeat returns_step.
Qed.

Lemma dispatch_QUIT (p0 : gostring) (args : list gostring) (st : State W) :
  ToUpper p0 = QUIT ->
  dispatch os Message (p0 :: args) st = (_ ← Close os; mret false) st.
Proof. intros H. rewrite ServerFacts.dispatch_word. cbv zeta. rewrite H. reflexivity. Qed.

Lemma serve_line_QUIT (cmdLine : gostring) (st : State W) :
  command_word cmdLine = QUIT ->
  serve_line os Message cmdLine st = (_ ← Close os; mret false) st.
Proof.
  intros Hq. unfold serve_line.
  destruct (Split_cons (TrimSpace cmdLine) (lit " ")) as (p0 & args & E); [discriminate|].
  unfold command_word in Hq. rewrite E in *. cbn [hd] in Hq. apply dispatch_QUIT, Hq.
Qed.

(** X5: QUIT is the one command that ends the loop of [Serve]: a line
    that has been served asks for the loop to stop exactly when its command
    word is QUIT. *)
Theorem only_QUIT_ends_the_loop (cmdLine : gostring) (st st' : State W) (b : bool) :
  serve_line os Message cmdLine st = Done (b, st') ->
  b = false <-> command_word cmdLine = QUIT.
Proof.
  intros H. split.
  - intros ->. destruct (decide (command_word cmdLine = QUIT)) as [E|N]; [exact E|].
    exfalso. unfold serve_line in H.
    destruct (Split_cons (TrimSpace cmdLine) (lit " ")) as (p0 & args & E); [discriminate|].
    unfold command_word in N. rewrite E in *. cbn [hd] in N.
    discriminate (dispatch_returns_true p0 args N _ _ _ H).
  - intros Hq. rewrite (serve_line_QUIT _ _ Hq) in H.
    unfold mbind, M_bind in H. destruct (Close os st) as [[[] st1]|p]; [|discriminate].
    injection H as <- _. reflexivity.
Qed.

(** X6: nothing is read after QUIT: the lines that follow a QUIT line,
    and the way the connection ends after them, make no difference to what
    [Serve] does. *)
Theorem Serve_stops_at_QUIT (before after : list gostring) (l : gostring) (fin fin' : error)
    (st : State W) :
  command_word l = QUIT ->
  Serve os Message (before ++ l :: after) fin st = Serve os Message (before ++ [l]) fin' st.
Proof.
  intros Hq.
  assert (L : forall st0, Serve_loop os Message (before ++ l :: after) fin st0
                          = Serve_loop os Message (before ++ [l]) fin' st0).
  { induction before as [|x before IH]; intros st0; cbn [app Serve_loop]; unfold mbind, M_bind.
    - rewrite (serve_line_QUIT _ _ Hq).
      unfold mbind, M_bind. destruct (Close os st0) as [[[] st1]|p]; reflexivity.
    - destruct (serve_line os Message x st0) as [[[|] st1]|p];
        [apply IH|reflexivity|reflexivity]. }
  unfold Serve, mbind, M_bind.
  destruct (sendStatusText os Message StatusReady st) as [[[] st0]|p]; [apply L|reflexivity].
Qed.

End SessionFacts.

End SessionFacts.

Module CommandFacts.

Import Server.

Section CommandFacts.

Context {W : Type} (os : OS W) (Message : Z -> gostring).

Lemma quiet_conn_of : quiet (W := W) conn_of.
Proof. intros st. eexists. eexists. repeat split. Qed.

Lemma quiet_world_of : quiet (W := W) world_of.
Proof. intros st. eexists. eexists. repeat split. Qed.

Lemma quiet_in_world {A} (f : W -> A * W) : quiet (in_world f).
Proof.
  intros st. unfold in_world. destruct (f (world st)) as [a w].
  eexists. eexists. repeat split.
Qed.

Lemma quiet_set_sc (g : ServerConn -> ServerConn) :
  (forall c, writer_err (g c) = writer_err c) -> quiet (W := W) (set_sc g).
Proof. intros Hg st. eexists. eexists. split; [reflexivity|]. split; [apply Hg|reflexivity]. Qed.

Lemma answers_once_send (m : M (State W) unit) (msg : gostring) :
  (forall st, m st = cmd os msg st) -> answers_once (_ ← m; mret true).
Proof.
  intros Hm st Hh. unfold mbind, M_bind. rewrite Hm, ServerFacts.cmd_healthy by exact Hh.
  eexists. exists msg. split; [reflexivity|apply ServerFacts.after_cmd_trace].
Qed.

Lemma answers_once_after {A} (m : M (State W) A) (k : A -> M (State W) bool) :
  quiet m -> (forall a, answers_once (k a)) -> answers_once (m ≫= k).
Proof.
  intros Hm Hk st Hh. destruct (Hm st) as (a & st1 & E & Hw & Htr).
  destruct (Hk a st1) as (st' & msg & E' & Htr'); [congruence|].
  exists st', msg. unfold mbind, M_bind. rewrite E. split; [exact E'|congruence].
Qed.

Ltac once_step :=
  match goal with
  | |- answers_once (mbind _ (sendCodeLine _ _ _)) =>
      eapply answers_once_send; intros ?; reflexivity
  | |- answers_once (mbind _ (sendStatusText _ _ _)) =>
      eapply answers_once_send; intros ?; reflexivity
  | |- answers_once (mbind _ conn_of) => apply answers_once_after; [apply quiet_conn_of|intros ?]
  | |- answers_once (mbind _ world_of) => apply answers_once_after; [apply quiet_world_of|intros ?]
  | |- answers_once (mbind _ (in_world _)) =>
      apply answers_once_after; [apply quiet_in_world|intros ?]
  | |- answers_once (mbind _ (set_sc _)) =>
      apply answers_once_after; [apply quiet_set_sc; reflexivity|intros ?]
  | |- answers_once (let _ := _ in _) => cbv zeta
  | |- answers_once (match ?x with _ => _ end) => destruct x
  end.

(** X7: in a session whose writer works, the commands that neither look
    at a path's [FileInfo] nor use the data channel (USER, PASS, PWD, DELE,
    MKD, NOOP, RNFR, RNTO, SYST, and every word the server does not know)
    always return: whatever the file system does, the session does not
    crash, sends exactly one reply and reads on. *)
Theorem plain_commands_answer_once (p0 : gostring) (args : list gostring) (st : State W) :
  writer_err (sc st) = false ->
  ToUpper p0 ∉ [CWD; EPSV; SIZE; LIST; PASV; QUIT; RETR; RMD; XRMD; STOR; TYPE] ->
  exists st' msg,
    dispatch os Message (p0 :: args) st = Done (true, st')
    /\ trace st' = Reply msg :: trace st.
Proof.
  intros Hh Hw. rewrite ServerFacts.dispatch_word. cbv zeta.
  revert st Hh.
  match goal with
  | |- forall st, _ -> exists st' msg, ?f st = _ /\ _ => change (answers_once f)
  end.
  repeat match goal with
         | |- answers_once (if streq ?a ?b || streq ?a ?c then _ else _) =>
             destruct (streq a b) eqn:?; [cbn [orb]|destruct (streq a c) eqn:?; cbn [orb]]
         | |- answers_once (if streq ?a ?b then _ else _) => destruct (streq a b) eqn:?
         end;
    unfold streq in *;
    repeat match goal with
           | E : bool_decide _ = true |- _ => apply bool_decide_eq_true in E
           | E : bool_decide _ = false |- _ => clear E
           end;
    try (exfalso; apply Hw;
         match goal with E : ToUpper p0 = _ |- _ => rewrite E end;
         rewrite !elem_of_cons; auto 15; fail).
  all: unfold do_PWD, do_DELE, do_MKD, do_RNFR, do_RNTO; repeat once_step.
Qed.



Lemma dispatch_TYPE (p0 : gostring) (args : list gostring) (st : State W) :
  ToUpper p0 = TYPE -> dispatch os Message (p0 :: args) st = do_TYPE os (p0 :: args) st.
Proof. intros H. rewrite ServerFacts.dispatch_word. cbv zeta. rewrite H. reflexivity. Qed.


(** X9: the TYPE command reads its argument without checking that there
    is one: alone on its line it crashes the session; with an argument it
    answers, accepting [A] and [I] in either case and refusing everything
    else. *)
Theorem TYPE_reads_its_argument (p0 : gostring) (args : list gostring) (st : State W) :
  ToUpper p0 = TYPE -> writer_err (sc st) = false ->
  match args with
  | [] => dispatch os Message (p0 :: args) st = Panic IndexOutOfRange
  | a :: _ =>
      dispatch os Message (p0 :: args) st
      = Done (true,
              after_cmd os
                (Itoa (if streq (ToUpper a) (lit "A") || streq (ToUpper a) (lit "I")
                       then StatusCommandOK else StatusBadArguments)
                 ++ lit " "
                 ++ (if streq (ToUpper a) (lit "A") then lit "Type set to ASCII."
                     else if streq (ToUpper a) (lit "I") then lit "Type set to binary."
                     else lit "Invalid type.")) st)
  end.
Proof.
  intros E Hh. rewrite (dispatch_TYPE _ _ _ E). destruct args as [|a rest].
  - reflexivity.
  - unfold do_TYPE.
    assert (at_index (p0 :: a :: rest) 1 = Done a) as Ha.
    { unfold at_index. rewrite !len_cons. pose proof (len_nonneg rest).
      replace ((0 <=? 1) && (1 <? len rest + 1 + 1)) with true
        by (symmetry; rewrite andb_true_iff, Z.leb_le, Z.ltb_lt; lia).
      reflexivity. }
    unfold mbind at 1, M_bind at 1. rewrite Ha. cbn [lift]. cbv zeta.
    destruct (streq (ToUpper a) (lit "A")); [|destruct (streq (ToUpper a) (lit "I"))];
      cbn [orb]; unfold mbind, M_bind;
      rewrite ServerFacts.sendCodeLine_healthy by exact Hh; reflexivity.
Qed.

End CommandFacts.

End CommandFacts.

(* ------------------------------------------------------------------ *)
(** ** The replies of the server, read by the client                   *)
(* ------------------------------------------------------------------ *)

Lemma Itoa_bytes (n : Z) (c : ascii) :
  c ∈ Itoa n -> c = "-"%char \/ is_digit c = true.
Proof.
  unfold Itoa. destruct (n <? 0) eqn:E.
  - intros H. apply elem_of_cons in H as [H|H]; [left; exact H|right].
    apply Z.ltb_lt in E. pose proof (FormatUint_digits (- n) ltac:(lia)) as Hd.
    rewrite forallb_forall in Hd. apply Hd, list_elem_of_In, H.
  - intros H. right. apply Z.ltb_ge in E. pose proof (FormatUint_digits n E) as Hd.
    rewrite forallb_forall in Hd. apply Hd, list_elem_of_In, H.
Qed.

Lemma Itoa_without (n : Z) (c : ascii) :
  c <> "-"%char -> is_digit c = false -> c ∉ Itoa n.
Proof. intros H1 H2 Hin. destruct (Itoa_bytes _ _ Hin); congruence. Qed.

(** What [Itoa] prints, [Atoi] reads back, for every 64-bit integer. *)
Lemma Atoi_Itoa (n : Z) : MinInt64 <= n <= MaxInt64 -> Atoi (Itoa n) = (n, None).
Proof.
  unfold MinInt64, MaxInt64. intros Hn. unfold Atoi, ParseInt, Itoa.
  destruct (n <? 0) eqn:E.
  - apply Z.ltb_lt in E. cbn [Ascii.eqb Bool.eqb orb andb].
    rewrite ParseUint_FormatUint by (unfold MaxUint64; lia). cbn [negb andb].
    replace (2 ^ 63 <? - n) with false by (symmetry; apply Z.ltb_ge; lia).
    cbn. f_equal. lia.
  - apply Z.ltb_ge in E.
    pose proof (FormatUint_nonempty n) as Hne.
    pose proof (FormatUint_digits n E) as Hd.
    destruct (FormatUint n) as [|c t] eqn:EF; [congruence|].
    cbn [forallb] in Hd. apply andb_true_iff in Hd as [Hc _].
    assert (Ascii.eqb c "-" = false) as ->
      by (apply Ascii.eqb_neq; intros ->; discriminate).
    assert (Ascii.eqb c "+" = false) as ->
      by (apply Ascii.eqb_neq; intros ->; discriminate).
    cbn [orb]. rewrite <- EF. rewrite ParseUint_FormatUint by (unfold MaxUint64; lia).
    cbn [negb andb]. replace (2 ^ 63 <=? n) with false by (symmetry; apply Z.leb_gt; lia).
    reflexivity.
Qed.

(** [Atoi] always gives a 64-bit integer. *)
Lemma Atoi_int64 (s : gostring) : MinInt64 <= fst (Atoi s) <= MaxInt64.
Proof.
  unfold Atoi, ParseInt, MinInt64, MaxInt64.
  assert (0 < 2 ^ 63) as Hpos by (apply Z.pow_pos_nonneg; lia).
  destruct s as [|c t]; [cbn [fst]; lia|].
  cbv zeta. destruct (Ascii.eqb c "-"); destruct (Ascii.eqb c "+"); cbn [orb negb andb];
    match goal with
    | |- context [ParseUint ?x] => destruct (ParseUint x) as [un [e|]] eqn:EP
    end;
    try (destruct e; cbn [fst]; lia);
    apply ParseUint_range in EP; unfold MaxUint64 in EP;
    repeat match goal with
           | |- context [if ?b then _ else _] => destruct b eqn:?
           end;
    cbn [fst]; rewrite ?Z.ltb_ge, ?Z.leb_gt in *; lia.
Qed.

Lemma HasPrefix_self (p t : gostring) : HasPrefix (p ++ t) p = true.
Proof. induction p as [|b p IH]; [reflexivity|]. cbn. rewrite Ascii.eqb_refl. exact IH. Qed.

(** The first occurrence of a pattern whose first byte does not occur
    before it. *)
Lemma Index_from_pattern (b : ascii) (p pre rest : gostring) (i : Z) :
  b ∉ pre -> Index_from (pre ++ (b :: p) ++ rest) (b :: p) i = i + len pre.
Proof.
  revert i. induction pre as [|a pre IH]; intros i Hn.
  - cbn [app]. destruct p as [|c p].
    + cbn [Index_from]. rewrite HasPrefix_byte, Ascii.eqb_refl. unfold len; simpl; lia.
    + change (b :: (c :: p) ++ rest) with ((b :: c :: p) ++ rest).
      remember (b :: c :: p) as pat. destruct (pat ++ rest) as [|x xs] eqn:E;
        [subst pat; discriminate|].
      cbn [Index_from]. rewrite <- E, HasPrefix_self. unfold len; simpl; lia.
  - apply not_elem_of_cons in Hn as [Hne Hn].
    cbn [app Index_from]. cbn [HasPrefix]. rewrite (ascii_eqb_neq b a Hne). cbn [andb].
    rewrite IH by exact Hn. rewrite len_cons. lia.
Qed.

Module ReplyFacts.

Import Server.

Section ReplyFacts.

Context {W : Type} (os : OS W) (Message : Z -> gostring).

(** The extended-passive parser on a reply whose first bar starts
    [|||] and whose last bar stands after that. *)
Lemma epsv_reply_shape (pre body post : gostring) :
  "|"%char ∉ pre -> "|"%char ∉ post ->
  Client.epsv_reply (pre ++ lit "|||" ++ body ++ lit "|" ++ post) = Done (Atoi body).
Proof.
  intros Hpre Hpost. unfold Client.epsv_reply, Index, LastIndex.
  change (lit "|||") with ("|"%char :: lit "||"). change (lit "|") with ["|"%char].
  rewrite (Index_from_pattern "|" (lit "||") pre (body ++ ["|"%char] ++ post) 0 Hpre).
  replace (pre ++ ("|"%char :: lit "||") ++ body ++ ["|"%char] ++ post)
    with ((pre ++ lit "|||" ++ body) ++ "|"%char :: post)
    by (rewrite <- !app_assoc; reflexivity).
  rewrite LastIndex_from_byte by exact Hpost.
  rewrite !len_app. pose proof (len_nonneg pre). pose proof (len_nonneg body).
  change (len (lit "|||")) with 3.
  replace ((0 + len pre =? -1) || (0 + (len pre + (3 + len body)) =? -1)) with false
    by (symmetry; rewrite orb_false_iff, !Z.eqb_neq; lia).
  replace ((pre ++ lit "|||" ++ body) ++ "|"%char :: post)
    with ((pre ++ lit "|||") ++ body ++ "|"%char :: post)
    by (rewrite <- !app_assoc; reflexivity).
  replace (0 + len pre + 3) with (len (pre ++ lit "|||"))
    by (rewrite len_app; change (len (lit "|||")) with 3; lia).
  replace (0 + (len pre + (3 + len body))) with (len (pre ++ lit "|||") + len body)
    by (rewrite len_app; change (len (lit "|||")) with 3; lia).
  rewrite slice_middle. reflexivity.
Qed.

(** X10: what the client's EPSV parser makes of a reply.  A reply with no
    bar at all fails with the format error; a reply whose first bar
    starts [|||] and that has a later last bar decodes to what [Atoi]
    reads between them; a reply in which [|||] holds the last bar crashes
    the parser (the slice runs backwards). *)
Theorem epsv_reply_cases (pre body post : gostring) :
  "|"%char ∉ pre -> "|"%char ∉ post ->
  Client.epsv_reply (pre ++ post)
  = Done (0, Some (errors_New (lit "invalid EPSV response format")))
  /\ Client.epsv_reply (pre ++ lit "|||" ++ body ++ lit "|" ++ post) = Done (Atoi body)
  /\ Client.epsv_reply (pre ++ lit "|||" ++ post) = Panic SliceBoundsOutOfRange.
Proof.
  intros Hpre Hpost. split; [|split].
  - unfold Client.epsv_reply, Index, LastIndex.
    assert ("|"%char ∉ pre ++ post) as Hn
      by (rewrite elem_of_app; intros [?|?]; contradiction).
    change (lit "|") with ["|"%char]. rewrite (LastIndex_from_absent _ _ _ _ Hn).
    rewrite orb_true_r. reflexivity.
  - apply epsv_reply_shape; assumption.
  - unfold Client.epsv_reply, Index, LastIndex.
    change (lit "|||") with ("|"%char :: lit "||"). change (lit "|") with ["|"%char].
    rewrite (Index_from_pattern "|" (lit "||") pre post 0 Hpre).
    replace (pre ++ ("|"%char :: lit "||") ++ post)
      with ((pre ++ lit "||") ++ "|"%char :: post)
      by (rewrite <- !app_assoc; reflexivity).
    rewrite LastIndex_from_byte by exact Hpost.
    rewrite !len_app. pose proof (len_nonneg pre). pose proof (len_nonneg post).
    change (len (lit "||")) with 2.
    replace ((0 + len pre =? -1) || (0 + (len pre + 2) =? -1)) with false
      by (symmetry; rewrite orb_false_iff, !Z.eqb_neq; lia).
    unfold slice.
    replace (0 + len pre + 3 <=? 0 + (len pre + 2)) with false
      by (symmetry; apply Z.leb_gt; lia).
    rewrite andb_false_r. reflexivity.
Qed.

Lemma dispatch_EPSV (p0 : gostring) (args : list gostring) (st : State W) :
  ToUpper p0 = EPSV -> dispatch os Message (p0 :: args) st = do_EPSV os Message st.
Proof. intros H. rewrite ServerFacts.dispatch_word. cbv zeta. rewrite H. reflexivity. Qed.


(** The reply of a passive-mode command that opened its listener. *)
Lemma passive_reply (h : M (State W) bool) (code : Z) (text : PassiveConn -> gostring)
    (st st1 : State W) (pc : PassiveConn) :
  (forall s, h s = (c ← conn_of;
                    r ← NewPassiveConn os (host c);
                    match r with
                    | Err _ => _ ← sendStatusText os Message StatusCanNotOpenDataConnection;
                               mret true
                    | Ok passiveConn =>
                        _ ← set_sc (set_dataConn (Some passiveConn));
                        _ ← sendCodeLine os code (text passiveConn);
                        mret true
                    end) s) ->
  writer_err (sc st) = false ->
  NewPassiveConn os (host (sc st)) st = Done (Ok pc, st1) ->
  exists st2, h st = Done (true, st2)
    /\ trace st2 = Reply (Itoa code ++ lit " " ++ text pc) :: trace st.
Proof.
  intros Hh Hw Hn. destruct (ServerFacts.NewPassiveConn_frame _ _ _ _ _ Hn) as [Hsc Htr].
  rewrite Hh. unfold conn_of.
  unfold mbind at 1. unfold M_bind at 1. unfold mbind at 1. unfold M_bind at 1.
  unfold get at 1. unfold mret at 1. unfold M_ret at 1.
  unfold mbind at 1. unfold M_bind at 1. rewrite Hn.
  unfold set_sc, modify, mbind, M_bind, mret, M_ret.
  rewrite ServerFacts.sendCodeLine_healthy by (cbn [sc]; rewrite Hsc; exact Hw).
  eexists. split; [reflexivity|].
  rewrite ServerFacts.after_cmd_trace. cbn [trace]. rewrite Htr. reflexivity.
Qed.

(** X11: the port the client reads out of the server's EPSV reply is the
    port of the listener the server opened. *)
Theorem EPSV_reply_decodes
    (p0 : gostring) (args : list gostring) (st st1 : State W) (pc : PassiveConn) :
  ToUpper p0 = EPSV -> writer_err (sc st) = false ->
  NewPassiveConn os (host (sc st)) st = Done (Ok pc, st1) ->
  exists st2 msg,
    dispatch os Message (p0 :: args) st = Done (true, st2)
    /\ trace st2 = Reply (Itoa StatusExtendedPassiveMode ++ lit " " ++ msg) :: trace st
    /\ Client.epsv_reply msg = Done (Port pc, None).
Proof.
  intros Hw Hh Hn.
  destruct (passive_reply (do_EPSV os Message) StatusExtendedPassiveMode
              (fun pc => lit "Entering Extended Passive Mode (|||" ++ Itoa (Port pc) ++ lit "|)")
              st st1 pc) as (st2 & E & Htr); [reflexivity|exact Hh|exact Hn|].
  exists st2. eexists. split; [rewrite (dispatch_EPSV _ _ _ Hw); exact E|].
  split; [exact Htr|].
  change (lit "Entering Extended Passive Mode (|||")
    with (lit "Entering Extended Passive Mode (" ++ lit "|||").
  change (lit "|)") with (lit "|" ++ lit ")").
  rewrite <- !app_assoc. rewrite epsv_reply_shape.
  - rewrite Atoi_Itoa by apply Atoi_int64. reflexivity.
  - apply (bool_decide_unpack _); vm_compute; exact I.
  - apply (bool_decide_unpack _); vm_compute; exact I.
Qed.

(** X12: the port the client reads out of the server's PASV reply,
    high * 256 + low of its last two fields, is the port of the listener
    the server opened. *)
Theorem PASV_reply_decodes
    (p0 : gostring) (args : list gostring) (st st1 : State W) (pc : PassiveConn) :
  ToUpper p0 = PASV -> writer_err (sc st) = false ->
  NewPassiveConn os (host (sc st)) st = Done (Ok pc, st1) ->
  exists st2 msg,
    dispatch os Message (p0 :: args) st = Done (true, st2)
    /\ trace st2 = Reply (Itoa StatusPassiveMode ++ lit " " ++ msg) :: trace st
    /\ Client.pasv_reply msg = Done (Port pc, None).
Proof.
  intros Hw Hh Hn.
  destruct (passive_reply (do_PASV os Message) 227
              (fun pc => lit "Entering Passive Mode ("
                         ++ ReplaceAll (Host pc) (lit ".") (lit ",") ++ lit ","
                         ++ Itoa (Z.quot (Port pc) 256) ++ lit ","
                         ++ Itoa (Port pc - Z.quot (Port pc) 256 * 256) ++ lit ")")
              st st1 pc) as (st2 & E & Htr); [reflexivity|exact Hh|exact Hn|].
  exists st2. eexists. split; [rewrite (ServerFacts.dispatch_PASV _ _ _ _ _ Hw); exact E|].
  split; [exact Htr|].
  set (x := Z.quot (Port pc) 256). set (y := Port pc - x * 256).
  pose proof (Atoi_int64 (pc_port pc)) as Hp. fold (Port pc) in Hp.
  unfold MinInt64, MaxInt64 in Hp.
  assert (Hx : MinInt64 <= x <= MaxInt64).
  { unfold MinInt64, MaxInt64, x. split.
    - apply Z.quot_le_lower_bound; lia.
    - apply Z.quot_le_upper_bound; lia. }
  assert (Hy : MinInt64 <= y <= MaxInt64).
  { unfold MinInt64, MaxInt64, y, x.
    pose proof (Z.quot_rem (Port pc) 256 ltac:(lia)) as Hqr.
    pose proof (Z.rem_bound_abs (Port pc) 256 ltac:(lia)).
    lia. }
  change (lit "Entering Passive Mode (") with (lit "Entering Passive Mode " ++ lit "(").
  change (ReplaceAll (Host pc) (lit ".") (lit ",")) with (lit "127,0,0,1").
  replace (lit "127,0,0,1" ++ lit "," ++ Itoa x ++ lit "," ++ Itoa y ++ lit ")")
    with (Join ([lit "127"; lit "0"; lit "0"; lit "1"] ++ [Itoa x; Itoa y]) (lit ",")
          ++ lit ")" ++ [])
    by (cbn [app Join]; rewrite <- !app_assoc; cbn [app]; rewrite app_nil_r; reflexivity).
  rewrite <- (app_assoc (lit "Entering Passive Mode ") (lit "(")).
  rewrite (pasv_reply_fields (lit "Entering Passive Mode ") []
             [lit "127"; lit "0"; lit "0"; lit "1"] (Itoa x) (Itoa y)).
  - rewrite !Atoi_Itoa by assumption. cbn [fst].
    replace (x * 256 + y) with (Port pc) by (unfold y; lia).
    rewrite wrap64_small by lia. reflexivity.
  - apply (bool_decide_unpack _); vm_compute; exact I.
  - apply not_elem_of_nil.
  - cbn [app]. do 4 (apply Forall_cons; split; [apply (bool_decide_unpack _); vm_compute; exact I|]).
    repeat (apply Forall_cons; split; [apply Itoa_without; [discriminate|reflexivity]|]).
    constructor.
Qed.

(** X13: what the client's PWD parser makes of a reply.  It returns the
    text between the first and the last double quote, quotes inside
    included; a reply without a double quote fails with the format error;
    a reply with exactly one double quote crashes the parser (the slice
    runs backwards). *)
Theorem pwd_reply_cases (pre body post : gostring) :
  QUOTE ∉ pre -> QUOTE ∉ post ->
  ClientOps.pwd_reply (pre ++ post)
  = Done ([], Some (errors_New (lit "unsupported PWD response format")))
  /\ ClientOps.pwd_reply (pre ++ [QUOTE] ++ body ++ [QUOTE] ++ post) = Done (body, None)
  /\ ClientOps.pwd_reply (pre ++ [QUOTE] ++ post) = Panic SliceBoundsOutOfRange.
Proof.
  intros Hpre Hpost. split; [|split]; unfold ClientOps.pwd_reply, Index, LastIndex.
  - assert (QUOTE ∉ pre ++ post) as Hn
      by (rewrite elem_of_app; intros [?|?]; contradiction).
    rewrite (Index_from_absent _ _ _ Hn). reflexivity.
  - cbn [app]. rewrite Index_from_byte by exact Hpre.
    replace (pre ++ QUOTE :: body ++ QUOTE :: post)
      with ((pre ++ QUOTE :: body) ++ QUOTE :: post)
      by (rewrite <- app_assoc; reflexivity).
    rewrite LastIndex_from_byte by exact Hpost.
    rewrite len_app, len_cons.
    pose proof (len_nonneg pre). pose proof (len_nonneg body).
    replace ((0 + len pre =? -1) || (0 + (len pre + (len body + 1)) =? -1)) with false
      by (symmetry; rewrite orb_false_iff, !Z.eqb_neq; lia).
    replace ((pre ++ QUOTE :: body) ++ QUOTE :: post)
      with ((pre ++ [QUOTE]) ++ body ++ QUOTE :: post)
      by (rewrite <- !app_assoc; reflexivity).
    replace (0 + len pre + 1) with (len (pre ++ [QUOTE]))
      by (rewrite len_app; unfold len; simpl; lia).
    replace (0 + (len pre + (len body + 1))) with (len (pre ++ [QUOTE]) + len body)
      by (rewrite len_app; unfold len; simpl; lia).
    rewrite slice_middle. reflexivity.
  - cbn [app]. rewrite Index_from_byte by exact Hpre.
    rewrite LastIndex_from_byte by exact Hpost.
    pose proof (len_nonneg pre).
    replace ((0 + len pre =? -1) || (0 + len pre =? -1)) with false
      by (symmetry; rewrite orb_false_iff, !Z.eqb_neq; lia).
    unfold slice.
    replace (0 + len pre + 1 <=? 0 + len pre) with false by (symmetry; apply Z.leb_gt; lia).
    rewrite andb_false_r. reflexivity.
Qed.


End ReplyFacts.

End ReplyFacts.

(* ------------------------------------------------------------------ *)
(** ** The further properties on explicit inputs                       *)
(* ------------------------------------------------------------------ *)

Lemma Toy_flush_ok : Server.flush_ok Toy.os.
Proof. intros msg w. reflexivity. Qed.

Lemma session_fields_frame_witness :
  exists st',
    Server.dispatch Toy.os Toy.Message [lit "mkd"; lit "new"] Toy.session = Done (true, st')
    /\ (Server.host (Server.sc st') = Server.host (Server.sc Toy.session)
        /\ (ToUpper (lit "mkd") <> Server.CWD ->
            Server.prefix (Server.sc st') = Server.prefix (Server.sc Toy.session))
        /\ (ToUpper (lit "mkd") <> Server.RNFR ->
            Server.rn (Server.sc st') = Server.rn (Server.sc Toy.session))).
Proof.
  eexists. split; [vm_compute; reflexivity|].
  apply (SessionFacts.session_fields_frame Toy.os Toy.Message (lit "mkd") [lit "new"]
           Toy.session _ true).
  vm_compute. reflexivity.
Defined.

Lemma dataConn_changes_only_by_negotiation_witness :
  exists st',
    Server.dispatch Toy.os Toy.Message [lit "STOR"; lit "up.bin"] passive_session
    = Done (true, st')
    /\ Server.dataConn (Server.sc st') = Server.dataConn (Server.sc passive_session)
    /\ Server.writer_err (Server.sc st') = false.
Proof.
  eexists. split; [vm_compute; reflexivity|].
  apply (SessionFacts.dataConn_changes_only_by_negotiation Toy.os Toy.Message Toy_flush_ok
           (lit "STOR") [lit "up.bin"] passive_session _ true).
  - reflexivity.
  - discriminate.
  - discriminate.
  - discriminate.
  - vm_compute. reflexivity.
Defined.

Lemma every_command_is_answered_witness :
  exists st',
    Server.dispatch Toy.os Toy.Message [lit "LIST"] passive_session = Done (true, st')
    /\ Server.writer_err (Server.sc st') = false
    /\ exists new, Server.trace st' = new ++ Server.trace passive_session
         /\ Exists is_reply new
         /\ (Server.CtlClose ∉ new)
         /\ (ToUpper (lit "LIST") <> Server.LIST -> ToUpper (lit "LIST") <> Server.RETR ->
             Forall is_reply new).
Proof.
  eexists. split; [vm_compute; reflexivity|].
  apply (SessionFacts.every_command_is_answered Toy.os Toy.Message Toy_flush_ok
           (lit "LIST") [] passive_session _ true).
  - reflexivity.
  - discriminate.
  - vm_compute. reflexivity.
Defined.


Lemma only_QUIT_ends_the_loop_witness :
  false = false <-> command_word (lit "quit" ++ CRLF) = Server.QUIT.
Proof.
  eapply (SessionFacts.only_QUIT_ends_the_loop Toy.os Toy.Message (lit "quit" ++ CRLF)
            Toy.session).
  vm_compute. reflexivity.
Defined.

Lemma Serve_stops_at_QUIT_witness :
  Server.Serve Toy.os Toy.Message
    ([lit "NOOP" ++ CRLF] ++ (lit "QUIT" ++ CRLF) :: [lit "DELE notes.txt" ++ CRLF])
    (sys_error (lit "read: connection reset by peer")) Toy.session
  = Server.Serve Toy.os Toy.Message ([lit "NOOP" ++ CRLF] ++ [lit "QUIT" ++ CRLF]) io_EOF
      Toy.session.
Proof.
  apply (SessionFacts.Serve_stops_at_QUIT Toy.os Toy.Message [lit "NOOP" ++ CRLF]
           [lit "DELE notes.txt" ++ CRLF] (lit "QUIT" ++ CRLF)).
  vm_compute. reflexivity.
Defined.

Lemma plain_commands_answer_once_witness :
  exists st' msg,
    Server.dispatch Toy.os Toy.Message [lit "FEAT"] Toy.session = Done (true, st')
    /\ Server.trace st' = Server.Reply msg :: Server.trace Toy.session.
Proof.
  apply (CommandFacts.plain_commands_answer_once Toy.os Toy.Message (lit "FEAT") [] Toy.session).
  - reflexivity.
  - apply (bool_decide_unpack _). vm_compute. exact I.
Defined.


Lemma TYPE_reads_its_argument_witness :
  Server.dispatch Toy.os Toy.Message [lit "TYPE"] Toy.session = Panic IndexOutOfRange.
Proof.
  apply (CommandFacts.TYPE_reads_its_argument Toy.os Toy.Message (lit "TYPE") [] Toy.session).
  - reflexivity.
  - reflexivity.
Defined.

Lemma epsv_reply_cases_witness :
  Client.epsv_reply (lit "Entering Extended Passive Mode (" ++ lit ")")
  = Done (0, Some (errors_New (lit "invalid EPSV response format")))
  /\ Client.epsv_reply (lit "Entering Extended Passive Mode (" ++ lit "|||" ++ lit "65202"
                        ++ lit "|" ++ lit ")")
     = Done (Atoi (lit "65202"))
  /\ Client.epsv_reply (lit "Entering Extended Passive Mode (" ++ lit "|||" ++ lit ")")
     = Panic SliceBoundsOutOfRange.
Proof.
  apply (ReplyFacts.epsv_reply_cases (lit "Entering Extended Passive Mode (") (lit "65202")
           (lit ")")).
  - apply (bool_decide_unpack _). vm_compute. exact I.
  - apply (bool_decide_unpack _). vm_compute. exact I.
Defined.

Lemma EPSV_reply_decodes_witness :
  exists st2 msg,
    Server.dispatch Toy.os Toy.Message [lit "EPSV"] Toy.session = Done (true, st2)
    /\ Server.trace st2
       = Server.Reply (Itoa StatusExtendedPassiveMode ++ lit " " ++ msg)
         :: Server.trace Toy.session
    /\ Client.epsv_reply msg = Done (Server.Port passive_channel, None).
Proof.
  apply (ReplyFacts.EPSV_reply_decodes Toy.os Toy.Message (lit "EPSV") [] Toy.session
           {| Server.sc := Server.sc Toy.session;
              Server.world := snd (Toy.listen (lit "192.168.1.5:0") Toy.disk);
              Server.trace := [] |}
           passive_channel).
  - reflexivity.
  - reflexivity.
  - vm_compute. reflexivity.
Defined.

Lemma PASV_reply_decodes_witness :
  exists st2 msg,
    Server.dispatch Toy.os Toy.Message [lit "PASV"] Toy.session = Done (true, st2)
    /\ Server.trace st2
       = Server.Reply (Itoa StatusPassiveMode ++ lit " " ++ msg) :: Server.trace Toy.session
    /\ Client.pasv_reply msg = Done (Server.Port passive_channel, None).
Proof.
  apply (ReplyFacts.PASV_reply_decodes Toy.os Toy.Message (lit "PASV") [] Toy.session
           {| Server.sc := Server.sc Toy.session;
              Server.world := snd (Toy.listen (lit "192.168.1.5:0") Toy.disk);
              Server.trace := [] |}
           passive_channel).
  - reflexivity.
  - reflexivity.
  - vm_compute. reflexivity.
Defined.

Lemma pwd_reply_cases_witness :
  ClientOps.pwd_reply ([] ++ lit " is current directory.")
  = Done ([], Some (errors_New (lit "unsupported PWD response format")))
  /\ ClientOps.pwd_reply ([] ++ [QUOTE] ++ lit "pub" ++ [QUOTE] ++ lit " is current directory.")
     = Done (lit "pub", None)
  /\ ClientOps.pwd_reply ([] ++ [QUOTE] ++ lit " is current directory.")
     = Panic SliceBoundsOutOfRange.
Proof.
  apply (ReplyFacts.pwd_reply_cases [] (lit "pub") (lit " is current directory.")).
  - apply (bool_decide_unpack _). vm_compute. exact I.
  - apply (bool_decide_unpack _). vm_compute. exact I.
Defined.

